(** * DataContext: evaluation-parameter compilation and registration

    A shallow embedding of [great_expectations/data_context/base.py]:
    the parameter store ([store_validation_param], [get_validation_param],
    [bind_evaluation_parameters]), the index compiler ([_compile]) and the
    result matcher ([register_validation_results]).

    Python objects are modelled as follows.
    - [str] is [string]; its characters are [ascii].
    - A JSON document (what [json.load] returns) is [json].  The code never
      computes with numbers, it only moves them, so a number is an integer
      literal here.
    - A [dict] whose iteration order is observable is an association list in
      insertion order, read with [dict_get] and written with [dict_set]; the
      keys of a dict that comes from a JSON document are distinct.
    - A [set] of strings is a duplicate-free list in insertion order (the
      order Python iterates a set in is unspecified; the model fixes one).
    - [self.validation_params] is only ever read and written by key, so it is
      a [gmap string json].
    - Exceptions, the logger and attribute mutation are the effects of a
      small state/log/exception monad [M]. *)

From Stdlib Require Import String Ascii List ZArith Bool Lia.
From stdpp Require Import base tactics option list gmap strings.
Import ListNotations.
Local Open Scope string_scope.
Local Open Scope list_scope.

(** ** Python values *)

#[local] Set Warnings "-register-all".

Inductive json : Type :=
| JNull
| JBool (b : bool)
| JNum (n : Z)
| JStr (s : string)
| JList (l : list json)
| JDict (d : list (string * json)).

Inductive exn : Type :=
| IndexError
| KeyError
| TypeError
| ValueError
| AttributeError.

Inductive outcome (A : Type) : Type :=
| Ret (a : A)
| Raise (e : exn).
Arguments Ret {A} a.
Arguments Raise {A} e.

(** ** Dictionaries in insertion order *)

Section PyDict.
Context {V : Type}.

Fixpoint dict_get (k : string) (d : list (string * V)) : option V :=
  match d with
  | [] => None
  | (k', v) :: d' => if String.eqb k k' then Some v else dict_get k d'
  end.

(** [k in d] *)
Definition dict_mem (k : string) (d : list (string * V)) : bool :=
  match dict_get k d with Some _ => true | None => false end.

(** [d[k] = v]: an existing key keeps its position, a new one goes last. *)
Fixpoint dict_set (k : string) (v : V) (d : list (string * V))
  : list (string * V) :=
  match d with
  | [] => [(k, v)]
  | (k', v') :: d' =>
      if String.eqb k k' then (k', v) :: d' else (k', v') :: dict_set k v d'
  end.

Definition dict_keys (d : list (string * V)) : list string := map fst d.
End PyDict.

(** ** Sets of strings *)

Definition set_mem (x : string) (s : list string) : bool :=
  existsb (String.eqb x) s.

(** [s.add(x)] *)
Definition set_add (x : string) (s : list string) : list string :=
  if set_mem x s then s else s ++ [x].

(** ** Strings *)

(** [s.split(":")] *)
Fixpoint split_colon (s : string) : list string :=
  match s with
  | EmptyString => [EmptyString]
  | String c s' =>
      if Ascii.eqb c ":"%char then EmptyString :: split_colon s'
      else match split_colon s' with
           | h :: t => String c h :: t
           | [] => [String c EmptyString]
           end
  end.

(** [l[-1]] on a non-empty list; [split_colon] never returns an empty one. *)
Definition last_part (l : list string) : string := List.last l EmptyString.

(** [p in s] for two strings: substring test. *)
Fixpoint is_substring (p s : string) : bool :=
  String.prefix p s ||
  match s with
  | EmptyString => false
  | String _ s' => is_substring p s'
  end.

(** Iterating a string yields its characters as one-character strings. *)
Fixpoint chars (s : string) : list string :=
  match s with
  | EmptyString => []
  | String c s' => String c EmptyString :: chars s'
  end.

(** [a, b = s]: unpacking a string into two targets. *)
Definition unpack2 (s : string) : outcome (string * string) :=
  match s with
  | String a (String b EmptyString) =>
      Ret (String a EmptyString, String b EmptyString)
  | _ => Raise ValueError
  end.

(** [k in v] where [k] is a string and [v] any JSON value. *)
Definition json_contains (k : string) (v : json) : outcome bool :=
  match v with
  | JDict d => Ret (dict_mem k d)
  | JList l =>
      Ret (existsb (fun x => match x with
                             | JStr s => String.eqb k s
                             | _ => false
                             end) l)
  | JStr s => Ret (is_substring k s)
  | JNull | JBool _ | JNum _ => Raise TypeError
  end.

(** [v in d] where [v] is any JSON value and [d] a dict keyed by strings:
    lists and dicts are unhashable, other non-strings are never a key. *)
Definition json_in_keys (v : json) (keys : list string) : outcome bool :=
  match v with
  | JStr s => Ret (set_mem s keys)
  | JList _ | JDict _ => Raise TypeError
  | JNull | JBool _ | JNum _ => Ret false
  end.

(** ** The effect monad: state, logged warnings, exceptions *)

Definition M (St A : Type) : Type := St -> St * list string * outcome A.

Section Monad.
Context {St : Type}.

Definition ret {A} (a : A) : M St A := fun s => (s, [], Ret a).

Definition bind {A B} (m : M St A) (f : A -> M St B) : M St B :=
  fun s =>
    match m s with
    | (s1, w1, Ret a) =>
        match f a s1 with
        | (s2, w2, o) => (s2, w1 ++ w2, o)
        end
    | (s1, w1, Raise e) => (s1, w1, Raise e)
    end.

Definition raise {A} (e : exn) : M St A := fun s => (s, [], Raise e).

Definition get : M St St := fun s => (s, [], Ret s).

(** Reading one attribute of the state. *)
Definition gets {B} (f : St -> B) : M St B := fun s => (s, [], Ret (f s)).

Definition modify (f : St -> St) : M St unit := fun s => (f s, [], Ret tt).

(** [logger.warning(msg)] *)
Definition warning (msg : string) : M St unit := fun s => (s, [msg], Ret tt).

Definition lift_outcome {A} (o : outcome A) : M St A := fun s => (s, [], o).

(** [x] if it is there, else raise [e]. *)
Definition or_raise {A} (e : exn) (o : option A) : M St A :=
  match o with Some a => ret a | None => raise e end.

(** [try: m except IndexError: h] *)
Definition try_IndexError (m h : M St unit) : M St unit :=
  fun s =>
    match m s with
    | (s1, w1, Raise IndexError) =>
        match h s1 with
        | (s2, w2, o) => (s2, w1 ++ w2, o)
        end
    | r => r
    end.

(** [if c: m] *)
Definition when (c : bool) (m : M St unit) : M St unit :=
  if c then m else ret tt.
End Monad.

Declare Scope py_scope.
Delimit Scope py_scope with py.
Notation "x ← y ; z" := (bind y (fun x => z)) : py_scope.
Notation "y ;; z" := (bind y (fun _ => z)) : py_scope.
Local Open Scope py_scope.

(** [for x in l: f x] *)
Fixpoint for_each {St A} (l : list A) (f : A -> M St unit) : M St unit :=
  match l with
  | [] => ret tt
  | x :: l' => f x ;; for_each l' f
  end.

(** [l[i]] *)
Definition index {St} (l : list string) (i : nat) : M St string :=
  or_raise IndexError (nth_error l i).

(** ** The compiled parameter index

    [self._compiled_parameters] is
    [{"raw": set, "data_assets": {asset: {expectation: node}}}].  The node
    under an expectation name starts as a dict from column name to
    [{type_key: set}]; line 191 of the source can replace it by a set. *)

Definition type_sets : Type := list (string * list string).

Inductive kind_node : Type :=
| KDict (cols : list (string * type_sets))
| KSet (s : list string).

Definition asset_node : Type := list (string * kind_node).

Record compiled_parameters : Type := {
  raw : list string;
  data_assets : list (string * asset_node)
}.

Definition empty_parameters : compiled_parameters :=
  {| raw := []; data_assets := [] |}.

(** [x in node] *)
Definition node_contains (x : string) (n : kind_node) : bool :=
  match n with
  | KDict cols => dict_mem x cols
  | KSet s => set_mem x s
  end.

Module Index.
(** Reads and writes of [self._compiled_parameters["data_assets"]] at
    increasing depth.  A missing key raises [KeyError]; subscripting or
    assigning into a set raises [TypeError]. *)

Definition M' : Type -> Type := M compiled_parameters.

Definition add_raw (parameter : string) : M' unit :=
  modify (fun cp => {| raw := set_add parameter (raw cp);
                       data_assets := data_assets cp |}).

Definition get_asset (a : string) : M' asset_node :=
  cp ← get; or_raise KeyError (dict_get a (data_assets cp)).

Definition set_asset (a : string) (d : asset_node) : M' unit :=
  modify (fun cp => {| raw := raw cp;
                       data_assets := dict_set a d (data_assets cp) |}).

Definition get_kind (a k : string) : M' kind_node :=
  d ← get_asset a; or_raise KeyError (dict_get k d).

Definition set_kind (a k : string) (n : kind_node) : M' unit :=
  d ← get_asset a; set_asset a (dict_set k n d).

Definition get_column (a k c : string) : M' type_sets :=
  n ← get_kind a k;
  match n with
  | KDict cols => or_raise KeyError (dict_get c cols)
  | KSet _ => raise TypeError
  end.

Definition set_column (a k c : string) (col : type_sets) : M' unit :=
  n ← get_kind a k;
  match n with
  | KDict cols => set_kind a k (KDict (dict_set c col cols))
  | KSet _ => raise TypeError
  end.

Definition get_type (a k c t : string) : M' (list string) :=
  col ← get_column a k c; or_raise KeyError (dict_get t col).

Definition set_type (a k c t : string) (s : list string) : M' unit :=
  col ← get_column a k c; set_column a k c (dict_set t s col).
End Index.

(** ** Rule sets *)

Record expectation : Type := {
  expectation_type : string;
  kwargs : list (string * json)
}.

Record config : Type := {
  expectations : list expectation
}.

(** ** [_compile] *)

Definition validations_prefix : string := "urn:great_expectations:validations:".

(** Lines 176-204: one parameter that carries the prefix. *)
Definition compile_parameter (known_assets : list string) (parameter : string)
  : M compiled_parameters unit :=
  Index.add_raw parameter ;;
  let param_parts := split_colon parameter in
  try_IndexError
    (p3 ← index param_parts 3;
     when (negb (set_mem p3 known_assets))
       (warning ("Adding parameter " ++ parameter
                 ++ " for unknown data asset config")) ;;
     cp ← get;
     when (negb (dict_mem p3 (data_assets cp))) (Index.set_asset p3 []) ;;
     p5 ← index param_parts 5;
     d ← Index.get_asset p3;
     when (negb (dict_mem p5 d)) (Index.set_kind p3 p5 (KDict [])) ;;
     p6 ← index param_parts 6;
     if set_mem p6 ["results"; "details"] then
       n ← Index.get_kind p3 p5;
       when (negb (node_contains p6 n)) (Index.set_kind p3 p5 (KSet [])) ;;
       n ← Index.get_kind p3 p5;
       match n with
       | KSet _ => raise TypeError
       | KDict cols =>
           _ ← or_raise KeyError (dict_get p6 cols); raise AttributeError
       end
     else if String.eqb p6 "columns" then
       p7 ← index param_parts 7;
       n ← Index.get_kind p3 p5;
       when (negb (node_contains p7 n)) (Index.set_column p3 p5 p7 []) ;;
       p8 ← index param_parts 8;
       col ← Index.get_column p3 p5 p7;
       when (negb (dict_mem p8 col)) (Index.set_type p3 p5 p7 p8 []) ;;
       s ← Index.get_type p3 p5 p7 p8;
       Index.set_type p3 p5 p7 p8 (set_add parameter s)
     else
       warning ("Invalid parameter urn (unrecognized structure): "
                ++ parameter))
    (warning ("Invalid parameter urn (not enough parts): " ++ parameter)).

(** Lines 173-175: one keyword-argument value of an expectation. *)
Definition compile_value (known_assets : list string) (value : json)
  : M compiled_parameters unit :=
  match value with
  | JDict d =>
      match dict_get "$PARAMETER" d with
      | Some (JStr parameter) =>
          when (String.prefix validations_prefix parameter)
            (compile_parameter known_assets parameter)
      | Some _ => raise AttributeError
      | None => ret tt
      end
  | _ => ret tt
  end.

(** Lines 167-172: the loops over the stored configurations.  The directory
    is a list of (file stem, parsed document). *)
Definition compile_configs (configs : list (string * config))
  : M compiled_parameters unit :=
  let known_assets := map fst configs in
  for_each configs (fun nc =>
    for_each (expectations (snd nc)) (fun e =>
      for_each (kwargs e) (fun kv =>
        compile_value known_assets (snd kv)))).

(** ** The context object *)

Record DataContext : Type := {
  configs : list (string * config);
  validation_params : gmap string json;
  _compiled : bool;
  _compiled_parameters : option compiled_parameters
}.

Definition set_validation_params (vp : gmap string json) (self : DataContext)
  : DataContext :=
  {| configs := configs self; validation_params := vp;
     _compiled := _compiled self;
     _compiled_parameters := _compiled_parameters self |}.

Definition set_compiled (b : bool) (self : DataContext) : DataContext :=
  {| configs := configs self; validation_params := validation_params self;
     _compiled := b; _compiled_parameters := _compiled_parameters self |}.

Definition set_compiled_parameters (cp : option compiled_parameters)
    (self : DataContext) : DataContext :=
  {| configs := configs self; validation_params := validation_params self;
     _compiled := _compiled self; _compiled_parameters := cp |}.

(** [connect]: the attributes a fresh context has over a given directory. *)
Definition connect (dir : list (string * config)) : DataContext :=
  {| configs := dir; validation_params := ∅;
     _compiled := false; _compiled_parameters := None |}.

(** Runs a computation on the object held by [self._compiled_parameters];
    reading the attribute before it was ever assigned is an
    [AttributeError]. *)
Definition on_compiled_parameters {A} (m : M compiled_parameters A)
  : M DataContext A :=
  fun self =>
    match _compiled_parameters self with
    | None => (self, [], Raise AttributeError)
    | Some cp =>
        match m cp with
        | (cp', w, o) => (set_compiled_parameters (Some cp') self, w, o)
        end
    end.

Definition _compile : M DataContext unit :=
  modify (set_compiled_parameters (Some empty_parameters)) ;;
  dir ← gets configs;
  on_compiled_parameters (compile_configs dir) ;;
  modify (set_compiled true).

(** ** The parameter store and the binder *)

Definition store_validation_param (key : string) (value : json)
  : M DataContext unit :=
  modify (fun self =>
            set_validation_params (<[key := value]> (validation_params self))
                                  self).

(** The subscript is the literal ["key"], as in the source; [None] is
    Python's [None]. *)
Definition get_validation_param (key : string) : M DataContext (option json) :=
  params ← gets validation_params; ret (params !! "key").

Definition bind_evaluation_parameters (run_id : string)
    (expectations_config : config) : M DataContext json :=
  params ← gets validation_params;
  ret (match params !! run_id with
       | Some v => v
       | None => JDict []
       end).

(** ** Validation results *)

Record result_entry : Type := {
  expectation_config : expectation;
  result : list (string * json);
  success : bool
}.

Record validation_results_t : Type := {
  meta : list (string * json);
  results : list result_entry
}.

(** ** [register_validation_results] *)

(** [self._compiled_parameters["data_assets"]] *)
Definition compiled_data_assets : M DataContext (list (string * asset_node)) :=
  attr ← gets _compiled_parameters;
  cp ← or_raise AttributeError attr;
  ret (data_assets cp).

(** [v in node] for a JSON value [v]. *)
Definition json_in_node (v : json) (n : kind_node) : outcome bool :=
  match n with
  | KDict cols => json_in_keys v (dict_keys cols)
  | KSet s => json_in_keys v s
  end.

(** Lines 94-100 and again 106-112: the body run for one desired
    parameter. *)
Definition register_desired_param (r : result_entry)
    (type_key desired_param : string) : M DataContext unit :=
  let desired_key := last_part (split_colon desired_param) in
  if String.eqb type_key "result" && dict_mem desired_key (result r) then
    v ← or_raise KeyError (dict_get desired_key (result r));
    store_validation_param desired_param v
  else
    in_details ←
      (if String.eqb type_key "details" then
         details ← or_raise KeyError (dict_get "details" (result r));
         lift_outcome (json_contains desired_key details)
       else ret false);
    if in_details then
      details ← or_raise KeyError (dict_get "details" (result r));
      store_validation_param desired_param details
    else
      warning ("Unrecognized key for parameter " ++ desired_param).

(** Lines 87-100: the column-scoped loop. *)
Definition register_column_params (data_asset_name : string)
    (r : result_entry) : M DataContext unit :=
  match dict_get "column" (kwargs (expectation_config r)) with
  | None => ret tt
  | Some column =>
      assets ← compiled_data_assets;
      entry ← or_raise KeyError (dict_get data_asset_name assets);
      columns ← or_raise KeyError (dict_get "columns" entry);
      present ← lift_outcome (json_in_node column columns);
      when present
        match columns, column with
        | KSet _, _ => raise TypeError
        | KDict cols, JStr c =>
            col ← or_raise KeyError (dict_get c cols);
            for_each col (fun item =>
              for_each (snd item) (register_desired_param r (fst item)))
        | KDict _, _ => raise KeyError
        end
  end.

(** Lines 102-112: the loop written over the asset's dict itself, so it
    iterates the dict's keys and unpacks each key into two targets. *)
Definition register_asset_params (data_asset_name : string)
    (r : result_entry) : M DataContext unit :=
  assets ← compiled_data_assets;
  entry ← or_raise KeyError (dict_get data_asset_name assets);
  for_each (dict_keys entry) (fun key =>
    pair ← lift_outcome (unpack2 key);
    let type_key := fst pair in
    let desired_parameters := snd pair in
    if String.eqb type_key "columns" then ret tt
    else for_each (chars desired_parameters)
                  (register_desired_param r type_key)).

(** Lines 84-112 for one element of [validation_results['results']]. *)
Definition register_result (data_asset_name : string) (r : result_entry)
  : M DataContext unit :=
  assets ← compiled_data_assets;
  entry ← or_raise KeyError (dict_get data_asset_name assets);
  when (dict_mem (expectation_type (expectation_config r)) entry)
    (register_column_params data_asset_name r ;;
     register_asset_params data_asset_name r).

Definition no_data_asset_name_warning : string :=
  "No data_asset_name found in validation results; evaluation parameters cannot be registered.".

(** Lines 72-73: compile lazily. *)
Definition ensure_compiled : M DataContext unit :=
  compiled ← gets _compiled;
  when (negb compiled) _compile.

Definition register_validation_results (run_id : string)
    (validation_results : validation_results_t) : M DataContext unit :=
  ensure_compiled ;;
  match dict_get "data_asset_name" (meta validation_results) with
  | None => warning no_data_asset_name_warning
  | Some name =>
      assets ← compiled_data_assets;
      known ← lift_outcome (json_in_keys name (dict_keys assets));
      if negb known then ret tt
      else
        match name with
        | JStr data_asset_name =>
            for_each (results validation_results)
                     (register_result data_asset_name)
        | _ => raise KeyError
        end
  end.

(** ** Observations used by the statements *)

(** The three components of a run. *)
Definition state_of {St A} (r : St * list string * outcome A) : St := r.1.1.
Definition log_of {St A} (r : St * list string * outcome A) : list string :=
  r.1.2.
Definition outcome_of {St A} (r : St * list string * outcome A) : outcome A :=
  r.2.

(** The leaf set reached by [data_assets[a][k][c][t]]; empty when the path
    does not exist. *)
Definition leaf_col (col : type_sets) (t : string) : list string :=
  default [] (dict_get t col).

Definition leaf_node (n : kind_node) (c t : string) : list string :=
  match n with
  | KDict cols =>
      match dict_get c cols with Some col => leaf_col col t | None => [] end
  | KSet _ => []
  end.

Definition leaf_asset (d : asset_node) (k c t : string) : list string :=
  match dict_get k d with Some n => leaf_node n c t | None => [] end.

Definition leaf_assets (assets : list (string * asset_node))
    (a k c t : string) : list string :=
  match dict_get a assets with
  | Some d => leaf_asset d k c t
  | None => []
  end.

Definition leaf (cp : compiled_parameters) (a k c t : string) : list string :=
  leaf_assets (data_assets cp) a k c t.

(** Segments [3], [5], [7], [8] of a column-scoped identifier, whose segment
    [6] is ["columns"]. *)
Definition column_form (parameter a k c t : string) : Prop :=
  let parts := split_colon parameter in
  nth_error parts 3 = Some a /\ nth_error parts 5 = Some k /\
  nth_error parts 6 = Some "columns" /\
  nth_error parts 7 = Some c /\ nth_error parts 8 = Some t.

(** The parameters [_compile] looks at: every ["$PARAMETER"] string that
    carries the prefix, in the order the loops meet them. *)
Definition requested_value (value : json) : list string :=
  match value with
  | JDict d =>
      match dict_get "$PARAMETER" d with
      | Some (JStr parameter) =>
          if String.prefix validations_prefix parameter then [parameter]
          else []
      | _ => []
      end
  | _ => []
  end.

Definition requested_expectation (e : expectation) : list string :=
  concat (map (fun kv => requested_value (snd kv)) (kwargs e)).

Definition requested_config (nc : string * config) : list string :=
  concat (map requested_expectation (expectations (snd nc))).

Definition requested (dir : list (string * config)) : list string :=
  concat (map requested_config dir).

(** A sequence of upserts into [validation_params]. *)
Definition apply_writes (ws : list (string * json)) (vp : gmap string json)
  : gmap string json :=
  fold_left (fun m kv => <[kv.1 := kv.2]> m) ws vp.

(** ** Specifications *)

(** [hoare P m Q]: from a state in [P], the run of [m] ends in a state and
    an outcome related by [Q]. *)
Definition hoare {St A} (P : St -> Prop) (m : M St A)
    (Q : St -> outcome A -> Prop) : Prop :=
  forall s, P s -> Q (state_of (m s)) (outcome_of (m s)).

(** [raw] holds exactly the parameters in [seen]. *)
Definition raw_is (seen : list string) (cp : compiled_parameters) : Prop :=
  forall x, In x (raw cp) <-> In x seen.

(** The leaf sets hold exactly the column-scoped parameters in [seen], each
    at the path its own segments name. *)
Definition indexed (seen : list string) (cp : compiled_parameters) : Prop :=
  forall a k c t x,
    In x (leaf cp a k c t) <-> In x seen /\ column_form x a k c t.

Definition compiled_from (seen : list string) (cp : compiled_parameters)
  : Prop :=
  raw_is seen cp /\ indexed seen cp.

Definition same_leaves (s0 s : compiled_parameters) : Prop :=
  raw s = raw s0 /\ forall a k c t, leaf s a k c t = leaf s0 a k c t.

(** Between the insertion into [raw] and the insertion into a leaf set, while
    the compiler works on parameter [p]. *)
Definition pending (seen : list string) (p : string)
    (s : compiled_parameters) : Prop :=
  raw_is (seen ++ [p]) s /\ indexed seen s.

(** Postconditions inside the [try] of the compiler: a value, or an
    [IndexError] that the handler will absorb; any other exception leaves the
    compiler. *)
Definition soft (seen : list string) (p : string) {A}
    (R : A -> compiled_parameters -> Prop)
    (s : compiled_parameters) (o : outcome A) : Prop :=
  match o with
  | Ret a => R a s
  | Raise IndexError => compiled_from (seen ++ [p]) s
  | Raise _ => True
  end.

(** [m] reads nothing from [validation_params] and changes it only by a
    sequence of upserts that does not depend on its contents. *)
Definition frames_params {A} (m : M DataContext A) : Prop :=
  forall self, exists ws self1 w o,
    forall vp,
      m (set_validation_params vp self) =
      (set_validation_params (apply_writes ws vp) self1, w, o).

(** The invariant of the data model as the specification words it. *)
Definition every_raw_in_one_leaf (cp : compiled_parameters) : Prop :=
  forall x, In x (raw cp) ->
    exists a k c t,
      In x (leaf cp a k c t) /\
      forall a' k' c' t',
        In x (leaf cp a' k' c' t') -> (a', k', c', t') = (a, k, c, t).


Ltac run_index :=
  unfold Index.set_type, Index.get_type, Index.set_column, Index.get_column,
    Index.set_kind, Index.get_kind, Index.set_asset, Index.get_asset,
    Index.add_raw, when, bind, get, modify, or_raise, ret, raise,
    state_of, outcome_of; simpl.

(** ** Scenarios *)

Module Scenario.
Definition min_value_urn : string :=
  "urn:great_expectations:validations:orders:expectations:expect_column_values_to_be_between:result:min_value".

Definition details_urn : string :=
  "urn:great_expectations:validations:orders:expectations:expect_column_values_to_be_between:details:mean".

Definition column_urn : string :=
  "urn:great_expectations:validations:orders:expectations:expect_column_values_to_be_between:columns:price:result:min_value".

Definition short_urn : string :=
  "urn:great_expectations:validations:orders".

Definition reference (urn : string) : json := JDict [("$PARAMETER", JStr urn)].

(** A directory with the configuration of [orders] (no expectations) and
    one of [invoices] whose single expectation refers to [urns]. *)
Definition directory (urns : list string) : list (string * config) :=
  [("orders", {| expectations := [] |});
   ("invoices",
    {| expectations :=
         [{| expectation_type := "expect_column_max_to_be_between";
             kwargs := map (fun u => ("max_value", reference u)) urns |}]
    |})].

Definition entry (kw : list (string * json)) : result_entry :=
  {| expectation_config :=
       {| expectation_type := "expect_column_values_to_be_between";
          kwargs := kw |};
     result := [("min_value", JNum 5)];
     success := false |}.

Definition orders_results (kw : list (string * json)) : validation_results_t :=
  {| meta := [("data_asset_name", JStr "orders")];
     results := [entry kw] |}.

Definition no_name_results : validation_results_t :=
  {| meta := []; results := [entry []] |}.

Definition details_column_urn : string :=
  "urn:great_expectations:validations:orders:expectations:columns:columns:price:details:mean".

Definition details_entry : result_entry :=
  {| expectation_config :=
       {| expectation_type := "columns";
          kwargs := [("column", JStr "price")] |};
     result := [("details", JDict [("mean", JNum 3); ("count", JNum 7)])];
     success := true |}.

End Scenario.

(** ** Further observations *)

(** A key that [a, b = key] can unpack. *)
Definition two_chars (key : string) : bool := Nat.eqb (String.length key) 2.

(** Registering a list of validation results one after the other, each call
    starting where the previous one stopped, whether it returned or raised. *)
Fixpoint register_all (calls : list (string * validation_results_t))
    (self : DataContext) : DataContext :=
  match calls with
  | [] => self
  | (run_id, vr) :: calls' =>
      register_all calls'
        (state_of (register_validation_results run_id vr self))
  end.

(** [m] keeps the state property [P]. *)
Definition preserves {St A} (P : St -> Prop) (m : M St A) : Prop :=
  forall s, P s -> P (state_of (m s)).

(** What lines 95-98 store for a desired parameter [x] found under
    [type_key]: the value under the parameter's last segment in the entry's
    result, or the entry's whole [details] object. *)
Definition stored_value (r : result_entry) (type_key x : string) (v : json)
  : Prop :=
  (type_key = "result" /\
   dict_get (last_part (split_colon x)) (result r) = Some v) \/
  (type_key = "details" /\ dict_get "details" (result r) = Some v).

(** [x] is listed in one of the sets of the column's dict [col] and [v] is
    what the loop stores for it there. *)
Definition column_value (r : result_entry) (col : type_sets) (x : string)
    (v : json) : Prop :=
  exists t s, In (t, s) col /\ In x s /\ stored_value r t x v.

(** From [s0] to [s] only [validation_params] changed, and every entry that
    differs holds a value allowed by [Q]. *)
Definition writes_within (Q : string -> json -> Prop) (s0 s : DataContext)
  : Prop :=
  s = set_validation_params (validation_params s) s0 /\
  forall x,
    validation_params s !! x = validation_params s0 !! x \/
    exists v, validation_params s !! x = Some v /\ Q x v.

(** A parameter that stops the compiler: its segment [6] is one of the two
    words line 189 tests for. *)
Definition aborting_parameter (p : string) : bool :=
  match nth_error (split_colon p) 6 with
  | Some p6 => set_mem p6 ["results"; "details"]
  | None => false
  end.

(** A keyword-argument value that stops the compiler: a ["$PARAMETER"] that
    is no string, or one with the prefix that is an aborting parameter. *)
Definition aborting_value (value : json) : bool :=
  match value with
  | JDict d =>
      match dict_get "$PARAMETER" d with
      | Some (JStr p) =>
          String.prefix validations_prefix p && aborting_parameter p
      | Some _ => true
      | None => false
      end
  | _ => false
  end.

(** Every keyword-argument value of the directory, in the order of the
    loops of [_compile]. *)
Definition directory_values (dir : list (string * config)) : list json :=
  concat (map (fun nc : string * config =>
                 concat (map (fun e => map snd (kwargs e))
                             (expectations (snd nc)))) dir).

(** Postconditions inside a [try ... except IndexError]: [R] for a value,
    [E] where the handler takes over, [X] for the other exceptions. *)
Definition try_post {St A} (E : St -> Prop) (X : exn -> Prop)
    (R : A -> St -> Prop) (s : St) (o : outcome A) : Prop :=
  match o with
  | Ret a => R a s
  | Raise IndexError => E s
  | Raise e => X e
  end.

(** Every node under an expectation name is a dict. *)
Definition nodes_are_dicts (cp : compiled_parameters) : Prop :=
  forall a d k n,
    dict_get a (data_assets cp) = Some d -> dict_get k d = Some n ->
    exists cols, n = KDict cols.

Definition has_asset (cp : compiled_parameters) (a : string) : Prop :=
  exists d, dict_get a (data_assets cp) = Some d.

Definition has_kind (cp : compiled_parameters) (a k : string) : Prop :=
  exists d n, dict_get a (data_assets cp) = Some d /\ dict_get k d = Some n.

Definition has_column (cp : compiled_parameters) (a k c : string) : Prop :=
  exists d cols col,
    dict_get a (data_assets cp) = Some d /\
    dict_get k d = Some (KDict cols) /\ dict_get c cols = Some col.

Definition has_type (cp : compiled_parameters) (a k c t : string) : Prop :=
  exists d cols col st,
    dict_get a (data_assets cp) = Some d /\
    dict_get k d = Some (KDict cols) /\ dict_get c cols = Some col /\
    dict_get t col = Some st.

(** The keys of the index reflect the parameters in [seen]: the assets are
    their segments [3], the expectation names under an asset their segments
    [5]. *)
Definition keyed_by (seen : list string) (cp : compiled_parameters) : Prop :=
  (forall a,
      has_asset cp a <->
      exists p, In p seen /\ nth_error (split_colon p) 3 = Some a) /\
  (forall a k,
      has_kind cp a k <->
      exists p, In p seen /\ nth_error (split_colon p) 3 = Some a /\
                nth_error (split_colon p) 5 = Some k).

Definition same_keys (s0 s : compiled_parameters) : Prop :=
  (forall a, has_asset s a <-> has_asset s0 a) /\
  (forall a k, has_kind s a k <-> has_kind s0 a k).

(** The keys of the index after the dict of asset [p3] was ensured for a new
    parameter and before its expectation's dict is. *)
Definition asset_ensured (seen : list string) (p3 : string)
    (s : compiled_parameters) : Prop :=
  (forall a,
      has_asset s a <->
      (exists q, In q seen /\ nth_error (split_colon q) 3 = Some a) \/ a = p3) /\
  (forall a k,
      has_kind s a k <->
      exists q, In q seen /\ nth_error (split_colon q) 3 = Some a /\
                nth_error (split_colon q) 5 = Some k).

(** The warning of line 181, when segment [3] is not a known asset. *)
Definition unknown_asset_warning (known_assets : list string) (p : string)
  : list string :=
  match nth_error (split_colon p) 3 with
  | Some a =>
      if set_mem a known_assets then []
      else [("Adding parameter " ++ p
             ++ " for unknown data asset config")%string]
  | None => []
  end.

Definition set_configs (dir : list (string * config)) (self : DataContext)
  : DataContext :=
  {| configs := dir; validation_params := validation_params self;
     _compiled := _compiled self;
     _compiled_parameters := _compiled_parameters self |}.

(** [m] runs the same whatever the stored configurations are. *)
Definition ignores_configs {A} (m : M DataContext A) : Prop :=
  forall dir self,
    m (set_configs dir self) =
    (set_configs dir (state_of (m self)), log_of (m self), outcome_of (m self)).

(** ** [review_validation_result]

    What the method does with the document it fetched (lines 223-230).  The
    fetch itself (the import of the client library, the parse of the URL, the
    request and [json.loads], lines 210-223) and [str.strip] are parameters:
    [fetch] takes the stripped URL and yields the parsed document or the
    error the fetch ended with. *)

(** [bool(v)] *)
Definition truthy (v : json) : bool :=
  match v with
  | JNull => false
  | JBool b => b
  | JNum n => negb (Z.eqb n 0)
  | JStr s => negb (String.eqb s EmptyString)
  | JList l => match l with [] => false | _ => true end
  | JDict d => match d with [] => false | _ => true end
  end.

(** [v[key]] for a string [key]: only a dict can be subscripted by one. *)
Definition subscript (v : json) (key : string) : outcome json :=
  match v with
  | JDict d =>
      match dict_get key d with
      | Some x => Ret x
      | None => Raise KeyError
      end
  | _ => Raise TypeError
  end.

(** [for x in v]: a list yields its elements, a dict its keys, a string its
    characters; the rest is not iterable. *)
Definition iterate (v : json) : outcome (list json) :=
  match v with
  | JList l => Ret l
  | JDict d => Ret (map JStr (dict_keys d))
  | JStr s => Ret (map JStr (chars s))
  | JNull | JBool _ | JNum _ => Raise TypeError
  end.

(** [[result for result in items if not result["success"]]] *)
Fixpoint failed_results (items : list json) : outcome (list json) :=
  match items with
  | [] => Ret []
  | r :: items' =>
      match subscript r "success" with
      | Raise e => Raise e
      | Ret ok =>
          match failed_results items' with
          | Raise e => Raise e
          | Ret rest => Ret (if truthy ok then rest else r :: rest)
          end
      end
  end.

(** Lines 225-228: the branch [failed_only]. *)
Definition only_failed (results_dict : json) : outcome json :=
  match subscript results_dict "results" with
  | Raise e => Raise e
  | Ret results =>
      match iterate results with
      | Raise e => Raise e
      | Ret items =>
          match failed_results items with
          | Raise e => Raise e
          | Ret failed =>
              match results_dict with
              | JDict d => Ret (JDict (dict_set "results" (JList failed) d))
              | _ => Raise TypeError
              end
          end
      end
  end.

Inductive review (fetch_error : Type) : Type :=
| Reviewed (results_dict : json)
| ReviewRaised (e : exn)
| FetchFailed (err : fetch_error).
Arguments Reviewed {fetch_error} results_dict.
Arguments ReviewRaised {fetch_error} e.
Arguments FetchFailed {fetch_error} err.

Definition review_validation_result {fetch_error : Type}
    (strip : string -> string) (fetch : string -> fetch_error + json)
    (url : string) (failed_only : bool) : review fetch_error :=
  let url := strip url in
  if String.prefix "s3://" url then
    match fetch url with
    | inl err => FetchFailed err
    | inr results_dict =>
        if failed_only then
          match only_failed results_dict with
          | Ret filtered => Reviewed filtered
          | Raise e => ReviewRaised e
          end
        else Reviewed results_dict
    end
  else ReviewRaised ValueError.

(** An entry of a validation result that failed: a dict whose ["success"]
    is falsy. *)
Definition is_failed (r : json) : Prop :=
  exists ok, subscript r "success" = Ret ok /\ truthy ok = false.

(** The test of the comprehension, for an entry that has ["success"]. *)
Definition failed_entry (r : json) : bool :=
  match subscript r "success" with
  | Ret ok => negb (truthy ok)
  | Raise _ => false
  end.

(** ** [save_data_asset_config]

    The method reads the name out of the document, writes the document to
    the file of that name and clears [_compiled] (lines 61-66).  Opening and
    writing the file is a parameter: [write] takes the name, the document and
    the stored configurations and yields the stored configurations as the
    write leaves them, or the error it ended with. *)

Inductive saved (write_error : Type) : Type :=
| Saved (self : DataContext)
| SaveRaised (e : exn)
| WriteFailed (err : write_error).
Arguments Saved {write_error} self.
Arguments SaveRaised {write_error} e.
Arguments WriteFailed {write_error} err.

Definition save_data_asset_config {write_error : Type}
    (write : string -> json -> list (string * config) ->
             write_error + list (string * config))
    (data_asset_config : json) (self : DataContext) : saved write_error :=
  match subscript data_asset_config "data_asset_name" with
  | Raise e => SaveRaised e
  | Ret (JStr data_asset_name) =>
      match write data_asset_name data_asset_config (configs self) with
      | inl err => WriteFailed err
      | inr dir => Saved (set_compiled false (set_configs dir self))
      end
  | Ret _ => SaveRaised TypeError
  end.

(** ** Sample contexts and documents *)

(** A validation result whose first entry the column-scoped loop of asset
    [name] handles for column [c]: its expectation type is a key of the
    asset's dict [entry] (line 86), its kwargs name the column (line 87), and
    its result holds [v] under [key] (line 95). *)
Definition first_entry_reports (name : string) (entry : asset_node)
    (c key : string) (v : json) (vr : validation_results_t) : Prop :=
  dict_get "data_asset_name" (meta vr) = Some (JStr name) /\
  exists r rest,
    results vr = r :: rest /\
    dict_mem (expectation_type (expectation_config r)) entry = true /\
    dict_get "column" (kwargs (expectation_config r)) = Some (JStr c) /\
    dict_get key (result r) = Some v.

Module Sample.
(** The context left by compiling a reference to
    [...:orders:expectations:expect_column_values_to_be_between:columns:price:result:min_value]. *)
Definition orders_entry : asset_node :=
  [("expect_column_values_to_be_between",
    KDict [("price", [("result", [Scenario.column_urn])])])].

Definition orders_index : compiled_parameters :=
  {| raw := [Scenario.column_urn];
     data_assets := [("orders", orders_entry)] |}.

Definition compiled_orders : DataContext :=
  {| configs := Scenario.directory [Scenario.column_urn];
     validation_params := ∅;
     _compiled := true;
     _compiled_parameters := Some orders_index |}.

(** A reference whose expectation is named ["columns"], the one name the
    column-scoped loop looks under. *)
Definition columns_urn : string :=
  "urn:great_expectations:validations:orders:expectations:columns:columns:price:result:min_value".

Definition columns_col : type_sets := [("result", [columns_urn])].

Definition columns_entry : asset_node :=
  [("columns", KDict [("price", columns_col)])].

Definition columns_index : compiled_parameters :=
  {| raw := [columns_urn]; data_assets := [("orders", columns_entry)] |}.

Definition compiled_columns : DataContext :=
  {| configs := Scenario.directory [columns_urn];
     validation_params := ∅;
     _compiled := true;
     _compiled_parameters := Some columns_index |}.

Definition price_entry : result_entry :=
  {| expectation_config :=
       {| expectation_type := "columns";
          kwargs := [("column", JStr "price")] |};
     result := [("min_value", JNum 5)];
     success := true |}.

Definition unindexed_results : validation_results_t :=
  {| meta := [("data_asset_name", JStr "orders")];
     results :=
       [{| expectation_config :=
             {| expectation_type := "expect_column_to_exist";
                kwargs := [("column", JStr "price")] |};
           result := [];
           success := true |}] |}.

(** A fetched validation result with one failed and one passed entry. *)
Definition failed_item : json :=
  JDict [("success", JBool false); ("expectation_type", JStr "a")].

Definition passed_item : json :=
  JDict [("success", JBool true); ("expectation_type", JStr "b")].

Definition fetched_document : json :=
  JDict [("results", JList [failed_item; passed_item]);
         ("meta", JDict [("run_id", JStr "run_1")])].

Definition fetch_sample (url : string) : unit + json := inr fetched_document.

(** A write that replaces the stored configurations by one rule set for
    [invoices] referring to [columns_urn]. *)
Definition write_sample (name : string) (doc : json)
    (dir : list (string * config)) : unit + list (string * config) :=
  inr (Scenario.directory [columns_urn]).

Definition saved_document : json :=
  JDict [("data_asset_name", JStr "invoices"); ("expectations", JList [])].

(** The entry of a later run: the same expectation and column as
    [price_entry], another observed value. *)
Definition repriced_entry : result_entry :=
  {| expectation_config :=
       {| expectation_type := "columns";
          kwargs := [("column", JStr "price")] |};
     result := [("min_value", JNum 9)];
     success := true |}.

Definition price_results (r : result_entry) : validation_results_t :=
  {| meta := [("data_asset_name", JStr "orders")]; results := [r] |}.

End Sample.

(** * Proofs *)

(** ** Dictionaries and sets *)

Section PyDictFacts.
Context {V : Type}.
Implicit Types (d : list (string * V)) (k : string) (v : V).

Lemma dict_get_set k k' v d :
  dict_get k' (dict_set k v d) =
  if String.eqb k' k then Some v else dict_get k' d.
Proof.
  induction d as [|[k0 v0] d IH]; simpl.
  - destruct (String.eqb_spec k' k); reflexivity.
  - destruct (String.eqb_spec k k0) as [->|Hk]; simpl.
    + destruct (String.eqb_spec k' k0); reflexivity.
    + destruct (String.eqb_spec k' k0) as [->|Hk'].
      * destruct (String.eqb_spec k0 k); congruence.
      * exact IH.
Qed.

Lemma dict_get_set_eq k v d : dict_get k (dict_set k v d) = Some v.
Proof. rewrite dict_get_set, String.eqb_refl. reflexivity. Qed.

Lemma dict_mem_false k d : dict_mem k d = false -> dict_get k d = None.
Proof. unfold dict_mem. destruct (dict_get k d); congruence. Qed.

Lemma dict_mem_true k d :
  dict_mem k d = true -> exists v, dict_get k d = Some v.
Proof. unfold dict_mem. destruct (dict_get k d); eauto; congruence. Qed.
End PyDictFacts.

Lemma set_mem_In x s : set_mem x s = true <-> In x s.
Proof.
  unfold set_mem. rewrite existsb_exists. split.
  - intros (y & Hy & Heq). apply String.eqb_eq in Heq. congruence.
  - intros Hx. exists x. split; [exact Hx | apply String.eqb_refl].
Qed.

Lemma In_set_add x y s : In x (set_add y s) <-> x = y \/ In x s.
Proof.
  unfold set_add. destruct (set_mem y s) eqn:Hm.
  - apply set_mem_In in Hm. split; [tauto | intros [->|H]; assumption].
  - rewrite in_app_iff. simpl. split; intros H; intuition congruence.
Qed.

(** ** Leaf sets under updates *)

Lemma leaf_col_set t s col t' :
  leaf_col (dict_set t s col) t' =
  if String.eqb t' t then s else leaf_col col t'.
Proof.
  unfold leaf_col. rewrite dict_get_set.
  destruct (String.eqb t' t); reflexivity.
Qed.

Lemma leaf_node_set c col cols c' t' :
  leaf_node (KDict (dict_set c col cols)) c' t' =
  if String.eqb c' c then leaf_col col t' else leaf_node (KDict cols) c' t'.
Proof.
  unfold leaf_node. rewrite dict_get_set.
  destruct (String.eqb c' c); reflexivity.
Qed.

Lemma leaf_asset_set k n d k' c' t' :
  leaf_asset (dict_set k n d) k' c' t' =
  if String.eqb k' k then leaf_node n c' t' else leaf_asset d k' c' t'.
Proof.
  unfold leaf_asset. rewrite dict_get_set.
  destruct (String.eqb k' k); reflexivity.
Qed.

Lemma leaf_assets_set a d assets a' k' c' t' :
  leaf_assets (dict_set a d assets) a' k' c' t' =
  if String.eqb a' a then leaf_asset d k' c' t'
  else leaf_assets assets a' k' c' t'.
Proof.
  unfold leaf_assets. rewrite dict_get_set.
  destruct (String.eqb a' a); reflexivity.
Qed.

(** ** A Hoare logic for [M] *)

Section Hoare.
Context {St : Type}.

Lemma hoare_conseq {A} (P P' : St -> Prop) (m : M St A)
    (Q Q' : St -> outcome A -> Prop) :
  hoare P m Q -> (forall s, P' s -> P s) ->
  (forall s o, Q s o -> Q' s o) -> hoare P' m Q'.
Proof. unfold hoare. auto. Qed.

Lemma hoare_ret {A} (P : St -> Prop) (a : A) Q :
  (forall s, P s -> Q s (Ret a)) -> hoare P (ret a) Q.
Proof. unfold hoare. auto. Qed.

Lemma hoare_raise {A} (P : St -> Prop) e (Q : St -> outcome A -> Prop) :
  (forall s, P s -> Q s (Raise e)) -> hoare P (raise e) Q.
Proof. unfold hoare. auto. Qed.

Lemma hoare_warning (P : St -> Prop) msg Q :
  (forall s, P s -> Q s (Ret tt)) -> hoare P (warning msg) Q.
Proof. unfold hoare. auto. Qed.

Lemma hoare_get (P : St -> Prop) Q :
  (forall s, P s -> Q s (Ret s)) -> hoare P get Q.
Proof. unfold hoare. auto. Qed.

Lemma hoare_modify (P : St -> Prop) f Q :
  (forall s, P s -> Q (f s) (Ret tt)) -> hoare P (modify f) Q.
Proof. unfold hoare. auto. Qed.

Lemma hoare_or_raise {A} (P : St -> Prop) e (o : option A) Q :
  (forall s, P s ->
             Q s (match o with Some a => Ret a | None => Raise e end)) ->
  hoare P (or_raise e o) Q.
Proof. unfold hoare. destruct o; simpl; auto. Qed.

Lemma hoare_bind {A B} (P : St -> Prop) (m : M St A) (f : A -> M St B)
    (R : A -> St -> Prop) (Q : St -> outcome B -> Prop) :
  hoare P m (fun s o => match o with
                        | Ret a => R a s
                        | Raise e => Q s (Raise e)
                        end) ->
  (forall a, hoare (R a) (f a) Q) ->
  hoare P (bind m f) Q.
Proof.
  unfold hoare, bind, state_of, outcome_of. intros Hm Hf s HP.
  specialize (Hm s HP). destruct (m s) as [[s1 w1] [a|e]]; simpl in *.
  - specialize (Hf a s1 Hm). destruct (f a s1) as [[s2 w2] o]. exact Hf.
  - exact Hm.
Qed.

Lemma hoare_try (P R : St -> Prop) (m h : M St unit) Q :
  hoare P m (fun s o => match o with
                        | Raise IndexError => R s
                        | _ => Q s o
                        end) ->
  hoare R h Q ->
  hoare P (try_IndexError m h) Q.
Proof.
  unfold hoare, try_IndexError, state_of, outcome_of. intros Hm Hh s HP.
  specialize (Hm s HP). destruct (m s) as [[s1 w1] [a|e]]; simpl in *.
  - exact Hm.
  - destruct e; try exact Hm.
    specialize (Hh s1 Hm). destruct (h s1) as [[s2 w2] o]. exact Hh.
Qed.

Lemma hoare_when (P : St -> Prop) (c : bool) (m : M St unit) Q :
  (c = true -> hoare P m Q) ->
  (c = false -> forall s, P s -> Q s (Ret tt)) ->
  hoare P (when c m) Q.
Proof. destruct c; simpl; intros H1 H2; [auto | apply hoare_ret; auto]. Qed.

(** A loop whose body extends a ghost list of processed items. *)
Lemma hoare_for_each {A G} (I : list G -> St -> Prop) (g : A -> list G)
    (f : A -> M St unit) (l : list A) :
  (forall x seen,
      hoare (I seen) (f x)
            (fun s o => o = Ret tt -> I (seen ++ g x) s)) ->
  forall seen,
    hoare (I seen) (for_each l f)
          (fun s o => o = Ret tt -> I (seen ++ concat (map g l)) s).
Proof.
  intros Hf. induction l as [|x l IH]; intros seen; simpl.
  - apply hoare_ret. intros s Hs _. rewrite app_nil_r. exact Hs.
  - eapply hoare_bind with (R := fun _ => I (seen ++ g x)).
    + eapply hoare_conseq; [apply (Hf x seen) | auto |].
      intros s [[]|e] H; [auto | discriminate].
    + intros _. rewrite app_assoc. apply IH.
Qed.
End Hoare.

(** ** The compiler keeps the leaf sets in step with what it has seen *)

Lemma same_leaves_refl s : same_leaves s s.
Proof. split; auto. Qed.

Lemma ensure_asset_same a s :
  let r := (cp ← get;
            when (negb (dict_mem a (data_assets cp))) (Index.set_asset a [])) s
  in outcome_of r = Ret tt /\ same_leaves s (state_of r).
Proof.
  run_index. destruct (dict_mem a (data_assets s)) eqn:Hm; simpl.
  - split; [reflexivity | apply same_leaves_refl].
  - split; [reflexivity|]. split; [reflexivity|]. intros a' k c t.
    unfold leaf; simpl. rewrite leaf_assets_set.
    destruct (String.eqb_spec a' a) as [->|]; [|reflexivity].
    unfold leaf_assets. rewrite (dict_mem_false _ _ Hm). reflexivity.
Qed.

Lemma ensure_kind_same a k s :
  let r := (d ← Index.get_asset a;
            when (negb (dict_mem k d)) (Index.set_kind a k (KDict []))) s
  in match outcome_of r with
     | Ret _ => same_leaves s (state_of r)
     | Raise e => e <> IndexError
     end.
Proof.
  run_index. destruct (dict_get a (data_assets s)) as [d|] eqn:Ha; simpl;
    [|discriminate].
  destruct (dict_mem k d) eqn:Hm; simpl; [apply same_leaves_refl|].
  rewrite Ha; simpl. split; [reflexivity|]. intros a' k' c t.
  unfold leaf; simpl. rewrite leaf_assets_set.
  destruct (String.eqb_spec a' a) as [->|]; [|reflexivity].
  unfold leaf_assets. rewrite Ha, leaf_asset_set.
  destruct (String.eqb_spec k' k) as [->|]; [|reflexivity].
  unfold leaf_asset. rewrite (dict_mem_false _ _ Hm). reflexivity.
Qed.

Lemma ensure_column_same a k c s :
  let r := (n ← Index.get_kind a k;
            when (negb (node_contains c n)) (Index.set_column a k c [])) s
  in match outcome_of r with
     | Ret _ => same_leaves s (state_of r)
     | Raise e => e <> IndexError
     end.
Proof.
  run_index. destruct (dict_get a (data_assets s)) as [d|] eqn:Ha; simpl;
    [|discriminate].
  destruct (dict_get k d) as [n|] eqn:Hk; simpl; [|discriminate].
  destruct (node_contains c n) eqn:Hm; simpl; [apply same_leaves_refl|].
  rewrite Ha; simpl. rewrite Hk; simpl.
  destruct n as [cols|st]; simpl; [|discriminate].
  rewrite Ha; simpl. split; [reflexivity|]. intros a' k' c' t.
  unfold leaf; simpl. rewrite leaf_assets_set.
  destruct (String.eqb_spec a' a) as [->|]; [|reflexivity].
  unfold leaf_assets. rewrite Ha, leaf_asset_set.
  destruct (String.eqb_spec k' k) as [->|]; [|reflexivity].
  unfold leaf_asset. rewrite Hk, leaf_node_set.
  destruct (String.eqb_spec c' c) as [->|]; [|reflexivity].
  simpl in Hm. simpl. rewrite (dict_mem_false _ _ Hm). reflexivity.
Qed.

(** What a successful write of a leaf set does to every leaf. *)
Lemma set_type_leaf a k c t new s :
  let r := Index.set_type a k c t new s in
  match outcome_of r with
  | Ret _ =>
      raw (state_of r) = raw s /\
      forall a' k' c' t',
        leaf (state_of r) a' k' c' t' =
        if String.eqb a' a && String.eqb k' k && String.eqb c' c
           && String.eqb t' t
        then new else leaf s a' k' c' t'
  | Raise e => e <> IndexError
  end.
Proof.
  run_index. destruct (dict_get a (data_assets s)) as [d|] eqn:Ha; simpl;
    [|discriminate].
  destruct (dict_get k d) as [[cols|st]|] eqn:Hk; simpl; try discriminate.
  destruct (dict_get c cols) as [col|] eqn:Hc; simpl; [|discriminate].
  rewrite Ha; simpl. rewrite Hk; simpl. rewrite Ha; simpl.
  split; [reflexivity|]. intros a' k' c' t'.
  unfold leaf; simpl. rewrite leaf_assets_set.
  destruct (String.eqb_spec a' a) as [->|]; [|reflexivity].
  unfold leaf_assets. rewrite Ha, leaf_asset_set.
  destruct (String.eqb_spec k' k) as [->|]; [|reflexivity].
  unfold leaf_asset. rewrite Hk, leaf_node_set.
  destruct (String.eqb_spec c' c) as [->|]; [|reflexivity].
  simpl. rewrite Hc, leaf_col_set.
  destruct (String.eqb t' t); reflexivity.
Qed.

Lemma get_column_run a k c s :
  state_of (Index.get_column a k c s) = s /\
  match outcome_of (Index.get_column a k c s) with
  | Ret col => forall t, leaf s a k c t = leaf_col col t
  | Raise e => e <> IndexError
  end.
Proof.
  run_index. destruct (dict_get a (data_assets s)) as [d|] eqn:Ha; simpl;
    [|split; [reflexivity | discriminate]].
  destruct (dict_get k d) as [[cols|st]|] eqn:Hk; simpl;
    try (split; [reflexivity | discriminate]).
  destruct (dict_get c cols) as [col|] eqn:Hc; simpl;
    [|split; [reflexivity | discriminate]].
  split; [reflexivity|]. intros t.
  unfold leaf, leaf_assets, leaf_asset. rewrite Ha, Hk. simpl.
  rewrite Hc. reflexivity.
Qed.

Lemma get_type_run a k c t s :
  state_of (Index.get_type a k c t s) = s /\
  match outcome_of (Index.get_type a k c t s) with
  | Ret st => leaf s a k c t = st
  | Raise e => e <> IndexError
  end.
Proof.
  pose proof (get_column_run a k c s) as [Hs Ho].
  unfold Index.get_type, bind, state_of, outcome_of in *.
  destruct (Index.get_column a k c s) as [[s1 w1] [col|e]]; simpl in *;
    [|split; assumption].
  subst s1. unfold or_raise. destruct (dict_get t col) as [st|] eqn:Ht; simpl.
  - split; [reflexivity|]. rewrite Ho. unfold leaf_col. rewrite Ht.
    reflexivity.
  - split; [reflexivity | discriminate].
Qed.

Lemma ensure_type_same a k c t s :
  let r := (col ← Index.get_column a k c;
            when (negb (dict_mem t col)) (Index.set_type a k c t [])) s
  in match outcome_of r with
     | Ret _ => same_leaves s (state_of r)
     | Raise e => e <> IndexError
     end.
Proof.
  pose proof (get_column_run a k c s) as [Hs Ho].
  unfold bind, state_of, outcome_of in *.
  destruct (Index.get_column a k c s) as [[s1 w1] [col|e]]; simpl in *;
    [|assumption].
  subst s1. destruct (dict_mem t col) eqn:Hm; simpl;
    [apply same_leaves_refl|].
  pose proof (set_type_leaf a k c t [] s) as Hset.
  unfold state_of, outcome_of in Hset; simpl in Hset.
  destruct (Index.set_type a k c t [] s) as [[s2 w2] [[]|e]]; simpl in *;
    [|assumption].
  destruct Hset as [Hraw Hleaf]. split; [assumption|].
  intros a' k' c' t'. rewrite Hleaf.
  destruct (String.eqb_spec a' a) as [->|]; [|reflexivity].
  destruct (String.eqb_spec k' k) as [->|]; [|reflexivity].
  destruct (String.eqb_spec c' c) as [->|]; [|reflexivity].
  destruct (String.eqb_spec t' t) as [->|]; [|reflexivity].
  simpl. rewrite Ho. unfold leaf_col. rewrite (dict_mem_false _ _ Hm).
  reflexivity.
Qed.

(** Lines 190-192 never complete: the node is not a dict of sets. *)
Lemma results_branch_raises a k p6 s :
  let r := (n ← Index.get_kind a k;
            when (negb (node_contains p6 n)) (Index.set_kind a k (KSet [])) ;;
            n ← Index.get_kind a k;
            match n with
            | KSet _ => raise TypeError
            | KDict cols =>
                _ ← or_raise KeyError (dict_get p6 cols); raise AttributeError
            end : M compiled_parameters unit) s
  in match outcome_of r with
     | Ret _ => False
     | Raise e => e <> IndexError
     end.
Proof.
  run_index. destruct (dict_get a (data_assets s)) as [d|] eqn:Ha; simpl;
    [|discriminate].
  destruct (dict_get k d) as [n|] eqn:Hk; simpl; [|discriminate].
  destruct (node_contains p6 n) eqn:Hm; simpl.
  - rewrite Ha; simpl. rewrite Hk; simpl.
    destruct n as [cols|st]; simpl; [|discriminate].
    destruct (dict_get p6 cols); simpl; discriminate.
  - rewrite Ha; simpl. rewrite !dict_get_set_eq; simpl. discriminate.
Qed.

Lemma bind_assoc {St A B C} (m : M St A) (f : A -> M St B)
    (g : B -> M St C) s :
  bind (bind m f) g s = bind m (fun x => bind (f x) g) s.
Proof.
  unfold bind. destruct (m s) as [[s1 w1] [a|e]]; [|reflexivity].
  destruct (f a s1) as [[s2 w2] [b|e]]; [|reflexivity].
  destruct (g b s2) as [[s3 w3] o]. rewrite app_assoc. reflexivity.
Qed.

Lemma hoare_assoc {St A B C} P (m : M St A) (f : A -> M St B)
    (g : B -> M St C) Q :
  hoare P (bind (bind m f) g) Q ->
  hoare P (bind m (fun x => bind (f x) g)) Q.
Proof. unfold hoare. intros H s HP. rewrite <- bind_assoc. auto. Qed.

Lemma hoare_pure {St A} (P : St -> Prop) (phi : Prop) (m : M St A) Q :
  (phi -> hoare P m Q) -> hoare (fun s => P s /\ phi) m Q.
Proof. unfold hoare. intros H s [HP Hphi]. auto. Qed.

Section CompileParameter.
Variables (known_assets seen : list string) (p : string).

Local Abbreviation J := (pending seen p).
Local Abbreviation Done := (compiled_from (seen ++ [p])).
Local Abbreviation soft := (soft seen p).

Lemma J_same s0 s : J s0 -> same_leaves s0 s -> J s.
Proof.
  intros [Hr Hl] [Er El]. split.
  - intros x. rewrite Er. apply Hr.
  - intros a k c t x. rewrite El. apply Hl.
Qed.

Lemma J_not_column s :
  J s -> (forall a k c t, ~ column_form p a k c t) -> Done s.
Proof.
  intros [Hr Hl] Hn. split; [exact Hr|]. unfold indexed in *.
  intros a k c t x. rewrite Hl, in_app_iff. simpl.
  split; [tauto|]. intros [[H|[->|[]]] Hc]; [tauto|].
  exfalso. exact (Hn a k c t Hc).
Qed.

Lemma soft_bind {A B} P (m : M compiled_parameters A)
    (f : A -> M compiled_parameters B) R Q :
  hoare P m (soft R) -> (forall a, hoare (R a) (f a) (soft Q)) ->
  hoare P (bind m f) (soft Q).
Proof.
  intros Hm Hf. eapply hoare_bind; [|exact Hf].
  eapply hoare_conseq; [exact Hm | auto |].
  intros s [a|[]]; simpl; auto.
Qed.

Lemma soft_same (m : M compiled_parameters unit) :
  (forall s, match outcome_of (m s) with
             | Ret _ => same_leaves s (state_of (m s))
             | Raise e => e <> IndexError
             end) ->
  hoare J m (soft (fun _ => J)).
Proof.
  intros H s HJ. specialize (H s).
  destruct (outcome_of (m s)) as [[]|e]; simpl.
  - eapply J_same; eauto.
  - destruct e; auto; congruence.
Qed.

Lemma soft_index i :
  (forall a k c t, column_form p a k c t ->
                   nth_error (split_colon p) i <> None) ->
  hoare J (index (split_colon p) i)
        (soft (fun x s => J s /\ nth_error (split_colon p) i = Some x)).
Proof.
  intros Hi s HJ. unfold index, or_raise.
  destruct (nth_error (split_colon p) i) as [x|] eqn:Hx; simpl; [auto|].
  apply J_not_column; [exact HJ|]. intros a k c t Hc.
  apply (Hi a k c t Hc). reflexivity.
Qed.

Lemma add_leaf_done a k c t :
  column_form p a k c t ->
  hoare J (s ← Index.get_type a k c t;
           Index.set_type a k c t (set_add p s))
        (soft (fun _ => Done)).
Proof.
  intros Hp s [Hr Hl]. unfold raw_is, indexed in Hr, Hl.
  pose proof (get_type_run a k c t s) as [Hs Ho].
  unfold bind, state_of, outcome_of in *.
  destruct (Index.get_type a k c t s) as [[s1 w1] [st|e]]; simpl in *;
    [|destruct e; auto; congruence].
  subst s1.
  pose proof (set_type_leaf a k c t (set_add p st) s) as Hset.
  unfold state_of, outcome_of in Hset; simpl in Hset.
  destruct (Index.set_type a k c t (set_add p st) s) as [[s2 w2] [[]|e]];
    simpl in *; [|destruct e; auto; congruence].
  destruct Hset as [Hraw Hleaf]. split.
  - intros x. rewrite Hraw. apply Hr.
  - intros a' k' c' t' x. rewrite Hleaf, in_app_iff. simpl.
    destruct (String.eqb_spec a' a) as [->|Na]; simpl.
    2:{ rewrite Hl. split; [tauto|]. intros [[H|[->|[]]] Hc]; [tauto|].
        destruct Hp as (H3 & _), Hc as (H3' & _). congruence. }
    destruct (String.eqb_spec k' k) as [->|Nk]; simpl.
    2:{ rewrite Hl. split; [tauto|]. intros [[H|[->|[]]] Hc]; [tauto|].
        destruct Hp as (_ & H5 & _), Hc as (_ & H5' & _). congruence. }
    destruct (String.eqb_spec c' c) as [->|Nc]; simpl.
    2:{ rewrite Hl. split; [tauto|]. intros [[H|[->|[]]] Hc]; [tauto|].
        destruct Hp as (_ & _ & _ & H7 & _), Hc as (_ & _ & _ & H7' & _).
        congruence. }
    destruct (String.eqb_spec t' t) as [->|Nt]; simpl.
    2:{ rewrite Hl. split; [tauto|]. intros [[H|[->|[]]] Hc]; [tauto|].
        destruct Hp as (_ & _ & _ & _ & H8), Hc as (_ & _ & _ & _ & H8').
        congruence. }
    rewrite In_set_add, <- Ho, Hl. split.
    + intros [->|[H Hc]]; auto.
    + intros [[H|[->|[]]] Hc]; auto.
Qed.

(** The body of the loop of [_compile] for one prefixed parameter: when it
    completes, [raw] has the parameter, and a leaf set has it exactly when
    the parameter is column-scoped. *)
Lemma compile_parameter_step :
  hoare (compiled_from seen) (compile_parameter known_assets p)
        (fun s o => o = Ret tt -> Done s).
Proof.
  unfold compile_parameter.
  eapply hoare_bind with (R := fun _ => J).
  { apply hoare_modify. intros s [Hr Hl]. split; [|exact Hl].
    unfold raw_is in Hr. intros x. simpl.
    rewrite In_set_add, in_app_iff, Hr. simpl. intuition congruence. }
  intros _. eapply hoare_try with (R := Done).
  2:{ apply hoare_warning. auto. }
  eapply hoare_conseq with (Q := soft (fun _ => Done)) (P := J);
    [| auto | intros s [[]|[]]; simpl; auto; discriminate].
  eapply soft_bind.
  { apply (soft_index 3). intros a k c t (H & _). congruence. }
  intros p3. apply hoare_pure. intros H3.
  eapply soft_bind with (R := fun _ => J).
  { apply hoare_when; [intros _; apply hoare_warning|]; auto. }
  intros _. apply hoare_assoc. eapply soft_bind with (R := fun _ => J).
  { apply soft_same. intros s. pose proof (ensure_asset_same p3 s) as [Ho Hs].
    simpl in Ho, Hs. rewrite Ho. exact Hs. }
  intros _. eapply soft_bind.
  { apply (soft_index 5). intros a k c t (_ & H & _). congruence. }
  intros p5. apply hoare_pure. intros H5.
  apply hoare_assoc. eapply soft_bind with (R := fun _ => J).
  { apply soft_same. intros s. apply (ensure_kind_same p3 p5 s). }
  intros _. eapply soft_bind.
  { apply (soft_index 6). intros a k c t (_ & _ & H & _). congruence. }
  intros p6. apply hoare_pure. intros H6.
  destruct (set_mem p6 ["results"; "details"]) eqn:Hres.
  { intros s HJ. pose proof (results_branch_raises p3 p5 p6 s) as Hr.
    simpl in Hr.
    match goal with |- soft _ _ (outcome_of ?r) =>
      change (outcome_of r) with
        (outcome_of ((n ← Index.get_kind p3 p5;
          when (negb (node_contains p6 n)) (Index.set_kind p3 p5 (KSet [])) ;;
          n ← Index.get_kind p3 p5;
          match n with
          | KSet _ => raise TypeError
          | KDict cols =>
              _ ← or_raise KeyError (dict_get p6 cols); raise AttributeError
          end : M compiled_parameters unit) s)) end.
    destruct (outcome_of _) as [[]|e]; [contradiction|].
    destruct e; simpl; auto; congruence. }
  destruct (String.eqb_spec p6 "columns") as [->|Hcol].
  2:{ apply hoare_warning. intros s HJ. simpl.
      apply J_not_column; [exact HJ|].
      intros a k c t (_ & _ & H & _). congruence. }
  eapply soft_bind.
  { apply (soft_index 7). intros a k c t (_ & _ & _ & H & _). congruence. }
  intros p7. apply hoare_pure. intros H7.
  apply hoare_assoc. eapply soft_bind with (R := fun _ => J).
  { apply soft_same. intros s. apply (ensure_column_same p3 p5 p7 s). }
  intros _. eapply soft_bind.
  { apply (soft_index 8). intros a k c t (_ & _ & _ & _ & H). congruence. }
  intros p8. apply hoare_pure. intros H8.
  apply hoare_assoc. eapply soft_bind with (R := fun _ => J).
  { apply soft_same. intros s. apply (ensure_type_same p3 p5 p7 p8 s). }
  intros _. apply add_leaf_done. repeat split; assumption.
Qed.
End CompileParameter.

Lemma compile_value_step known_assets seen value :
  hoare (compiled_from seen) (compile_value known_assets value)
        (fun s o => o = Ret tt -> compiled_from (seen ++ requested_value value) s).
Proof.
  assert (Hskip : forall s : compiled_parameters,
             compiled_from seen s -> Ret tt = Ret tt ->
             compiled_from (seen ++ []) s)
    by (intros s Hs _; rewrite app_nil_r; exact Hs).
  destruct value as [| | | |l|d]; simpl; try (apply hoare_ret; exact Hskip).
  destruct (dict_get "$PARAMETER" d) as [[| | |parameter| |]|];
    try (apply hoare_ret; exact Hskip);
    try (apply hoare_raise; discriminate).
  destruct (String.prefix validations_prefix parameter); simpl.
  - apply compile_parameter_step.
  - apply hoare_ret. exact Hskip.
Qed.

Lemma compile_configs_step known_assets dir seen :
  hoare (compiled_from seen)
        (for_each dir (fun nc =>
           for_each (expectations (snd nc)) (fun e =>
             for_each (kwargs e) (fun kv =>
               compile_value known_assets (snd kv)))))
        (fun s o => o = Ret tt -> compiled_from (seen ++ requested dir) s).
Proof.
  apply (hoare_for_each compiled_from requested_config). intros nc seen1.
  apply (hoare_for_each compiled_from requested_expectation). intros e seen2.
  apply (hoare_for_each compiled_from (fun kv => requested_value (snd kv))).
  intros kv seen3. apply compile_value_step.
Qed.

Lemma compiled_from_nil : compiled_from [] empty_parameters.
Proof.
  split.
  - intros x. reflexivity.
  - intros a k c t x. unfold leaf, leaf_assets. simpl. tauto.
Qed.

(** A compilation that completes has put into [raw] exactly the requested
    parameters and into the leaf sets exactly the column-scoped ones. *)
Lemma compile_configs_spec dir cp w :
  compile_configs dir empty_parameters = (cp, w, Ret tt) ->
  compiled_from (requested dir) cp.
Proof.
  intros Hrun.
  pose proof (compile_configs_step (map fst dir) dir [] empty_parameters
                compiled_from_nil) as H.
  unfold compile_configs in Hrun. rewrite Hrun in H. apply H. reflexivity.
Qed.

(** [_compile] as one step: the index is rebuilt from the directory alone. *)
Lemma _compile_run self :
  _compile self =
  match compile_configs (configs self) empty_parameters with
  | (cp, w, Ret _) =>
      (set_compiled true (set_compiled_parameters (Some cp) self), w, Ret tt)
  | (cp, w, Raise e) => (set_compiled_parameters (Some cp) self, w, Raise e)
  end.
Proof.
  unfold _compile, on_compiled_parameters, bind, modify, gets. simpl.
  destruct (compile_configs (configs self) empty_parameters)
    as [[cp w] [[]|e]]; simpl; rewrite ?app_nil_r; reflexivity.
Qed.

(** ** Registration only upserts into [validation_params] *)

Lemma apply_writes_app ws1 ws2 vp :
  apply_writes (ws1 ++ ws2) vp = apply_writes ws2 (apply_writes ws1 vp).
Proof. unfold apply_writes. apply fold_left_app. Qed.

Section Frame.
Lemma frames_pure {A} (m : M DataContext A) w o :
  (forall self, m self = (self, w, o)) -> frames_params m.
Proof.
  intros H self. exists [], self, w, o. intros vp. rewrite H. reflexivity.
Qed.

Lemma frames_ret {A} (a : A) : frames_params (ret a).
Proof. apply (frames_pure _ [] (Ret a)). reflexivity. Qed.

Lemma frames_raise {A} e : frames_params (raise e : M DataContext A).
Proof. apply (frames_pure _ [] (Raise e)). reflexivity. Qed.

Lemma frames_warning msg : frames_params (warning msg).
Proof. apply (frames_pure _ [msg] (Ret tt)). reflexivity. Qed.

Lemma frames_lift_outcome {A} (o : outcome A) :
  frames_params (lift_outcome o).
Proof. apply (frames_pure _ [] o). reflexivity. Qed.

Lemma frames_or_raise {A} e (o : option A) : frames_params (or_raise e o).
Proof. destruct o; [apply frames_ret | apply frames_raise]. Qed.

Lemma frames_gets {B} (f : DataContext -> B) :
  (forall vp self, f (set_validation_params vp self) = f self) ->
  frames_params (gets f).
Proof.
  intros Hf self. exists [], self, [], (Ret (f self)). intros vp.
  unfold gets. rewrite Hf. reflexivity.
Qed.

Lemma frames_modify (g : DataContext -> DataContext) :
  (forall vp self,
      g (set_validation_params vp self) = set_validation_params vp (g self)) ->
  frames_params (modify g).
Proof.
  intros Hg self. exists [], (g self), [], (Ret tt). intros vp.
  unfold modify. rewrite Hg. reflexivity.
Qed.

Lemma frames_store key value :
  frames_params (store_validation_param key value).
Proof.
  intros self. exists [(key, value)], self, [], (Ret tt). intros vp.
  reflexivity.
Qed.

Lemma frames_bind {A B} (m : M DataContext A) (f : A -> M DataContext B) :
  frames_params m -> (forall a, frames_params (f a)) ->
  frames_params (bind m f).
Proof.
  intros Hm Hf self. destruct (Hm self) as (ws1 & self1 & w1 & o1 & H1).
  destruct o1 as [a|e].
  - destruct (Hf a self1) as (ws2 & self2 & w2 & o2 & H2).
    exists (ws1 ++ ws2), self2, (w1 ++ w2), o2. intros vp.
    unfold bind. rewrite H1, H2, apply_writes_app. reflexivity.
  - exists ws1, self1, w1, (Raise e). intros vp.
    unfold bind. rewrite H1. reflexivity.
Qed.

Lemma frames_when c (m : M DataContext unit) :
  frames_params m -> frames_params (when c m).
Proof. destruct c; simpl; [auto | intros _; apply frames_ret]. Qed.

Lemma frames_for_each {A} (l : list A) (f : A -> M DataContext unit) :
  (forall x, frames_params (f x)) -> frames_params (for_each l f).
Proof.
  intros Hf. induction l as [|x l IH]; simpl.
  - apply frames_ret.
  - apply frames_bind; auto.
Qed.

Lemma frames_on_compiled_parameters {A} (m : M compiled_parameters A) :
  frames_params (on_compiled_parameters m).
Proof.
  intros self. unfold on_compiled_parameters. simpl.
  destruct (_compiled_parameters self) as [cp|].
  - destruct (m cp) as [[cp' w] o].
    exists [], (set_compiled_parameters (Some cp') self), w, o.
    intros vp. reflexivity.
  - exists [], self, [], (Raise AttributeError). intros vp. reflexivity.
Qed.
End Frame.

Create HintDb frames.

#[local] Hint Resolve frames_ret frames_raise frames_warning
  frames_lift_outcome frames_or_raise frames_store frames_when
  frames_for_each frames_on_compiled_parameters frames_bind : frames.
#[local] Hint Extern 1 (frames_params (gets _)) =>
  apply frames_gets; reflexivity : frames.
#[local] Hint Extern 1 (frames_params (modify _)) =>
  apply frames_modify; reflexivity : frames.
#[local] Hint Extern 2 (frames_params (if ?c then _ else _)) =>
  destruct c : frames.
#[local] Hint Extern 2 (frames_params (match ?x with _ => _ end)) =>
  destruct x : frames.
#[local] Hint Extern 2 (frames_params (let _ := _ in _)) =>
  progress cbv zeta : frames.

Lemma frames_compile : frames_params _compile.
Proof. unfold _compile. auto 40 with frames. Qed.

#[local] Hint Resolve frames_compile : frames.

Lemma frames_ensure_compiled : frames_params ensure_compiled.
Proof. unfold ensure_compiled. auto 40 with frames. Qed.

Lemma frames_compiled_data_assets : frames_params compiled_data_assets.
Proof. unfold compiled_data_assets. auto 40 with frames. Qed.

Lemma frames_register_desired_param r type_key desired_param :
  frames_params (register_desired_param r type_key desired_param).
Proof. unfold register_desired_param. auto 40 with frames. Qed.

#[local] Hint Resolve frames_compiled_data_assets
  frames_register_desired_param : frames.

Lemma frames_register_column_params name r :
  frames_params (register_column_params name r).
Proof. unfold register_column_params. auto 40 with frames. Qed.

Lemma frames_register_asset_params name r :
  frames_params (register_asset_params name r).
Proof. unfold register_asset_params. auto 40 with frames. Qed.

#[local] Hint Resolve frames_register_column_params
  frames_register_asset_params : frames.

Lemma frames_register_result name r : frames_params (register_result name r).
Proof. unfold register_result. auto 40 with frames. Qed.

#[local] Hint Resolve frames_ensure_compiled frames_register_result : frames.

Lemma frames_register_validation_results run_id vr :
  frames_params (register_validation_results run_id vr).
Proof. unfold register_validation_results. auto 40 with frames. Qed.

Lemma set_mem_dict_keys {V} k (d : list (string * V)) :
  set_mem k (dict_keys d) = dict_mem k d.
Proof.
  unfold dict_mem, dict_keys. induction d as [|[k' v] d IH]; simpl.
  - reflexivity.
  - destruct (String.eqb k k'); [reflexivity | exact IH].
Qed.

Lemma ensure_compiled_keeps_params self :
  validation_params (state_of (ensure_compiled self)) = validation_params self.
Proof.
  unfold ensure_compiled, bind, gets, when, state_of. simpl.
  destruct (_compiled self); simpl; [reflexivity|].
  rewrite _compile_run.
  destruct (compile_configs (configs self) empty_parameters)
    as [[cp w] [[]|e]]; reflexivity.
Qed.

Lemma apply_writes_snoc ws key value vp :
  apply_writes (ws ++ [(key, value)]) vp = <[key := value]> (apply_writes ws vp).
Proof. rewrite apply_writes_app. reflexivity. Qed.

Lemma apply_writes_overrides ws key :
  In key (map fst ws) ->
  exists value, forall vp, apply_writes ws vp !! key = Some value.
Proof.
  induction ws as [|[k v] ws IH] using rev_ind; simpl; [contradiction|].
  rewrite map_app, in_app_iff. simpl. intros Hin.
  destruct (decide (k = key)) as [->|Hne].
  - exists v. intros vp. rewrite apply_writes_snoc. apply lookup_insert_eq.
  - destruct IH as [value Hv]; [intuition congruence|].
    exists value. intros vp. rewrite apply_writes_snoc.
    rewrite lookup_insert_ne by exact Hne. apply Hv.
Qed.

(** * The claims *)

Import Scenario.

(** C1 (fails on the code): after compiling a rule set that refers to
    [...:expect_column_values_to_be_between:result:min_value] and
    registering the result of asset [orders] with result map
    [{min_value: 5}], the store should hold 5 under that identifier.  The
    compiler files the identifier under no leaf set (it tests for
    ["results"]), and the registration stops with [ValueError] when it
    unpacks the expectation name into two targets; nothing is stored. *)
Theorem C1_result_urn_registration_stores_nothing :
  let run := register_validation_results "run_1" (orders_results [])
               (connect (directory [min_value_urn])) in
  outcome_of run = Raise ValueError /\
  validation_params (state_of run) = ∅ /\
  validation_params (state_of run) !! min_value_urn = None /\
  outcome_of (get_validation_param min_value_urn (state_of run)) = Ret None /\
  outcome_of (bind_evaluation_parameters "run_1" {| expectations := [] |}
                (state_of run)) = Ret (JDict []).
Proof. vm_compute. repeat split; reflexivity. Qed.

(** C2 (fails on the code): an identifier with the prefix and enough
    segments should be filed in the leaf set its segments name.  A
    non-column [result] identifier is reported as unrecognized and filed
    nowhere; a non-column [details] identifier makes the compilation stop
    with [TypeError], the expectation's node having been replaced by an empty
    set. *)
Theorem C2_non_column_urns_are_not_indexed :
  compile_configs (directory [min_value_urn]) empty_parameters =
    ({| raw := [min_value_urn];
        data_assets :=
          [("orders", [("expect_column_values_to_be_between", KDict [])])] |},
     [("Invalid parameter urn (unrecognized structure): "
       ++ min_value_urn)%string],
     Ret tt) /\
  compile_configs (directory [details_urn]) empty_parameters =
    ({| raw := [details_urn];
        data_assets :=
          [("orders", [("expect_column_values_to_be_between", KSet [])])] |},
     [], Raise TypeError).
Proof. split; vm_compute; reflexivity. Qed.

(** C3 (fails on the code): a value put into the store should be returned
    by [get_validation_param] for its identifier and be reflected by
    [bind_evaluation_parameters] for the run.  [get_validation_param] reads
    the literal key ["key"] whatever identifier it is given, and
    [bind_evaluation_parameters] looks the run id up among the identifiers. *)
Theorem C3_get_reads_the_literal_key key value run_id self :
  let self' := state_of (store_validation_param key value self) in
  validation_params self' !! key = Some value /\
  outcome_of (get_validation_param key self') =
    Ret (if decide (key = "key") then Some value
         else validation_params self !! "key") /\
  outcome_of (bind_evaluation_parameters run_id {| expectations := [] |} self') =
    Ret (if decide (run_id = key) then value
         else match validation_params self !! run_id with
              | Some v => v
              | None => JDict []
              end).
Proof.
  simpl. split; [apply lookup_insert_eq|]. split.
  - unfold get_validation_param, bind, gets, ret, outcome_of. simpl.
    destruct (decide (key = "key")) as [->|Hne].
    + rewrite lookup_insert_eq. reflexivity.
    + rewrite lookup_insert_ne by exact Hne. reflexivity.
  - unfold bind_evaluation_parameters, bind, gets, ret, outcome_of. simpl.
    destruct (decide (run_id = key)) as [->|Hne].
    + rewrite lookup_insert_eq. reflexivity.
    + rewrite lookup_insert_ne by congruence. reflexivity.
Qed.

(** C5 (fails on the code): an entry that matches a column-scoped and a
    non-column identifier of the same expectation should store both.  With
    both identifiers requested and [column = price] in the entry's kwargs,
    the registration subscripts the asset's dict with the literal
    ["columns"] and stops with [KeyError]; nothing is stored, although the
    column-scoped identifier is in its leaf set. *)
Theorem C5_column_and_plain_urn_store_nothing :
  let run := register_validation_results "run_1"
               (orders_results [("column", JStr "price")])
               (connect (directory [column_urn; min_value_urn])) in
  outcome_of run = Raise KeyError /\
  validation_params (state_of run) = ∅ /\
  option_map
    (fun cp => leaf cp "orders" "expect_column_values_to_be_between"
                    "price" "result")
    (_compiled_parameters (state_of run)) = Some [column_urn].
Proof. vm_compute. repeat split; reflexivity. Qed.

(** C6 (fails on the code): a result whose expectation matches a non-column
    identifier should store the value found under the identifier's last
    segment.  For the [result] branch nothing is stored and the
    registration stops with [ValueError]; for the [details] branch the
    compilation that the registration starts stops with [TypeError].  Where a
    [details] value does get stored (the column-scoped loop, reachable only
    for an expectation named ["columns"]), it is the whole [details] map, not
    the value under the last segment. *)
Theorem C6_plain_urn_value_is_not_stored :
  (let run := register_validation_results "run_1" (orders_results [])
                (connect (directory [min_value_urn])) in
   outcome_of run = Raise ValueError /\
   validation_params (state_of run) !! min_value_urn = None) /\
  (let run := register_validation_results "run_1" (orders_results [])
                (connect (directory [details_urn])) in
   outcome_of run = Raise TypeError /\
   validation_params (state_of run) !! details_urn = None) /\
  (let run := register_validation_results "run_1"
                {| meta := [("data_asset_name", JStr "orders")];
                   results := [details_entry] |}
                (connect (directory [details_column_urn])) in
   outcome_of run = Raise ValueError /\
   validation_params (state_of run) !! details_column_urn =
     Some (JDict [("mean", JNum 3); ("count", JNum 7)])).
Proof. vm_compute. repeat split; reflexivity. Qed.

(** C7, counterexample: after compiling a rule set that refers to
    [urn:great_expectations:validations:orders], that identifier is in
    [raw] and in no leaf set. *)
Lemma C7_short_urn_in_raw_but_in_no_leaf :
  let run := _compile (connect (directory [short_urn])) in
  outcome_of run = Ret tt /\
  exists cp, _compiled_parameters (state_of run) = Some cp /\
             ~ every_raw_in_one_leaf cp.
Proof.
  cbv zeta. split; [vm_compute; reflexivity|].
  eexists. split; [vm_compute; reflexivity|].
  intros H. destruct (H short_urn) as (a & k & c & t & Hin & _).
  - left. reflexivity.
  - unfold leaf, leaf_assets in Hin. simpl in Hin.
    destruct (String.eqb a "orders"); simpl in Hin; exact Hin.
Qed.

(** C7 (amended): after a compilation that completes, [raw] holds every
    requested identifier that carries the prefix, malformed ones included; an
    identifier of [raw] in the column-scoped form is in exactly one leaf set,
    the one at the path its segments [3], [5], [7], [8] name; an identifier
    of [raw] with fewer than seven segments is in no leaf set. *)
Theorem C7_raw_and_column_leaves self :
  outcome_of (_compile self) = Ret tt ->
  exists cp,
    _compiled_parameters (state_of (_compile self)) = Some cp /\
    (forall x, In x (raw cp) <-> In x (requested (configs self))) /\
    (forall x a k c t,
        In x (raw cp) -> column_form x a k c t ->
        forall a' k' c' t',
          In x (leaf cp a' k' c' t') <-> (a', k', c', t') = (a, k, c, t)) /\
    (forall x,
        In x (raw cp) -> (length (split_colon x) < 7)%nat ->
        forall a k c t, ~ In x (leaf cp a k c t)).
Proof.
  rewrite _compile_run.
  destruct (compile_configs (configs self) empty_parameters)
    as [[cp w] [[]|e]] eqn:Hrun; simpl; [intros _ | discriminate].
  destruct (compile_configs_spec _ _ _ Hrun) as [Hraw Hleaf].
  unfold raw_is, indexed in Hraw, Hleaf.
  exists cp. split; [reflexivity|]. split; [exact Hraw|]. split.
  - intros x a k c t Hx Hform a' k' c' t'. rewrite Hleaf, <- Hraw. split.
    + intros [_ (H3 & H5 & _ & H7 & H8)].
      destruct Hform as (G3 & G5 & _ & G7 & G8). congruence.
    + intros [= -> -> -> ->]. auto.
  - intros x Hx Hlen a k c t Hin. apply Hleaf in Hin as [_ (_ & _ & H6 & _)].
    assert (6 < length (split_colon x))%nat
      by (apply nth_error_Some; congruence).
    lia.
Qed.

(** C7, witness: the compilation of the short identifier alongside a
    column-scoped one completes. *)
Lemma C7_raw_and_column_leaves_witness :
  exists cp,
    _compiled_parameters
      (state_of (_compile (connect (directory [short_urn; column_urn])))) =
    Some cp /\
    (forall x,
        In x (raw cp) <->
        In x (requested
                (configs (connect (directory [short_urn; column_urn]))))) /\
    (forall x a k c t,
        In x (raw cp) -> column_form x a k c t ->
        forall a' k' c' t',
          In x (leaf cp a' k' c' t') <-> (a', k', c', t') = (a, k, c, t)) /\
    (forall x,
        In x (raw cp) -> (length (split_colon x) < 7)%nat ->
        forall a k c t, ~ In x (leaf cp a k c t)).
Proof.
  apply (C7_raw_and_column_leaves
           (connect (directory [short_urn; column_urn]))).
  vm_compute. reflexivity.
Defined.

(** C8: compilation is a full rebuild.  Compiling again, with the stored
    configurations unchanged, yields the same compiled parameters, the same
    warnings and the same outcome; what it yields depends on the stored
    configurations alone. *)
Theorem C8_compile_is_idempotent self :
  let first := _compile self in
  let second := _compile (state_of first) in
  configs (state_of first) = configs self /\
  _compiled_parameters (state_of second) =
    _compiled_parameters (state_of first) /\
  log_of second = log_of first /\
  outcome_of second = outcome_of first /\
  _compiled_parameters (state_of first) =
    _compiled_parameters (state_of (_compile (connect (configs self)))).
Proof.
  cbv zeta. rewrite (_compile_run self), (_compile_run (connect _)). simpl.
  destruct (compile_configs (configs self) empty_parameters)
    as [[cp w] [[]|e]] eqn:Hrun; unfold state_of; simpl;
    rewrite _compile_run; simpl; rewrite Hrun; repeat split; reflexivity.
Qed.








(** * Further properties of the code *)

Lemma bind_run {St A B} (m : M St A) (f : A -> M St B) s :
  bind m f s =
  match m s with
  | (s1, w1, Ret a) =>
      match f a s1 with
      | (s2, w2, o) => (s2, w1 ++ w2, o)
      end
  | (s1, w1, Raise e) => (s1, w1, Raise e)
  end.
Proof. reflexivity. Qed.

Lemma for_each_cons_run {St A} (f : A -> M St unit) x l s :
  for_each (x :: l) f s =
  match f x s with
  | (s1, w1, Ret _) =>
      match for_each l f s1 with
      | (s2, w2, o) => (s2, w1 ++ w2, o)
      end
  | (s1, w1, Raise e) => (s1, w1, Raise e)
  end.
Proof. reflexivity. Qed.

(** ** The loop over the asset's dict (lines 102-112) *)

Lemma unpack2_two_chars key :
  two_chars key = true ->
  exists a b, key = String a (String b EmptyString) /\
              unpack2 key = Ret (String a EmptyString, String b EmptyString).
Proof.
  unfold two_chars.
  destruct key as [|a [|b [|c key]]]; simpl; try discriminate.
  intros _. exists a, b. split; reflexivity.
Qed.

Lemma unpack2_other key : two_chars key = false -> unpack2 key = Raise ValueError.
Proof.
  unfold two_chars.
  destruct key as [|a [|b [|c key]]]; simpl; intros H;
    try reflexivity; discriminate.
Qed.

Lemma one_char_is_no_keyword a (word : string) :
  (2 <= String.length word)%nat -> String.eqb (String a EmptyString) word = false.
Proof.
  destruct word as [|b [|c word]]; simpl; try lia. intros _.
  destruct (Ascii.eqb a b); reflexivity.
Qed.

(** With a one-character [type_key] neither branch applies: the body only
    logs. *)
Lemma register_desired_param_one_char r a desired_param self :
  register_desired_param r (String a EmptyString) desired_param self =
  (self, [("Unrecognized key for parameter " ++ desired_param)%string], Ret tt).
Proof.
  unfold register_desired_param.
  rewrite (one_char_is_no_keyword a "result") by (simpl; lia).
  rewrite (one_char_is_no_keyword a "details") by (simpl; lia).
  reflexivity.
Qed.

Local Abbreviation asset_loop_body r :=
  (fun key : string =>
    pair ← lift_outcome (unpack2 key);
    let type_key := fst pair in
    let desired_parameters := snd pair in
    if String.eqb type_key "columns" then ret tt
    else for_each (chars desired_parameters)
                  (register_desired_param r type_key)).

Lemma asset_loop_body_run r key (self : DataContext) :
  state_of (asset_loop_body r key self) = self /\
  outcome_of (asset_loop_body r key self) =
    if two_chars key then Ret tt else Raise ValueError.
Proof.
  destruct (two_chars key) eqn:Hk.
  - destruct (unpack2_two_chars key Hk) as (a & b & -> & Hu).
    assert (Hrun : asset_loop_body r (String a (String b EmptyString)) self =
                   (self, [("Unrecognized key for parameter "
                            ++ String b EmptyString)%string], Ret tt)).
    { unfold bind at 1, lift_outcome. rewrite Hu.
      cbv beta iota zeta delta [fst snd].
      rewrite (one_char_is_no_keyword a "columns") by (simpl; lia).
      cbn [chars for_each]. unfold bind.
      rewrite register_desired_param_one_char. reflexivity. }
    rewrite Hrun. split; reflexivity.
  - unfold bind, lift_outcome. rewrite (unpack2_other key Hk).
    split; reflexivity.
Qed.

Lemma asset_loop_run r keys (self : DataContext) :
  state_of (for_each keys (asset_loop_body r) self) = self /\
  outcome_of (for_each keys (asset_loop_body r) self) =
    if forallb two_chars keys then Ret tt else Raise ValueError.
Proof.
  induction keys as [|key keys IH]; [split; reflexivity|].
  rewrite for_each_cons_run. cbn [forallb].
  destruct (asset_loop_body_run r key self) as [Hs Ho].
  destruct (asset_loop_body r key self) as [[s1 w1] o1].
  unfold state_of, outcome_of in Hs, Ho. simpl in Hs, Ho. subst s1 o1.
  destruct (two_chars key); simpl; [|split; reflexivity].
  destruct IH as [Hs Ho].
  destruct (for_each keys (asset_loop_body r) self) as [[s2 w2] o2].
  unfold state_of, outcome_of in *. simpl in *. split; assumption.
Qed.

Lemma compiled_data_assets_run self :
  compiled_data_assets self =
  (self, [], match _compiled_parameters self with
             | Some cp => Ret (data_assets cp)
             | None => Raise AttributeError
             end).
Proof.
  unfold compiled_data_assets, bind, gets, or_raise.
  destruct (_compiled_parameters self); reflexivity.
Qed.

Lemma register_asset_params_state name r self :
  state_of (register_asset_params name r self) = self.
Proof.
  unfold register_asset_params. rewrite bind_run, compiled_data_assets_run.
  destruct (_compiled_parameters self) as [cp|]; [|reflexivity].
  rewrite bind_run. unfold or_raise.
  destruct (dict_get name (data_assets cp)) as [entry|]; [|reflexivity].
  cbn [ret].
  destruct (asset_loop_run r (dict_keys entry) self) as [Hs _].
  destruct (for_each (dict_keys entry) (asset_loop_body r) self)
    as [[s2 w2] o2].
  exact Hs.
Qed.

Lemma register_asset_params_outcome name r self cp entry :
  _compiled_parameters self = Some cp ->
  dict_get name (data_assets cp) = Some entry ->
  outcome_of (register_asset_params name r self) =
  if forallb two_chars (dict_keys entry) then Ret tt else Raise ValueError.
Proof.
  intros Hcp Hentry.
  unfold register_asset_params. rewrite bind_run, compiled_data_assets_run, Hcp.
  rewrite bind_run. unfold or_raise. rewrite Hentry. cbn [ret].
  destruct (asset_loop_run r (dict_keys entry) self) as [_ Ho].
  destruct (for_each (dict_keys entry) (asset_loop_body r) self)
    as [[s2 w2] o2].
  exact Ho.
Qed.

(** ** What the matcher keeps *)

Section Preserves.
Context {St : Type} (P : St -> Prop).

Lemma preserves_bind {A B} (m : M St A) (f : A -> M St B) :
  preserves P m -> (forall a, preserves P (f a)) -> preserves P (bind m f).
Proof.
  intros Hm Hf s Hs. specialize (Hm s Hs). rewrite bind_run.
  destruct (m s) as [[s1 w1] [a|e]]; [|exact Hm].
  specialize (Hf a s1 Hm). destruct (f a s1) as [[s2 w2] o]. exact Hf.
Qed.

Lemma preserves_pure {A} (m : M St A) :
  (forall s, state_of (m s) = s) -> preserves P m.
Proof. intros H s Hs. rewrite H. exact Hs. Qed.

Lemma preserves_for_each {A} (l : list A) (f : A -> M St unit) :
  (forall x, preserves P (f x)) -> preserves P (for_each l f).
Proof.
  intros Hf. induction l as [|x l IH]; [intros s Hs; exact Hs|].
  apply preserves_bind; auto.
Qed.

Lemma preserves_when c (m : M St unit) :
  preserves P m -> preserves P (when c m).
Proof. destruct c; [auto | intros _ s Hs; exact Hs]. Qed.
End Preserves.

Lemma preserves_or_raise {St A} (P : St -> Prop) e (o : option A) :
  preserves P (or_raise e o).
Proof. apply preserves_pure. destruct o; reflexivity. Qed.

Lemma preserves_store (P : DataContext -> Prop) key value :
  (forall vp s, P s -> P (set_validation_params vp s)) ->
  preserves P (store_validation_param key value).
Proof. intros HP s Hs. apply HP. exact Hs. Qed.

Lemma preserves_register_desired_param (P : DataContext -> Prop) r t x :
  (forall vp s, P s -> P (set_validation_params vp s)) ->
  preserves P (register_desired_param r t x).
Proof.
  intros HP. unfold register_desired_param. cbv zeta.
  destruct (String.eqb t "result" && dict_mem _ (result r)).
  - apply preserves_bind; [apply preserves_or_raise|].
    intros v. apply preserves_store. exact HP.
  - apply preserves_bind.
    + destruct (String.eqb t "details"); [|apply preserves_pure; reflexivity].
      apply preserves_bind; [apply preserves_or_raise|].
      intros d. apply preserves_pure. reflexivity.
    + intros [|].
      * apply preserves_bind; [apply preserves_or_raise|].
        intros v. apply preserves_store. exact HP.
      * apply preserves_pure. reflexivity.
Qed.

Lemma preserves_register_column_params (P : DataContext -> Prop) name r :
  (forall vp s, P s -> P (set_validation_params vp s)) ->
  preserves P (register_column_params name r).
Proof.
  intros HP. unfold register_column_params.
  destruct (dict_get "column" (kwargs (expectation_config r))) as [column|];
    [|apply preserves_pure; reflexivity].
  apply preserves_bind;
    [apply preserves_pure; intros s; rewrite compiled_data_assets_run;
     reflexivity|].
  intros assets. apply preserves_bind; [apply preserves_or_raise|].
  intros entry. apply preserves_bind; [apply preserves_or_raise|].
  intros columns. apply preserves_bind; [apply preserves_pure; reflexivity|].
  intros present. apply preserves_when.
  destruct columns as [cols|st]; [|apply preserves_pure; reflexivity].
  destruct column; try (apply preserves_pure; reflexivity).
  apply preserves_bind; [apply preserves_or_raise|].
  intros col. apply preserves_for_each. intros item.
  apply preserves_for_each. intros x.
  apply preserves_register_desired_param. exact HP.
Qed.

(** The column-scoped loop is entered only through the key ["columns"] of
    the asset's dict. *)
Lemma register_column_params_needs_columns name r self cp entry :
  _compiled_parameters self = Some cp ->
  dict_get name (data_assets cp) = Some entry ->
  dict_get "columns" entry = None ->
  state_of (register_column_params name r self) = self.
Proof.
  intros Hcp Hentry Hnone. unfold register_column_params.
  destruct (dict_get "column" (kwargs (expectation_config r))); [|reflexivity].
  rewrite bind_run, compiled_data_assets_run, Hcp.
  rewrite bind_run. unfold or_raise at 1. rewrite Hentry. cbn [ret].
  rewrite bind_run. unfold or_raise at 1. rewrite Hnone. reflexivity.
Qed.

Lemma dict_get_In_keys {V} k (d : list (string * V)) v :
  dict_get k d = Some v -> In k (dict_keys d).
Proof.
  induction d as [|[k' v'] d IH]; simpl; [discriminate|].
  destruct (String.eqb_spec k k') as [->|]; auto.
Qed.

Lemma columns_key_stops_the_asset_loop (entry : asset_node) n :
  dict_get "columns" entry = Some n ->
  forallb two_chars (dict_keys entry) = false.
Proof.
  intros H. apply dict_get_In_keys in H.
  destruct (forallb two_chars (dict_keys entry)) eqn:Hall; [|reflexivity].
  rewrite forallb_forall in Hall. specialize (Hall _ H). discriminate.
Qed.

Lemma register_result_run name r self :
  register_result name r self =
  match _compiled_parameters self with
  | None => (self, [], Raise AttributeError)
  | Some cp =>
      match dict_get name (data_assets cp) with
      | None => (self, [], Raise KeyError)
      | Some entry =>
          if dict_mem (expectation_type (expectation_config r)) entry
          then (register_column_params name r ;;
                register_asset_params name r) self
          else (self, [], Ret tt)
      end
  end.
Proof.
  unfold register_result. rewrite bind_run, compiled_data_assets_run.
  destruct (_compiled_parameters self) as [cp|]; [|reflexivity].
  rewrite bind_run. unfold or_raise.
  destruct (dict_get name (data_assets cp)) as [entry|]; [|reflexivity].
  cbn [ret].
  destruct (dict_mem (expectation_type (expectation_config r)) entry);
    cbn [when]; [|reflexivity].
  destruct ((register_column_params name r ;;
             register_asset_params name r) self) as [[s2 w2] o2].
  reflexivity.
Qed.

(** One result entry: if the body returns, nothing was stored. *)
Lemma register_result_returns name r self :
  outcome_of (register_result name r self) = Ret tt ->
  state_of (register_result name r self) = self.
Proof.
  rewrite register_result_run.
  destruct (_compiled_parameters self) as [cp|] eqn:Hcp; [|discriminate].
  destruct (dict_get name (data_assets cp)) as [entry|] eqn:Hentry;
    [|discriminate].
  destruct (dict_mem (expectation_type (expectation_config r)) entry);
    [|reflexivity].
  rewrite bind_run.
  pose proof (preserves_register_column_params
                (fun s => _compiled_parameters s = Some cp) name r
                (fun vp s H => H) self Hcp) as Hkeep.
  destruct (dict_get "columns" entry) as [n|] eqn:Hcols.
  - destruct (register_column_params name r self) as [[s1 w1] [[]|e]];
      [|discriminate].
    unfold state_of in Hkeep; simpl in Hkeep.
    pose proof (register_asset_params_outcome name r s1 cp entry Hkeep Hentry)
      as Ho.
    rewrite (columns_key_stops_the_asset_loop entry n Hcols) in Ho.
    destruct (register_asset_params name r s1) as [[s2 w2] o2].
    unfold outcome_of in *; simpl in *. subst o2. discriminate.
  - pose proof (register_column_params_needs_columns name r self cp entry
                  Hcp Hentry Hcols) as Hsame.
    destruct (register_column_params name r self) as [[s1 w1] [[]|e]];
      [|discriminate].
    unfold state_of in Hsame; simpl in Hsame. subst s1.
    pose proof (register_asset_params_state name r self) as Hs.
    destruct (register_asset_params name r self) as [[s2 w2] o2].
    intros _. exact Hs.
Qed.

Lemma for_each_returns {St A} (l : list A) (f : A -> M St unit) s :
  (forall x s, outcome_of (f x s) = Ret tt -> state_of (f x s) = s) ->
  outcome_of (for_each l f s) = Ret tt -> state_of (for_each l f s) = s.
Proof.
  intros Hf. revert s. induction l as [|x l IH]; intros s; [reflexivity|].
  rewrite for_each_cons_run. specialize (Hf x s).
  destruct (f x s) as [[s1 w1] [[]|e]]; [|discriminate].
  unfold state_of, outcome_of in Hf; simpl in Hf.
  rewrite (Hf eq_refl). specialize (IH s).
  destruct (for_each l f s) as [[s2 w2] o2]. exact IH.
Qed.

(** [register_validation_results] after the lazy compilation. *)
Lemma register_validation_results_run run_id vr self :
  register_validation_results run_id vr self =
  match ensure_compiled self with
  | (s1, w1, Raise e) => (s1, w1, Raise e)
  | (s1, w1, Ret _) =>
      match dict_get "data_asset_name" (meta vr) with
      | None => (s1, w1 ++ [no_data_asset_name_warning], Ret tt)
      | Some name =>
          match _compiled_parameters s1 with
          | None => (s1, w1 ++ [], Raise AttributeError)
          | Some cp =>
              match json_in_keys name (dict_keys (data_assets cp)) with
              | Raise e => (s1, w1 ++ [], Raise e)
              | Ret false => (s1, w1 ++ [], Ret tt)
              | Ret true =>
                  match name with
                  | JStr data_asset_name =>
                      match for_each (results vr)
                              (register_result data_asset_name) s1 with
                      | (s2, w2, o) => (s2, w1 ++ w2, o)
                      end
                  | _ => (s1, w1 ++ [], Raise KeyError)
                  end
              end
          end
      end
  end.
Proof.
  unfold register_validation_results. rewrite bind_run.
  destruct (ensure_compiled self) as [[s1 w1] [[]|e]]; [|reflexivity].
  destruct (dict_get "data_asset_name" (meta vr)) as [name|]; [|reflexivity].
  rewrite bind_run, compiled_data_assets_run.
  destruct (_compiled_parameters s1) as [cp|]; [|reflexivity].
  rewrite bind_run. unfold lift_outcome.
  destruct (json_in_keys name (dict_keys (data_assets cp))) as [[|]|e];
    cbn [negb]; try reflexivity.
  destruct name; try reflexivity.
  destruct (for_each (results vr) (register_result s) s1) as [[s2 w2] o2].
  reflexivity.
Qed.

(** X1: a call of [register_validation_results] that returns has stored
    nothing.  A value is stored only through the key ["columns"] of the
    asset's dict, and with that key present the loop over the dict's keys
    raises [ValueError]; so every call that changes [validation_params] ends
    in an exception. *)
Theorem returning_registration_stores_nothing run_id vr self :
  outcome_of (register_validation_results run_id vr self) = Ret tt ->
  validation_params (state_of (register_validation_results run_id vr self)) =
  validation_params self.
Proof.
  rewrite register_validation_results_run.
  pose proof (ensure_compiled_keeps_params self) as Hkeep.
  destruct (ensure_compiled self) as [[s1 w1] [[]|e]]; [|discriminate].
  unfold state_of in Hkeep; simpl in Hkeep.
  destruct (dict_get "data_asset_name" (meta vr)) as [name|];
    [|intros _; exact Hkeep].
  destruct (_compiled_parameters s1) as [cp|]; [|discriminate].
  destruct (json_in_keys name (dict_keys (data_assets cp))) as [[|]|e];
    [|intros _; exact Hkeep|discriminate].
  destruct name; try discriminate.
  pose proof (for_each_returns (results vr) (register_result s) s1
                (fun x s0 => register_result_returns s x s0)) as Hloop.
  destruct (for_each (results vr) (register_result s) s1) as [[s2 w2] o2].
  unfold state_of, outcome_of in *; simpl in *.
  intros Ho. rewrite (Hloop Ho). exact Hkeep.
Qed.

(** X1, witness: the asset [orders] is indexed, the entry's expectation is
    not, so the call returns. *)
Lemma returning_registration_stores_nothing_witness :
  validation_params
    (state_of (register_validation_results "run_1" Sample.unindexed_results
                 (connect (Scenario.directory [Scenario.column_urn])))) =
  validation_params (connect (Scenario.directory [Scenario.column_urn])).
Proof.
  apply returning_registration_stores_nothing. vm_compute. reflexivity.
Defined.

(** X2: the loop of lines 102-112 never stores a parameter.  It iterates the
    keys of the asset's dict and unpacks each into two targets: it raises
    [ValueError] at the first key that is not two characters long, and for a
    two-character key it only logs, a one-character [type_key] being neither
    ["result"] nor ["details"]. *)
Theorem asset_loop_never_stores name r self cp entry :
  _compiled_parameters self = Some cp ->
  dict_get name (data_assets cp) = Some entry ->
  state_of (register_asset_params name r self) = self /\
  outcome_of (register_asset_params name r self) =
    if forallb two_chars (dict_keys entry) then Ret tt else Raise ValueError.
Proof.
  intros Hcp Hentry. split.
  - apply register_asset_params_state.
  - apply (register_asset_params_outcome name r self cp entry Hcp Hentry).
Qed.

(** X3: a result entry whose expectation type is indexed under the asset,
    whose kwargs have no ["column"] and whose expectation type is not two
    characters long makes the registration of that entry raise [ValueError]
    with the context unchanged. *)
Theorem matching_entry_without_column_raises name r self cp entry :
  _compiled_parameters self = Some cp ->
  dict_get name (data_assets cp) = Some entry ->
  dict_mem (expectation_type (expectation_config r)) entry = true ->
  dict_get "column" (kwargs (expectation_config r)) = None ->
  two_chars (expectation_type (expectation_config r)) = false ->
  state_of (register_result name r self) = self /\
  outcome_of (register_result name r self) = Raise ValueError.
Proof.
  intros Hcp Hentry Hmem Hcol Hlen.
  rewrite register_result_run, Hcp, Hentry, Hmem, bind_run.
  unfold register_column_params at 1 2. rewrite Hcol. cbn [ret].
  pose proof (register_asset_params_state name r self) as Hs.
  pose proof (register_asset_params_outcome name r self cp entry Hcp Hentry)
    as Ho.
  assert (Hall : forallb two_chars (dict_keys entry) = false).
  { destruct (forallb two_chars (dict_keys entry)) eqn:Hall; [|reflexivity].
    rewrite forallb_forall in Hall.
    apply dict_mem_true in Hmem as [n Hn]. apply dict_get_In_keys in Hn.
    rewrite (Hall _ Hn) in Hlen. discriminate. }
  rewrite Hall in Ho.
  destruct (register_asset_params name r self) as [[s2 w2] o2].
  unfold state_of, outcome_of in *; simpl in *. split; assumption.
Qed.

(** ** The column-scoped loop (lines 87-100) *)

Lemma register_desired_param_run r t x self :
  register_desired_param r t x self =
  let key := last_part (split_colon x) in
  let unrecognized :=
    (self, [("Unrecognized key for parameter " ++ x)%string], Ret tt) in
  if String.eqb t "result" && dict_mem key (result r) then
    match dict_get key (result r) with
    | Some v =>
        (set_validation_params (<[x := v]> (validation_params self)) self,
         [], Ret tt)
    | None => (self, [], Raise KeyError)
    end
  else if String.eqb t "details" then
    match dict_get "details" (result r) with
    | None => (self, [], Raise KeyError)
    | Some d =>
        match json_contains key d with
        | Raise e => (self, [], Raise e)
        | Ret true =>
            (set_validation_params (<[x := d]> (validation_params self)) self,
             [], Ret tt)
        | Ret false => unrecognized
        end
    end
  else unrecognized.
Proof.
  unfold register_desired_param. cbv zeta.
  destruct (String.eqb t "result" && dict_mem _ (result r)).
  - rewrite bind_run. unfold or_raise.
    destruct (dict_get _ (result r)); reflexivity.
  - rewrite bind_run. destruct (String.eqb t "details"); [|reflexivity].
    rewrite bind_run. unfold or_raise at 1.
    destruct (dict_get "details" (result r)) as [d|] eqn:Hd; [|reflexivity].
    cbn [ret]. unfold lift_outcome.
    destruct (json_contains _ d) as [[|]|e]; reflexivity.
Qed.

Lemma register_desired_param_cases r t x self :
  (exists w o,
      register_desired_param r t x self = (self, w, o) /\
      (o = Ret tt ->
       ~ (t = "result" /\
          dict_mem (last_part (split_colon x)) (result r) = true))) \/
  (exists v,
      register_desired_param r t x self =
      (set_validation_params (<[x := v]> (validation_params self)) self,
       [], Ret tt) /\
      stored_value r t x v).
Proof.
  rewrite register_desired_param_run. cbv zeta.
  set (key := last_part (split_colon x)).
  destruct (String.eqb_spec t "result") as [->|Hres]; cbn [andb].
  - destruct (dict_mem key (result r)) eqn:Hmem.
    + destruct (dict_mem_true _ _ Hmem) as [v Hv]. rewrite Hv.
      right. exists v. split; [reflexivity | left; auto].
    + left. eexists _, _. split; [reflexivity|]. intros _ [_ H]. discriminate.
  - destruct (String.eqb_spec t "details") as [->|Hdet].
    + destruct (dict_get "details" (result r)) as [d|] eqn:Hd.
      2:{ left. eexists _, _. split; [reflexivity|]. discriminate. }
      destruct (json_contains key d) as [[|]|e].
      * right. exists d. split; [reflexivity | right; auto].
      * left. eexists _, _. split; [reflexivity|]. intros _ [H _]. discriminate.
      * left. eexists _, _. split; [reflexivity|]. discriminate.
    + left. eexists _, _. split; [reflexivity|]. intros _ [H _]. contradiction.
Qed.

Lemma writes_within_refl Q s : writes_within Q s s.
Proof. split; [destruct s; reflexivity | auto]. Qed.

Lemma writes_within_trans Q s0 s1 s2 :
  writes_within Q s0 s1 -> writes_within Q s1 s2 -> writes_within Q s0 s2.
Proof.
  intros [E1 H1] [E2 H2]. split.
  - rewrite E2 at 1. rewrite E1. reflexivity.
  - intros x. destruct (H2 x) as [->|H]; [apply H1 | right; exact H].
Qed.

Lemma writes_within_mono (Q Q' : string -> json -> Prop) s0 s :
  (forall x v, Q x v -> Q' x v) -> writes_within Q s0 s -> writes_within Q' s0 s.
Proof.
  intros HQ [E H]. split; [exact E|].
  intros x. destruct (H x) as [Hx|(v & Hv & Hq)]; [auto | right; eauto].
Qed.

Lemma writes_within_store (Q : string -> json -> Prop) s x v :
  Q x v ->
  writes_within Q s
    (set_validation_params (<[x := v]> (validation_params s)) s).
Proof.
  intros Hq. split; [reflexivity|]. intros y. simpl.
  destruct (decide (x = y)) as [<-|Hne].
  - right. exists v. split; [apply lookup_insert_eq | exact Hq].
  - left. apply lookup_insert_ne. exact Hne.
Qed.

Lemma for_each_app_run {St A} (f : A -> M St unit) l1 l2 s :
  for_each (l1 ++ l2) f s =
  match for_each l1 f s with
  | (s1, w1, Ret _) =>
      match for_each l2 f s1 with
      | (s2, w2, o) => (s2, w1 ++ w2, o)
      end
  | (s1, w1, Raise e) => (s1, w1, Raise e)
  end.
Proof.
  revert s. induction l1 as [|x l1 IH]; intros s.
  - simpl. destruct (for_each l2 f s) as [[s2 w2] o]. reflexivity.
  - cbn [app]. rewrite !for_each_cons_run.
    destruct (f x s) as [[s1 w1] [[]|e]]; [|reflexivity].
    rewrite IH. destruct (for_each l1 f s1) as [[s2 w2] [[]|e]]; [|reflexivity].
    destruct (for_each l2 f s2) as [[s3 w3] o]. rewrite app_assoc. reflexivity.
Qed.

(** The inner loop, over one set of desired parameters. *)
Lemma desired_params_loop_writes r t set self :
  writes_within (fun x v => In x set /\ stored_value r t x v) self
    (state_of (for_each set (register_desired_param r t) self)).
Proof.
  revert self. induction set as [|x0 set IH]; intros self;
    [apply writes_within_refl|].
  rewrite for_each_cons_run.
  assert (H1 : writes_within
                 (fun x v => In x (x0 :: set) /\ stored_value r t x v) self
                 (state_of (register_desired_param r t x0 self))).
  { destruct (register_desired_param_cases r t x0 self)
      as [(w & o & -> & _)|(v & -> & Hv)].
    - apply writes_within_refl.
    - apply writes_within_store. split; [left; reflexivity | exact Hv]. }
  destruct (register_desired_param r t x0 self) as [[s1 w1] [[]|e]];
    [|exact H1].
  unfold state_of in H1; simpl in H1.
  specialize (IH s1).
  destruct (for_each set (register_desired_param r t) s1) as [[s2 w2] o2].
  unfold state_of in *; simpl in *.
  eapply writes_within_trans; [exact H1|].
  eapply writes_within_mono; [|exact IH].
  intros x v [Hin Hv]. split; [right; exact Hin | exact Hv].
Qed.

Lemma desired_params_loop_stores r set self x v :
  outcome_of (for_each set (register_desired_param r "result") self) = Ret tt ->
  In x set ->
  dict_get (last_part (split_colon x)) (result r) = Some v ->
  validation_params
    (state_of (for_each set (register_desired_param r "result") self)) !! x =
  Some v.
Proof.
  revert self. induction set as [|x0 set IH]; intros self Hret Hin Hv;
    [contradiction|].
  rewrite for_each_cons_run in Hret |- *.
  pose proof (register_desired_param_cases r "result" x0 self) as Hcase.
  destruct (register_desired_param r "result" x0 self) as [[s1 w1] [[]|e]];
    [|discriminate].
  pose proof (desired_params_loop_writes r "result" set s1) as Hrest.
  specialize (IH s1).
  destruct (for_each set (register_desired_param r "result") s1)
    as [[s2 w2] o2].
  unfold state_of, outcome_of in *; simpl in *.
  assert (Hkeep : validation_params s1 !! x = Some v ->
                  validation_params s2 !! x = Some v).
  { intros H1. destruct Hrest as [_ Hrest].
    destruct (Hrest x) as [->|(v' & -> & _ & [[_ Hv']|[Hd _]])];
      [exact H1 | congruence | discriminate]. }
  destruct Hin as [->|Hin]; [|apply IH; auto].
  apply Hkeep.
  destruct Hcase as [(w & o & Heq & Hno)|(v' & Heq & Hv')].
  - injection Heq as -> -> <-.
    exfalso. apply Hno; [reflexivity|]. split; [reflexivity|].
    unfold dict_mem. rewrite Hv. reflexivity.
  - injection Heq as -> ->. simpl. rewrite lookup_insert_eq.
    destruct Hv' as [[_ Hv']|[Hd _]]; [congruence | discriminate].
Qed.

Local Abbreviation column_loop_body r :=
  (fun item : string * list string =>
     for_each (snd item) (register_desired_param r (fst item))).

Lemma register_column_params_run name r self :
  register_column_params name r self =
  match dict_get "column" (kwargs (expectation_config r)) with
  | None => (self, [], Ret tt)
  | Some column =>
      match _compiled_parameters self with
      | None => (self, [], Raise AttributeError)
      | Some cp =>
          match dict_get name (data_assets cp) with
          | None => (self, [], Raise KeyError)
          | Some entry =>
              match dict_get "columns" entry with
              | None => (self, [], Raise KeyError)
              | Some columns =>
                  match json_in_node column columns with
                  | Raise e => (self, [], Raise e)
                  | Ret false => (self, [], Ret tt)
                  | Ret true =>
                      match columns, column with
                      | KSet _, _ => (self, [], Raise TypeError)
                      | KDict cols, JStr c =>
                          match dict_get c cols with
                          | None => (self, [], Raise KeyError)
                          | Some col => for_each col (column_loop_body r) self
                          end
                      | KDict _, _ => (self, [], Raise KeyError)
                      end
                  end
              end
          end
      end
  end.
Proof.
  unfold register_column_params.
  destruct (dict_get "column" (kwargs (expectation_config r))) as [column|];
    [|reflexivity].
  rewrite bind_run, compiled_data_assets_run.
  destruct (_compiled_parameters self) as [cp|]; [|reflexivity].
  rewrite bind_run. unfold or_raise at 1.
  destruct (dict_get name (data_assets cp)) as [entry|]; [|reflexivity].
  cbn [ret]. rewrite bind_run. unfold or_raise at 1.
  destruct (dict_get "columns" entry) as [columns|]; [|reflexivity].
  cbn [ret]. rewrite bind_run. unfold lift_outcome.
  destruct (json_in_node column columns) as [[|]|e]; try reflexivity.
  cbn [when].
  destruct columns as [cols|st]; [|reflexivity].
  destruct column; try reflexivity.
  rewrite bind_run. unfold or_raise.
  destruct (dict_get s cols) as [col|]; [|reflexivity].
  cbn [ret].
  destruct (for_each col (column_loop_body r) self) as [[s2 w2] o2].
  reflexivity.
Qed.

Lemma column_loop_writes r col items self :
  (forall item, In item items -> In item col) ->
  writes_within (column_value r col) self
    (state_of (for_each items (column_loop_body r) self)).
Proof.
  revert self. induction items as [|[t set] items IH]; intros self Hsub;
    [apply writes_within_refl|].
  rewrite for_each_cons_run.
  pose proof (desired_params_loop_writes r t set self) as H1.
  cbn [fst snd].
  destruct (for_each set (register_desired_param r t) self)
    as [[s1 w1] [[]|e]]; unfold state_of in H1; simpl in H1.
  - specialize (IH s1 (fun item H => Hsub item (or_intror H))).
    destruct (for_each items (column_loop_body r) s1) as [[s2 w2] o2].
    unfold state_of in *; simpl in *.
    eapply writes_within_trans; [|exact IH].
    eapply writes_within_mono; [|exact H1].
    intros x v [Hin Hv]. exists t, set. split; [|auto].
    apply Hsub. left. reflexivity.
  - eapply writes_within_mono; [|exact H1].
    intros x v [Hin Hv]. exists t, set. split; [|auto].
    apply Hsub. left. reflexivity.
Qed.

Lemma column_loop_stores r col self set x v :
  outcome_of (for_each col (column_loop_body r) self) = Ret tt ->
  In ("result", set) col -> In x set ->
  dict_get (last_part (split_colon x)) (result r) = Some v ->
  (forall set', In ("details", set') col -> ~ In x set') ->
  validation_params (state_of (for_each col (column_loop_body r) self)) !! x =
  Some v.
Proof.
  intros Hret Hin Hx Hv Hnot.
  destruct (in_split _ _ Hin) as (before & after & Hcol).
  assert (Hsub : forall item, In item after -> In item col).
  { intros item H. rewrite Hcol, in_app_iff. right. right. exact H. }
  rewrite Hcol in Hret |- *.
  rewrite for_each_app_run in Hret |- *.
  destruct (for_each before (column_loop_body r) self) as [[s1 w1] [[]|e]];
    [|discriminate].
  rewrite for_each_cons_run in Hret |- *. cbn [fst snd] in Hret |- *.
  pose proof (desired_params_loop_stores r set s1 x v) as Hstore.
  destruct (for_each set (register_desired_param r "result") s1)
    as [[s2 w2] [[]|e]]; [|discriminate].
  unfold state_of, outcome_of in Hstore; simpl in Hstore.
  specialize (Hstore eq_refl Hx Hv).
  pose proof (column_loop_writes r col after s2 Hsub) as [_ Hrest].
  destruct (for_each after (column_loop_body r) s2) as [[s3 w3] o3].
  unfold state_of in *; simpl in *.
  destruct (Hrest x) as [->|(v' & -> & t & set' & Hin' & Hx' & Hv')];
    [exact Hstore|].
  destruct Hv' as [[_ Hv']|[-> _]]; [congruence|].
  exfalso. exact (Hnot set' Hin' Hx').
Qed.

(** X4: the column-scoped loop stores only what the index lists.  If it
    changes the entry of [validation_params] under [x] to [v], then [x] is in
    a set of [data_assets[name]["columns"][column]], the literal key
    ["columns"] standing where the expectation name belongs, and [v] is the
    entry's [result] value under the last segment of [x] (set ["result"]) or
    the entry's whole [details] object (set ["details"]). *)
Theorem column_loop_stores_only_listed name r self x v :
  validation_params (state_of (register_column_params name r self)) !! x =
    Some v ->
  validation_params self !! x <> Some v ->
  exists cp entry cols c col,
    _compiled_parameters self = Some cp /\
    dict_get name (data_assets cp) = Some entry /\
    dict_get "columns" entry = Some (KDict cols) /\
    dict_get "column" (kwargs (expectation_config r)) = Some (JStr c) /\
    dict_get c cols = Some col /\
    column_value r col x v.
Proof.
  rewrite register_column_params_run.
  destruct (dict_get "column" (kwargs (expectation_config r)))
    as [column|] eqn:Hkw; [|intros H1 H2; contradiction].
  destruct (_compiled_parameters self) as [cp|] eqn:Hcp;
    [|intros H1 H2; contradiction].
  destruct (dict_get name (data_assets cp)) as [entry|] eqn:Hentry;
    [|intros H1 H2; contradiction].
  destruct (dict_get "columns" entry) as [columns|] eqn:Hcols;
    [|intros H1 H2; contradiction].
  destruct (json_in_node column columns) as [[|]|e];
    try (intros H1 H2; contradiction).
  destruct columns as [cols|st]; [|intros H1 H2; contradiction].
  destruct column as [| | |c| |]; try (intros H1 H2; contradiction).
  destruct (dict_get c cols) as [col|] eqn:Hcol;
    [|intros H1 H2; contradiction].
  pose proof (column_loop_writes r col col self (fun item H => H)) as [_ Hw].
  intros H1 H2. exists cp, entry, cols, c, col.
  repeat (split; [reflexivity || assumption|]).
  destruct (Hw x) as [Hsame|(v' & Hv' & Hq)]; [congruence|].
  rewrite Hv' in H1. injection H1 as ->. exact Hq.
Qed.

(** X5: when the column-scoped loop completes, every identifier listed
    under ["result"] for the entry's column whose last segment is a key of
    the entry's result holds that value afterwards, provided no ["details"]
    set of the column lists the identifier as well. *)
Theorem column_loop_stores_result_values name r self cp entry cols c col
    set x v :
  _compiled_parameters self = Some cp ->
  dict_get name (data_assets cp) = Some entry ->
  dict_get "columns" entry = Some (KDict cols) ->
  dict_get "column" (kwargs (expectation_config r)) = Some (JStr c) ->
  dict_get c cols = Some col ->
  In ("result", set) col -> In x set ->
  (forall set', In ("details", set') col -> ~ In x set') ->
  dict_get (last_part (split_colon x)) (result r) = Some v ->
  outcome_of (register_column_params name r self) = Ret tt ->
  validation_params (state_of (register_column_params name r self)) !! x =
  Some v.
Proof.
  intros Hcp Hentry Hcols Hkw Hcol Hin Hx Hnot Hv.
  rewrite register_column_params_run, Hkw, Hcp, Hentry, Hcols.
  cbn [json_in_node json_in_keys]. rewrite set_mem_dict_keys.
  unfold dict_mem. rewrite Hcol.
  intros Hret. apply (column_loop_stores r col self set x v); assumption.
Qed.

(** ** When the compiler completes *)

Lemma try_post_bind {St A B} (E : St -> Prop) (X : exn -> Prop) P
    (m : M St A) (f : A -> M St B) R Q :
  hoare P m (try_post E X R) ->
  (forall a, hoare (R a) (f a) (try_post E X Q)) ->
  hoare P (bind m f) (try_post E X Q).
Proof.
  intros Hm Hf. eapply hoare_bind; [|exact Hf].
  eapply hoare_conseq; [exact Hm | auto |].
  intros s [a|[]]; simpl; auto.
Qed.

Lemma try_post_index {St} (E : St -> Prop) X (P : St -> Prop) l i x :
  nth_error l i = Some x ->
  hoare P (index l i) (try_post E X (fun y s => P s /\ y = x)).
Proof. intros H s Hs. unfold index. rewrite H. simpl. auto. Qed.

Lemma try_post_index_missing {St B} (E : St -> Prop) X (P : St -> Prop)
    (f : string -> M St B) (Q : B -> St -> Prop) l i :
  nth_error l i = None -> (forall s, P s -> E s) ->
  hoare P (bind (index l i) f) (try_post E X Q).
Proof.
  intros H HE s Hs. unfold bind, index. rewrite H. simpl. auto.
Qed.

Lemma nodes_are_dicts_set_asset r a d assets :
  nodes_are_dicts {| raw := r; data_assets := assets |} ->
  (forall k n, dict_get k d = Some n -> exists cols, n = KDict cols) ->
  nodes_are_dicts {| raw := r; data_assets := dict_set a d assets |}.
Proof.
  intros Hwf Hd a' d' k n. simpl. rewrite dict_get_set.
  destruct (String.eqb a' a).
  - intros [= <-]. apply Hd.
  - apply Hwf.
Qed.

(** Progress of the four creation steps and of the final insertion, from a
    state whose nodes are dicts. *)
Lemma ensure_asset_progress a s :
  nodes_are_dicts s ->
  let r := (cp ← get;
            when (negb (dict_mem a (data_assets cp))) (Index.set_asset a [])) s
  in outcome_of r = Ret tt /\ nodes_are_dicts (state_of r) /\
     has_asset (state_of r) a.
Proof.
  intros Hwf. run_index. destruct (dict_mem a (data_assets s)) eqn:Hm; simpl.
  - split; [reflexivity|]. split; [exact Hwf|]. apply dict_mem_true. exact Hm.
  - split; [reflexivity|]. split.
    + destruct s as [r assets]. apply nodes_are_dicts_set_asset; [exact Hwf|].
      intros k n. discriminate.
    + exists []. apply dict_get_set_eq.
Qed.

Lemma ensure_kind_progress a k s :
  nodes_are_dicts s -> has_asset s a ->
  let r := (d ← Index.get_asset a;
            when (negb (dict_mem k d)) (Index.set_kind a k (KDict []))) s
  in outcome_of r = Ret tt /\ nodes_are_dicts (state_of r) /\
     exists d cols, dict_get a (data_assets (state_of r)) = Some d /\
                    dict_get k d = Some (KDict cols).
Proof.
  intros Hwf [d Ha]. run_index. rewrite Ha. simpl.
  destruct (dict_mem k d) eqn:Hm; simpl.
  - split; [reflexivity|]. split; [exact Hwf|].
    destruct (dict_mem_true _ _ Hm) as [n Hn].
    destruct (Hwf a d k n Ha Hn) as [cols ->]. eauto.
  - rewrite Ha. simpl. split; [reflexivity|]. split.
    + destruct s as [r assets]. apply nodes_are_dicts_set_asset; [exact Hwf|].
      intros k' n. rewrite dict_get_set.
      destruct (String.eqb k' k); [intros [= <-]; eauto|].
      apply (Hwf a d k' n Ha).
    + exists (dict_set k (KDict []) d), []. split; apply dict_get_set_eq.
Qed.

Lemma ensure_column_progress a k c s :
  nodes_are_dicts s ->
  (exists d cols, dict_get a (data_assets s) = Some d /\
                  dict_get k d = Some (KDict cols)) ->
  let r := (n ← Index.get_kind a k;
            when (negb (node_contains c n)) (Index.set_column a k c [])) s
  in outcome_of r = Ret tt /\ nodes_are_dicts (state_of r) /\
     has_column (state_of r) a k c.
Proof.
  intros Hwf (d & cols & Ha & Hk). run_index. rewrite Ha. simpl.
  rewrite Hk. simpl. destruct (dict_mem c cols) eqn:Hm; simpl.
  - split; [reflexivity|]. split; [exact Hwf|].
    destruct (dict_mem_true _ _ Hm) as [col Hcol]. exists d, cols, col. auto.
  - rewrite Ha. simpl. rewrite Hk. simpl. rewrite Ha. simpl.
    split; [reflexivity|]. split.
    + destruct s as [r assets]. apply nodes_are_dicts_set_asset; [exact Hwf|].
      intros k' n. rewrite dict_get_set.
      destruct (String.eqb k' k); [intros [= <-]; eauto|].
      apply (Hwf a d k' n Ha).
    + exists (dict_set k (KDict (dict_set c [] cols)) d), (dict_set c [] cols), [].
      repeat split; apply dict_get_set_eq.
Qed.

Lemma set_type_progress a k c t st s :
  nodes_are_dicts s -> has_column s a k c ->
  outcome_of (Index.set_type a k c t st s) = Ret tt /\
  nodes_are_dicts (state_of (Index.set_type a k c t st s)) /\
  has_type (state_of (Index.set_type a k c t st s)) a k c t.
Proof.
  intros Hwf (d & cols & col & Ha & Hk & Hc). run_index.
  rewrite Ha. simpl. rewrite Hk. simpl. rewrite Hc. simpl.
  rewrite Ha. simpl. rewrite Hk. simpl. rewrite Ha. simpl.
  split; [reflexivity|]. split.
  - destruct s as [r assets]. apply nodes_are_dicts_set_asset; [exact Hwf|].
    intros k' n. rewrite dict_get_set.
    destruct (String.eqb k' k); [intros [= <-]; eauto|].
    apply (Hwf a d k' n Ha).
  - eexists _, _, _, st. repeat split; apply dict_get_set_eq.
Qed.

Lemma has_type_column s a k c t : has_type s a k c t -> has_column s a k c.
Proof. intros (d & cols & col & st & Ha & Hk & Hc & _). exists d, cols, col. auto. Qed.

Lemma ensure_type_progress a k c t s :
  nodes_are_dicts s -> has_column s a k c ->
  let r := (col ← Index.get_column a k c;
            when (negb (dict_mem t col)) (Index.set_type a k c t [])) s
  in outcome_of r = Ret tt /\ nodes_are_dicts (state_of r) /\
     has_type (state_of r) a k c t.
Proof.
  intros Hwf Hcol. pose proof Hcol as (d & cols & col & Ha & Hk & Hc).
  cbv zeta. rewrite bind_run.
  assert (Hget : Index.get_column a k c s = (s, [], Ret col)).
  { run_index. rewrite Ha. simpl. rewrite Hk. simpl. rewrite Hc. reflexivity. }
  rewrite Hget. destruct (dict_mem t col) eqn:Hm; cbn [negb when].
  - split; [reflexivity|]. split; [exact Hwf|].
    destruct (dict_mem_true _ _ Hm) as [st Hst]. exists d, cols, col, st. auto.
  - pose proof (set_type_progress a k c t [] s Hwf Hcol) as H.
    destruct (Index.set_type a k c t [] s) as [[s2 w2] o2]. exact H.
Qed.

Lemma add_leaf_progress a k c t p s :
  nodes_are_dicts s -> has_type s a k c t ->
  let r := (st ← Index.get_type a k c t;
            Index.set_type a k c t (set_add p st)) s
  in outcome_of r = Ret tt /\ nodes_are_dicts (state_of r).
Proof.
  intros Hwf Htype. pose proof Htype as (d & cols & col & st & Ha & Hk & Hc & Ht).
  cbv zeta. rewrite bind_run.
  assert (Hget : Index.get_type a k c t s = (s, [], Ret st)).
  { run_index. rewrite Ha. simpl. rewrite Hk. simpl. rewrite Hc. simpl.
    rewrite Ht. reflexivity. }
  rewrite Hget.
  pose proof (set_type_progress a k c t (set_add p st) s Hwf
                (has_type_column _ _ _ _ _ Htype)) as (Ho & Hw & _).
  destruct (Index.set_type a k c t (set_add p st) s) as [[s2 w2] o2].
  split; assumption.
Qed.

Lemma hoare_of_progress {St} (P Post E : St -> Prop) X (m : M St unit) :
  (forall s, P s -> outcome_of (m s) = Ret tt /\ Post (state_of (m s))) ->
  hoare P m (try_post E X (fun _ => Post)).
Proof. intros H s Hs. destruct (H s Hs) as [-> HP]. exact HP. Qed.

(** A parameter that is not an aborting one is always compiled to the end,
    from any index whose nodes are dicts. *)
Lemma compile_parameter_progress known_assets p :
  aborting_parameter p = false ->
  hoare nodes_are_dicts (compile_parameter known_assets p)
        (fun s o => o = Ret tt /\ nodes_are_dicts s).
Proof.
  intros Hgood. unfold compile_parameter.
  set (E := nodes_are_dicts). set (X := fun _ : exn => False).
  eapply hoare_bind with (R := fun _ => nodes_are_dicts).
  { apply hoare_modify. intros s Hs a d k n. simpl. apply Hs. }
  intros _. eapply hoare_try with (R := nodes_are_dicts).
  2:{ apply hoare_warning. auto. }
  eapply hoare_conseq
    with (Q := try_post E X (fun _ s => nodes_are_dicts s))
         (P := nodes_are_dicts);
    [| auto | intros s [[]|[]]; simpl; auto; contradiction].
  destruct (nth_error (split_colon p) 3) as [p3|] eqn:H3.
  2:{ eapply try_post_index_missing; [exact H3 | auto]. }
  eapply try_post_bind; [apply (try_post_index E X _ _ _ _ H3)|].
  intros a. apply hoare_pure. intros ->.
  eapply try_post_bind with (R := fun _ => nodes_are_dicts).
  { apply hoare_when; [intros _; apply hoare_warning|]; auto. }
  intros _. apply hoare_assoc.
  eapply try_post_bind
    with (R := fun _ s => nodes_are_dicts s /\ has_asset s p3).
  { apply hoare_of_progress. intros s Hs.
    apply (ensure_asset_progress p3 s Hs). }
  intros _.
  destruct (nth_error (split_colon p) 5) as [p5|] eqn:H5.
  2:{ eapply try_post_index_missing; [exact H5 | intros s [Hs _]; exact Hs]. }
  eapply try_post_bind; [apply (try_post_index E X _ _ _ _ H5)|].
  intros a. apply hoare_pure. intros ->. apply hoare_assoc.
  eapply try_post_bind
    with (R := fun _ s =>
                 nodes_are_dicts s /\
                 exists d cols, dict_get p3 (data_assets s) = Some d /\
                                dict_get p5 d = Some (KDict cols)).
  { apply hoare_of_progress. intros s [Hs Ha].
    apply (ensure_kind_progress p3 p5 s Hs Ha). }
  intros _.
  destruct (nth_error (split_colon p) 6) as [p6|] eqn:H6.
  2:{ eapply try_post_index_missing; [exact H6 | intros s [Hs _]; exact Hs]. }
  eapply try_post_bind; [apply (try_post_index E X _ _ _ _ H6)|].
  intros a. apply hoare_pure. intros ->.
  unfold aborting_parameter in Hgood. rewrite H6 in Hgood. rewrite Hgood.
  destruct (String.eqb_spec p6 "columns") as [->|Hcol].
  2:{ apply hoare_warning. intros s [Hs _]. exact Hs. }
  destruct (nth_error (split_colon p) 7) as [p7|] eqn:H7.
  2:{ eapply try_post_index_missing; [exact H7 | intros s [Hs _]; exact Hs]. }
  eapply try_post_bind; [apply (try_post_index E X _ _ _ _ H7)|].
  intros a. apply hoare_pure. intros ->. apply hoare_assoc.
  eapply try_post_bind
    with (R := fun _ s => nodes_are_dicts s /\ has_column s p3 p5 p7).
  { apply hoare_of_progress. intros s [Hs Hk].
    apply (ensure_column_progress p3 p5 p7 s Hs Hk). }
  intros _.
  destruct (nth_error (split_colon p) 8) as [p8|] eqn:H8.
  2:{ eapply try_post_index_missing; [exact H8 | intros s [Hs _]; exact Hs]. }
  eapply try_post_bind; [apply (try_post_index E X _ _ _ _ H8)|].
  intros a. apply hoare_pure. intros ->. apply hoare_assoc.
  eapply try_post_bind
    with (R := fun _ s => nodes_are_dicts s /\ has_type s p3 p5 p7 p8).
  { apply hoare_of_progress. intros s [Hs Hc].
    apply (ensure_type_progress p3 p5 p7 p8 s Hs Hc). }
  intros _. apply hoare_of_progress. intros s [Hs Ht].
  apply (add_leaf_progress p3 p5 p7 p8 p s Hs Ht).
Qed.

Lemma hoare_of_no_index_error {St} (P : St -> Prop) (m : M St unit) :
  (forall s, match outcome_of (m s) with
             | Ret _ => True
             | Raise e => e <> IndexError
             end) ->
  hoare P m (try_post (fun _ => False) (fun _ => True) (fun _ _ => True)).
Proof.
  intros H s _. specialize (H s).
  destruct (outcome_of (m s)) as [[]|[]]; simpl; auto.
Qed.

(** An aborting parameter is never compiled to the end. *)
Lemma compile_parameter_aborts known_assets p s :
  aborting_parameter p = true ->
  outcome_of (compile_parameter known_assets p s) <> Ret tt.
Proof.
  intros Hbad.
  enough (H : hoare (fun _ => True) (compile_parameter known_assets p)
                    (fun _ o => o <> Ret tt)) by (apply H; exact I).
  clear s. unfold aborting_parameter in Hbad.
  destruct (nth_error (split_colon p) 6) as [p6|] eqn:H6; [|discriminate].
  assert (Hlen : (6 < length (split_colon p))%nat)
    by (apply nth_error_Some; congruence).
  destruct (nth_error (split_colon p) 3) as [p3|] eqn:H3;
    [|apply nth_error_None in H3; lia].
  destruct (nth_error (split_colon p) 5) as [p5|] eqn:H5;
    [|apply nth_error_None in H5; lia].
  unfold compile_parameter.
  set (E := fun _ : compiled_parameters => False).
  set (X := fun _ : exn => True).
  eapply hoare_bind with (R := fun _ _ => True).
  { apply hoare_modify. auto. }
  intros _. eapply hoare_try with (R := E).
  2:{ intros s []. }
  eapply hoare_conseq
    with (Q := try_post E X (fun (_ : unit) _ => False)) (P := fun _ => True);
    [| auto | intros s [[]|[]]; simpl; auto; discriminate].
  eapply try_post_bind; [apply (try_post_index E X _ _ _ _ H3)|].
  intros a. apply hoare_pure. intros ->.
  eapply try_post_bind with (R := fun _ _ => True).
  { apply hoare_when; [intros _; apply hoare_warning|]; simpl; auto. }
  intros _. apply hoare_assoc.
  eapply try_post_bind with (R := fun _ _ => True).
  { apply hoare_of_no_index_error. intros s.
    pose proof (ensure_asset_same p3 s) as [Ho _]. simpl in Ho. rewrite Ho.
    exact I. }
  intros _.
  eapply try_post_bind; [apply (try_post_index E X _ _ _ _ H5)|].
  intros a. apply hoare_pure. intros ->. apply hoare_assoc.
  eapply try_post_bind with (R := fun _ _ => True).
  { apply hoare_of_no_index_error. intros s.
    pose proof (ensure_kind_same p3 p5 s) as H. simpl in H.
    destruct (outcome_of _) as [[]|e]; [exact I | exact H]. }
  intros _.
  eapply try_post_bind; [apply (try_post_index E X _ _ _ _ H6)|].
  intros a. apply hoare_pure. intros ->. rewrite Hbad.
  intros s _. pose proof (results_branch_raises p3 p5 p6 s) as Hr.
  simpl in Hr.
  match goal with |- try_post _ _ _ _ (outcome_of ?r) =>
    change (outcome_of r) with
      (outcome_of ((n ← Index.get_kind p3 p5;
        when (negb (node_contains p6 n)) (Index.set_kind p3 p5 (KSet [])) ;;
        n ← Index.get_kind p3 p5;
        match n with
        | KSet _ => raise TypeError
        | KDict cols =>
            _ ← or_raise KeyError (dict_get p6 cols); raise AttributeError
        end : M compiled_parameters unit) s)) end.
  destruct (outcome_of _) as [[]|e]; [contradiction|].
  destruct e; unfold try_post, E, X; auto.
Qed.

Lemma compile_value_progress known_assets value :
  aborting_value value = false ->
  hoare nodes_are_dicts (compile_value known_assets value)
        (fun s o => o = Ret tt /\ nodes_are_dicts s).
Proof.
  intros Hgood.
  destruct value as [| | | |l|d]; simpl; try (apply hoare_ret; auto).
  simpl in Hgood.
  destruct (dict_get "$PARAMETER" d) as [[| | |p| |]|];
    try discriminate; try (apply hoare_ret; auto).
  destruct (String.prefix validations_prefix p); simpl in *.
  - apply compile_parameter_progress. exact Hgood.
  - apply hoare_ret. auto.
Qed.

Lemma compile_value_aborts known_assets value s :
  aborting_value value = true ->
  outcome_of (compile_value known_assets value s) <> Ret tt.
Proof.
  intros Hbad. destruct value as [| | | |l|d]; simpl in *; try discriminate.
  destruct (dict_get "$PARAMETER" d) as [[| | |p| |]|];
    try discriminate.
  destruct (String.prefix validations_prefix p); simpl in *; [|discriminate].
  apply compile_parameter_aborts. exact Hbad.
Qed.

Lemma for_each_progress {St A} (P : St -> Prop) (l : list A)
    (f : A -> M St unit) :
  (forall x, In x l -> hoare P (f x) (fun s o => o = Ret tt /\ P s)) ->
  hoare P (for_each l f) (fun s o => o = Ret tt /\ P s).
Proof.
  induction l as [|x l IH]; intros Hf; [apply hoare_ret; auto|].
  simpl. eapply hoare_bind with (R := fun _ => P).
  - eapply hoare_conseq; [apply (Hf x); left; reflexivity | auto |].
    intros s [[]|e] [Ho HP]; [exact HP | discriminate].
  - intros _. apply IH. intros y Hy. apply Hf. right. exact Hy.
Qed.

Lemma for_each_ret_each {St A} (l : list A) (f : A -> M St unit) s x :
  outcome_of (for_each l f s) = Ret tt -> In x l ->
  exists s', outcome_of (f x s') = Ret tt.
Proof.
  revert s. induction l as [|y l IH]; intros s Hret Hin; [contradiction|].
  rewrite for_each_cons_run in Hret.
  destruct (f y s) as [[s1 w1] [[]|e]] eqn:Hy; [|discriminate].
  destruct Hin as [->|Hin].
  - exists s. rewrite Hy. reflexivity.
  - apply (IH s1); [|exact Hin].
    destruct (for_each l f s1) as [[s2 w2] o2]. exact Hret.
Qed.

Lemma compile_configs_outcome dir :
  outcome_of (compile_configs dir empty_parameters) = Ret tt <->
  forallb (fun v => negb (aborting_value v)) (directory_values dir) = true.
Proof.
  unfold compile_configs. rewrite forallb_forall. unfold directory_values.
  split.
  - intros Hret v Hv. apply in_concat in Hv as (vs & Hvs & Hv).
    apply in_map_iff in Hvs as (nc & <- & Hnc).
    apply in_concat in Hv as (vs & Hvs & Hv).
    apply in_map_iff in Hvs as (e & <- & He).
    apply in_map_iff in Hv as (kv & <- & Hkv).
    destruct (for_each_ret_each _ _ _ nc Hret Hnc) as [s1 H1].
    destruct (for_each_ret_each _ _ _ e H1 He) as [s2 H2].
    destruct (for_each_ret_each _ _ _ kv H2 Hkv) as [s3 H3].
    destruct (aborting_value (snd kv)) eqn:Hbad; [|reflexivity].
    exfalso. exact (compile_value_aborts _ _ _ Hbad H3).
  - intros Hall.
    enough (H : hoare nodes_are_dicts
                  (for_each dir (fun nc =>
                     for_each (expectations (snd nc)) (fun e =>
                       for_each (kwargs e) (fun kv =>
                         compile_value (map fst dir) (snd kv)))))
                  (fun s o => o = Ret tt /\ nodes_are_dicts s)).
    { apply H. intros a d k n. discriminate. }
    apply for_each_progress. intros nc Hnc.
    apply for_each_progress. intros e He.
    apply for_each_progress. intros kv Hkv.
    apply compile_value_progress.
    apply negb_true_iff. apply Hall.
    apply in_concat. eexists. split; [apply in_map; exact Hnc|].
    apply in_concat. eexists. split; [apply in_map; exact He|].
    apply in_map. exact Hkv.
Qed.

(** X6: [_compile] completes exactly when no keyword-argument value of the
    stored configurations is an aborting one, that is a ["$PARAMETER"] that
    is no string, or a prefixed identifier whose segment [6] is ["results"]
    or ["details"].  Malformed identifiers of every other kind are absorbed
    with a warning. *)
Theorem compile_completes_iff self :
  outcome_of (_compile self) = Ret tt <->
  forallb (fun v => negb (aborting_value v))
          (directory_values (configs self)) = true.
Proof.
  rewrite <- compile_configs_outcome, _compile_run.
  destruct (compile_configs (configs self) empty_parameters)
    as [[cp w] [[]|e]]; simpl; split; auto; discriminate.
Qed.

(** ** The keys of the index *)

Lemma same_keys_refl s : same_keys s s.
Proof. split; intros; reflexivity. Qed.

Lemma keys_set_inner r a k n d assets :
  dict_get a assets = Some d ->
  let s := {| raw := r; data_assets := assets |} in
  let s' := {| raw := r;
               data_assets := dict_set a (dict_set k n d) assets |} in
  (forall x, has_asset s' x <-> has_asset s x) /\
  (forall x y, has_kind s' x y <-> has_kind s x y \/ (x = a /\ y = k)).
Proof.
  intros Ha. cbv zeta. unfold has_asset, has_kind. simpl. split.
  - intros x. rewrite dict_get_set.
    destruct (String.eqb_spec x a) as [->|]; [|reflexivity].
    split; intros _; eauto.
  - intros x y. rewrite dict_get_set.
    destruct (String.eqb_spec x a) as [->|Hne].
    + split.
      * intros (d' & n' & [= <-] & Hy). rewrite dict_get_set in Hy.
        destruct (String.eqb_spec y k) as [->|]; [auto|]. left. eauto.
      * intros [(d' & n' & Hd' & Hy)|[_ ->]].
        -- rewrite Ha in Hd'. injection Hd' as <-.
           destruct (String.eqb_spec y k) as [->|Hyk].
           ++ eexists _, n. split; [reflexivity | apply dict_get_set_eq].
           ++ eexists _, n'. split; [reflexivity|].
              rewrite dict_get_set.
              destruct (String.eqb_spec y k); [contradiction | exact Hy].
        -- eexists _, n. split; [reflexivity | apply dict_get_set_eq].
    + split; [intros H; left; exact H|].
      intros [H|[-> _]]; [exact H | contradiction].
Qed.

Lemma keys_set_inner_same r a k n n0 d assets :
  dict_get a assets = Some d -> dict_get k d = Some n0 ->
  same_keys {| raw := r; data_assets := assets |}
            {| raw := r; data_assets := dict_set a (dict_set k n d) assets |}.
Proof.
  intros Ha Hk. destruct (keys_set_inner r a k n d assets Ha) as [H1 H2].
  split; [exact H1|]. intros x y. rewrite H2. split; [|auto].
  intros [H|[-> ->]]; [exact H|]. exists d, n0. auto.
Qed.

Lemma ensure_asset_keys a s :
  let r := (cp ← get;
            when (negb (dict_mem a (data_assets cp))) (Index.set_asset a [])) s
  in (forall x, has_asset (state_of r) x <-> has_asset s x \/ x = a) /\
     (forall x y, has_kind (state_of r) x y <-> has_kind s x y).
Proof.
  run_index. destruct (dict_mem a (data_assets s)) eqn:Hm; simpl.
  - split; [|intros; reflexivity]. intros x. split; [auto|].
    intros [H| ->]; [exact H | apply dict_mem_true; exact Hm].
  - apply dict_mem_false in Hm. unfold has_asset, has_kind. simpl. split.
    + intros x. rewrite dict_get_set.
      destruct (String.eqb_spec x a) as [->|Hne].
      * split; eauto.
      * split; [auto|]. intros [H|H]; [exact H | contradiction].
    + intros x y. rewrite dict_get_set.
      destruct (String.eqb_spec x a) as [->|Hne]; [|reflexivity].
      rewrite Hm. split.
      * intros (d & n & [= <-] & H). discriminate.
      * intros (d & n & H & _). discriminate.
Qed.

Lemma ensure_kind_keys a k s :
  let r := (d ← Index.get_asset a;
            when (negb (dict_mem k d)) (Index.set_kind a k (KDict []))) s
  in outcome_of r = Ret tt ->
     (forall x, has_asset (state_of r) x <-> has_asset s x) /\
     (forall x y, has_kind (state_of r) x y <->
                  has_kind s x y \/ (x = a /\ y = k)).
Proof.
  run_index. destruct (dict_get a (data_assets s)) as [d|] eqn:Ha; simpl;
    [|discriminate].
  destruct (dict_mem k d) eqn:Hm; simpl.
  - intros _. split; [intros; reflexivity|]. intros x y. split; [auto|].
    intros [H|[-> ->]]; [exact H|].
    destruct (dict_mem_true _ _ Hm) as [n Hn]. exists d, n. auto.
  - rewrite Ha. simpl. intros _. destruct s as [r assets].
    apply (keys_set_inner r a k (KDict []) d assets Ha).
Qed.

Lemma ensure_column_keys a k c s :
  let r := (n ← Index.get_kind a k;
            when (negb (node_contains c n)) (Index.set_column a k c [])) s
  in outcome_of r = Ret tt -> same_keys s (state_of r).
Proof.
  run_index. destruct (dict_get a (data_assets s)) as [d|] eqn:Ha; simpl;
    [|discriminate].
  destruct (dict_get k d) as [n|] eqn:Hk; simpl; [|discriminate].
  destruct (node_contains c n) eqn:Hm; simpl;
    [intros _; apply same_keys_refl|].
  rewrite Ha; simpl. rewrite Hk; simpl.
  destruct n as [cols|st]; simpl; [|discriminate].
  rewrite Ha; simpl. intros _. destruct s as [r assets].
  apply (keys_set_inner_same r a k _ _ d assets Ha Hk).
Qed.

Lemma set_type_keys a k c t st s :
  outcome_of (Index.set_type a k c t st s) = Ret tt ->
  same_keys s (state_of (Index.set_type a k c t st s)).
Proof.
  run_index. destruct (dict_get a (data_assets s)) as [d|] eqn:Ha; simpl;
    [|discriminate].
  destruct (dict_get k d) as [[cols|st']|] eqn:Hk; simpl; try discriminate.
  destruct (dict_get c cols) as [col|] eqn:Hc; simpl; [|discriminate].
  rewrite Ha; simpl. rewrite Hk; simpl. rewrite Ha; simpl.
  intros _. destruct s as [r assets].
  apply (keys_set_inner_same r a k _ _ d assets Ha Hk).
Qed.

Lemma ensure_type_keys a k c t s :
  let r := (col ← Index.get_column a k c;
            when (negb (dict_mem t col)) (Index.set_type a k c t [])) s
  in outcome_of r = Ret tt -> same_keys s (state_of r).
Proof.
  cbv zeta. rewrite bind_run.
  pose proof (get_column_run a k c s) as [Hs _].
  destruct (Index.get_column a k c s) as [[s1 w1] [col|e]]; [|discriminate].
  unfold state_of in Hs; simpl in Hs. subst s1.
  destruct (dict_mem t col); cbn [negb when];
    [intros _; apply same_keys_refl|].
  pose proof (set_type_keys a k c t [] s) as H.
  destruct (Index.set_type a k c t [] s) as [[s2 w2] o2]. exact H.
Qed.

Lemma add_leaf_keys a k c t p s :
  let r := (st ← Index.get_type a k c t;
            Index.set_type a k c t (set_add p st)) s
  in outcome_of r = Ret tt -> same_keys s (state_of r).
Proof.
  cbv zeta. rewrite bind_run.
  pose proof (get_type_run a k c t s) as [Hs _].
  destruct (Index.get_type a k c t s) as [[s1 w1] [st|e]]; [|discriminate].
  unfold state_of in Hs; simpl in Hs. subst s1.
  pose proof (set_type_keys a k c t (set_add p st) s) as H.
  destruct (Index.set_type a k c t (set_add p st) s) as [[s2 w2] o2].
  exact H.
Qed.

Lemma keyed_by_same seen s0 s :
  keyed_by seen s0 -> same_keys s0 s -> keyed_by seen s.
Proof.
  intros [H1 H2] [E1 E2]. split.
  - intros a. rewrite E1. apply H1.
  - intros a k. rewrite E2. apply H2.
Qed.

Section KeysStep.
Variables (known_assets seen : list string) (p : string).

Local Abbreviation Done := (keyed_by (seen ++ [p])).
Local Abbreviation post := (try_post Done (fun _ => True)).
Local Abbreviation asset_ensured := (asset_ensured seen).

Lemma keyed_by_without_segment_3 s :
  nth_error (split_colon p) 3 = None -> keyed_by seen s -> Done s.
Proof.
  intros H3 [H1 H2]. split.
  - intros a. rewrite H1. split.
    + intros (q & Hq & Hq3). exists q. split; [|exact Hq3].
      apply in_app_iff. left. exact Hq.
    + intros (q & Hq & Hq3). apply in_app_iff in Hq as [Hq|[<-|[]]];
        [eauto | congruence].
  - intros a k. rewrite H2. split.
    + intros (q & Hq & Hq35). exists q. split; [|exact Hq35].
      apply in_app_iff. left. exact Hq.
    + intros (q & Hq & Hq3 & Hq5). apply in_app_iff in Hq as [Hq|[<-|[]]];
        [eauto | congruence].
Qed.

Lemma asset_ensured_without_segment_5 p3 s :
  nth_error (split_colon p) 3 = Some p3 ->
  nth_error (split_colon p) 5 = None -> asset_ensured p3 s -> Done s.
Proof.
  intros H3 H5 [H1 H2]. split.
  - intros a. rewrite H1. split.
    + intros [(q & Hq & Hq3)| ->].
      * exists q. split; [|exact Hq3]. apply in_app_iff. left. exact Hq.
      * exists p. split; [|exact H3]. apply in_app_iff. right. left.
        reflexivity.
    + intros (q & Hq & Hq3). apply in_app_iff in Hq as [Hq|[<-|[]]];
        [left; eauto | right; congruence].
  - intros a k. rewrite H2. split.
    + intros (q & Hq & Hq35). exists q. split; [|exact Hq35].
      apply in_app_iff. left. exact Hq.
    + intros (q & Hq & Hq3 & Hq5). apply in_app_iff in Hq as [Hq|[<-|[]]];
        [eauto | congruence].
Qed.

Lemma asset_ensured_then_kind p3 p5 s0 s :
  nth_error (split_colon p) 3 = Some p3 ->
  nth_error (split_colon p) 5 = Some p5 ->
  asset_ensured p3 s0 ->
  (forall x, has_asset s x <-> has_asset s0 x) ->
  (forall x y, has_kind s x y <-> has_kind s0 x y \/ (x = p3 /\ y = p5)) ->
  Done s.
Proof.
  intros H3 H5 [H1 H2] E1 E2. split.
  - intros a. rewrite E1, H1. split.
    + intros [(q & Hq & Hq3)| ->].
      * exists q. split; [|exact Hq3]. apply in_app_iff. left. exact Hq.
      * exists p. split; [|exact H3]. apply in_app_iff. right. left.
        reflexivity.
    + intros (q & Hq & Hq3). apply in_app_iff in Hq as [Hq|[<-|[]]];
        [left; eauto | right; congruence].
  - intros a k. rewrite E2, H2. split.
    + intros [(q & Hq & Hq35)|[-> ->]].
      * exists q. split; [|exact Hq35]. apply in_app_iff. left. exact Hq.
      * exists p. split; [|auto]. apply in_app_iff. right. left. reflexivity.
    + intros (q & Hq & Hq3 & Hq5). apply in_app_iff in Hq as [Hq|[<-|[]]];
        [left; eauto | right; split; congruence].
Qed.

Lemma post_same_keys (m : M compiled_parameters unit) :
  (forall s, outcome_of (m s) = Ret tt -> same_keys s (state_of (m s))) ->
  (forall s, outcome_of (m s) <> Raise IndexError) ->
  hoare Done m (post (fun _ => Done)).
Proof.
  intros Hsame Hno s Hs. specialize (Hsame s). specialize (Hno s).
  destruct (outcome_of (m s)) as [[]|[]]; simpl; auto.
  - eapply keyed_by_same; eauto.
  - contradiction.
Qed.

(** The loop body of [_compile] keeps the keys of the index in step with
    the parameters it has seen, however the parameter is formed. *)
Lemma compile_parameter_keys :
  hoare (keyed_by seen) (compile_parameter known_assets p)
        (fun s o => o = Ret tt -> Done s).
Proof.
  unfold compile_parameter.
  eapply hoare_bind with (R := fun _ => keyed_by seen).
  { apply hoare_modify. intros s Hs. exact Hs. }
  intros _. eapply hoare_try with (R := Done).
  2:{ apply hoare_warning. auto. }
  eapply hoare_conseq with (Q := post (fun _ => Done)) (P := keyed_by seen);
    [| auto | intros s [[]|[]]; simpl; auto; discriminate].
  destruct (nth_error (split_colon p) 3) as [p3|] eqn:H3.
  2:{ eapply try_post_index_missing; [exact H3|].
      intros s. apply keyed_by_without_segment_3. exact H3. }
  eapply try_post_bind; [apply (try_post_index _ _ _ _ _ _ H3)|].
  intros a. apply hoare_pure. intros ->.
  eapply try_post_bind with (R := fun _ => keyed_by seen).
  { apply hoare_when; [intros _; apply hoare_warning|]; auto. }
  intros _. apply hoare_assoc.
  eapply try_post_bind with (R := fun _ => asset_ensured p3).
  { intros s [H1 H2]. pose proof (ensure_asset_same p3 s) as [Ho _].
    pose proof (ensure_asset_keys p3 s) as [E1 E2].
    cbv zeta in Ho, E1, E2. rewrite Ho. simpl. split.
    - intros a. rewrite E1, H1. reflexivity.
    - intros a k. rewrite E2, H2. reflexivity. }
  intros _.
  destruct (nth_error (split_colon p) 5) as [p5|] eqn:H5.
  2:{ eapply try_post_index_missing; [exact H5|].
      intros s. apply asset_ensured_without_segment_5; assumption. }
  eapply try_post_bind; [apply (try_post_index _ _ _ _ _ _ H5)|].
  intros a. apply hoare_pure. intros ->. apply hoare_assoc.
  eapply try_post_bind with (R := fun _ => Done).
  { intros s Hs. pose proof (ensure_kind_keys p3 p5 s) as Hk.
    pose proof (ensure_kind_same p3 p5 s) as Hno.
    cbv zeta in Hk, Hno.
    destruct (outcome_of _) as [[]|e]; simpl.
    - destruct (Hk eq_refl) as [E1 E2].
      eapply asset_ensured_then_kind; eauto.
    - destruct e; auto. contradiction. }
  intros _.
  destruct (nth_error (split_colon p) 6) as [p6|] eqn:H6.
  2:{ eapply try_post_index_missing; [exact H6 | auto]. }
  eapply try_post_bind; [apply (try_post_index _ _ _ _ _ _ H6)|].
  intros a. apply hoare_pure. intros ->.
  destruct (set_mem p6 ["results"; "details"]) eqn:Hres.
  { intros s _. pose proof (results_branch_raises p3 p5 p6 s) as Hr.
    simpl in Hr.
    match goal with |- try_post _ _ _ _ (outcome_of ?r) =>
      change (outcome_of r) with
        (outcome_of ((n ← Index.get_kind p3 p5;
          when (negb (node_contains p6 n)) (Index.set_kind p3 p5 (KSet [])) ;;
          n ← Index.get_kind p3 p5;
          match n with
          | KSet _ => raise TypeError
          | KDict cols =>
              _ ← or_raise KeyError (dict_get p6 cols); raise AttributeError
          end : M compiled_parameters unit) s)) end.
    destruct (outcome_of _) as [[]|e]; [contradiction|].
    destruct e; simpl; auto. contradiction. }
  destruct (String.eqb_spec p6 "columns") as [->|Hcol].
  2:{ apply hoare_warning. auto. }
  destruct (nth_error (split_colon p) 7) as [p7|] eqn:H7.
  2:{ eapply try_post_index_missing; [exact H7 | auto]. }
  eapply try_post_bind; [apply (try_post_index _ _ _ _ _ _ H7)|].
  intros a. apply hoare_pure. intros ->. apply hoare_assoc.
  eapply try_post_bind with (R := fun _ => Done).
  { apply post_same_keys; intros s.
    - apply (ensure_column_keys p3 p5 p7 s).
    - pose proof (ensure_column_same p3 p5 p7 s) as H. cbv zeta in H.
      destruct (outcome_of _) as [[]|e]; [discriminate | congruence]. }
  intros _.
  destruct (nth_error (split_colon p) 8) as [p8|] eqn:H8.
  2:{ eapply try_post_index_missing; [exact H8 | auto]. }
  eapply try_post_bind; [apply (try_post_index _ _ _ _ _ _ H8)|].
  intros a. apply hoare_pure. intros ->. apply hoare_assoc.
  eapply try_post_bind with (R := fun _ => Done).
  { apply post_same_keys; intros s.
    - apply (ensure_type_keys p3 p5 p7 p8 s).
    - pose proof (ensure_type_same p3 p5 p7 p8 s) as H. cbv zeta in H.
      destruct (outcome_of _) as [[]|e]; [discriminate | congruence]. }
  intros _. apply post_same_keys; intros s.
  - apply (add_leaf_keys p3 p5 p7 p8 p s).
  - pose proof (get_type_run p3 p5 p7 p8 s) as [Hs Hg].
    pose proof (fun st => set_type_leaf p3 p5 p7 p8 st s) as Hset.
    rewrite bind_run.
    destruct (Index.get_type p3 p5 p7 p8 s) as [[s1 w1] [st|e]].
    + unfold state_of in Hs; simpl in Hs. subst s1.
      specialize (Hset (set_add p st)). cbv zeta in Hset.
      destruct (Index.set_type p3 p5 p7 p8 (set_add p st) s)
        as [[s2 w2] [[]|e]]; [discriminate|].
      unfold outcome_of in *; simpl in *. congruence.
    + unfold outcome_of in *; simpl in *. congruence.
Qed.
End KeysStep.

Lemma compile_value_keys known_assets seen value :
  hoare (keyed_by seen) (compile_value known_assets value)
        (fun s o => o = Ret tt -> keyed_by (seen ++ requested_value value) s).
Proof.
  assert (Hskip : forall s : compiled_parameters,
             keyed_by seen s -> Ret tt = Ret tt -> keyed_by (seen ++ []) s)
    by (intros s Hs _; rewrite app_nil_r; exact Hs).
  destruct value as [| | | |l|d]; simpl; try (apply hoare_ret; exact Hskip).
  destruct (dict_get "$PARAMETER" d) as [[| | |parameter| |]|];
    try (apply hoare_ret; exact Hskip);
    try (apply hoare_raise; discriminate).
  destruct (String.prefix validations_prefix parameter); simpl.
  - apply compile_parameter_keys.
  - apply hoare_ret. exact Hskip.
Qed.

Lemma compile_configs_keys dir cp w :
  compile_configs dir empty_parameters = (cp, w, Ret tt) ->
  keyed_by (requested dir) cp.
Proof.
  intros Hrun.
  assert (H0 : keyed_by [] empty_parameters).
  { split.
    - intros a. split; [intros [d H]; discriminate | intros (q & [] & _)].
    - intros a k. split; [intros (d & n & H & _); discriminate|].
      intros (q & [] & _). }
  assert (H : hoare (keyed_by [])
                (for_each dir (fun nc =>
                   for_each (expectations (snd nc)) (fun e =>
                     for_each (kwargs e) (fun kv =>
                       compile_value (map fst dir) (snd kv)))))
                (fun s o => o = Ret tt -> keyed_by ([] ++ requested dir) s)).
  { apply (hoare_for_each keyed_by requested_config). intros nc seen1.
    apply (hoare_for_each keyed_by requested_expectation). intros e seen2.
    apply (hoare_for_each keyed_by (fun kv => requested_value (snd kv))).
    intros kv seen3. apply compile_value_keys. }
  specialize (H empty_parameters H0).
  unfold compile_configs in Hrun. rewrite Hrun in H. apply H. reflexivity.
Qed.

(** X8: after a compilation that completes, the assets of the index are
    exactly the segments [3] of the requested identifiers and the expectation
    names under an asset exactly the segments [5] of the identifiers
    requested for it, whether or not the rest of an identifier is well
    formed. *)
Theorem index_keys_are_the_requested_segments self :
  outcome_of (_compile self) = Ret tt ->
  exists cp,
    _compiled_parameters (state_of (_compile self)) = Some cp /\
    (forall a,
        has_asset cp a <->
        exists p, In p (requested (configs self)) /\
                  nth_error (split_colon p) 3 = Some a) /\
    (forall a k,
        has_kind cp a k <->
        exists p, In p (requested (configs self)) /\
                  nth_error (split_colon p) 3 = Some a /\
                  nth_error (split_colon p) 5 = Some k).
Proof.
  rewrite _compile_run.
  destruct (compile_configs (configs self) empty_parameters)
    as [[cp w] [[]|e]] eqn:Hrun; simpl; [intros _ | discriminate].
  exists cp. split; [reflexivity|]. apply (compile_configs_keys _ _ _ Hrun).
Qed.

(** ** Registrations that can never store *)

Lemma for_each_state_fixed {St A} (l : list A) (f : A -> M St unit) s :
  (forall x, state_of (f x s) = s) -> state_of (for_each l f s) = s.
Proof.
  intros Hf. induction l as [|x l IH]; [reflexivity|].
  rewrite for_each_cons_run. specialize (Hf x).
  destruct (f x s) as [[s1 w1] [[]|e]]; unfold state_of in Hf; simpl in Hf;
    subst s1; [|reflexivity].
  destruct (for_each l f s) as [[s2 w2] o2]. exact IH.
Qed.

Lemma register_result_without_columns name r s cp :
  _compiled_parameters s = Some cp ->
  (forall a, ~ has_kind cp a "columns") ->
  state_of (register_result name r s) = s.
Proof.
  intros Hcp Hno. rewrite register_result_run, Hcp.
  destruct (dict_get name (data_assets cp)) as [entry|] eqn:Hentry;
    [|reflexivity].
  destruct (dict_mem _ entry); [|reflexivity].
  assert (Hcols : dict_get "columns" entry = None).
  { destruct (dict_get "columns" entry) as [n|] eqn:H; [|reflexivity].
    exfalso. apply (Hno name). exists entry, n. auto. }
  rewrite bind_run.
  pose proof (register_column_params_needs_columns name r s cp entry
                Hcp Hentry Hcols) as H1.
  destruct (register_column_params name r s) as [[s1 w1] [[]|e]];
    unfold state_of in H1; simpl in H1; subst s1; [|reflexivity].
  pose proof (register_asset_params_state name r s) as H2.
  destruct (register_asset_params name r s) as [[s2 w2] o2]. exact H2.
Qed.

Lemma ensure_compiled_run self :
  ensure_compiled self =
  if _compiled self then (self, [], Ret tt) else _compile self.
Proof.
  unfold ensure_compiled. rewrite bind_run. unfold gets.
  destruct (_compiled self); cbn [negb when]; [reflexivity|].
  destruct (_compile self) as [[s w] o]. reflexivity.
Qed.

(** The state of a context on which nothing can be stored: nothing is
    stored yet, and once compiled the index has no expectation named
    ["columns"]. *)
Lemma register_keeps_unstorable dir run_id vr s :
  (forall p, In p (requested dir) ->
             nth_error (split_colon p) 5 <> Some "columns") ->
  configs s = dir /\ validation_params s = ∅ /\
  (_compiled s = true ->
   exists cp, _compiled_parameters s = Some cp /\
              forall a, ~ has_kind cp a "columns") ->
  let s' := state_of (register_validation_results run_id vr s) in
  configs s' = dir /\ validation_params s' = ∅ /\
  (_compiled s' = true ->
   exists cp, _compiled_parameters s' = Some cp /\
              forall a, ~ has_kind cp a "columns").
Proof.
  intros Hreq (Hdir & Hvp & Hidx). cbv zeta.
  rewrite register_validation_results_run, ensure_compiled_run.
  assert (Hafter :
    match (if _compiled s then (s, [], Ret tt) else _compile s) with
    | (s1, _, o) =>
        (configs s1 = dir /\ validation_params s1 = ∅ /\
         (_compiled s1 = true ->
          exists cp, _compiled_parameters s1 = Some cp /\
                     forall a, ~ has_kind cp a "columns")) /\
        (o = Ret tt -> _compiled s1 = true)
    end).
  { destruct (_compiled s) eqn:Hc; [auto|].
    rewrite _compile_run.
    destruct (compile_configs (configs s) empty_parameters)
      as [[cp w] [[]|e]] eqn:Hrun; simpl.
    - split; [|auto]. repeat split; try assumption. intros _.
      exists cp. split; [reflexivity|]. intros a (d & n & Ha & Hk).
      destruct (compile_configs_keys _ _ _ Hrun) as [_ H2].
      destruct (H2 a "columns") as [(p & Hp & _ & H5) _];
        [exists d, n; auto|].
      rewrite Hdir in Hp. exact (Hreq p Hp H5).
    - split; [|discriminate]. repeat split; try assumption.
      rewrite Hc. discriminate. }
  destruct (if _compiled s then (s, [], Ret tt) else _compile s)
    as [[s1 w1] [[]|e]]; [|exact (proj1 Hafter)].
  destruct Hafter as [Hinv Hc1]. specialize (Hc1 eq_refl).
  destruct (dict_get "data_asset_name" (meta vr)) as [name|]; [|exact Hinv].
  destruct Hinv as (H1 & H2 & H3). destruct (H3 Hc1) as (cp & Hcp & Hno).
  rewrite Hcp.
  destruct (json_in_keys name (dict_keys (data_assets cp))) as [[|]|e];
    try (repeat split; assumption).
  destruct name; try (repeat split; assumption).
  pose proof (for_each_state_fixed (results vr) (register_result s0) s1
                (fun x => register_result_without_columns s0 x s1 cp Hcp Hno))
    as Hfix.
  destruct (for_each (results vr) (register_result s0) s1) as [[s2 w2] o2].
  unfold state_of in *; simpl in *. subst s2. repeat split; assumption.
Qed.

(** X9: on a context created over stored configurations none of whose
    requested identifiers names an expectation called ["columns"] (segment
    [5]), no sequence of calls of [register_validation_results] ever stores
    a value: [validation_params] stays empty, whatever the validation
    results are. *)
Theorem nothing_is_ever_stored_without_a_columns_expectation dir calls :
  (forall p, In p (requested dir) ->
             nth_error (split_colon p) 5 <> Some "columns") ->
  validation_params (register_all calls (connect dir)) = ∅.
Proof.
  intros Hreq.
  assert (H : forall s,
             configs s = dir /\ validation_params s = ∅ /\
             (_compiled s = true ->
              exists cp, _compiled_parameters s = Some cp /\
                         forall a, ~ has_kind cp a "columns") ->
             validation_params (register_all calls s) = ∅).
  { induction calls as [|[run_id vr] calls IH]; intros s Hs.
    - apply Hs.
    - simpl. apply IH.
      apply (register_keeps_unstorable dir run_id vr s Hreq Hs). }
  apply H. simpl. repeat split. discriminate.
Qed.

(** ** What stops every registration *)

(** X7: while [_compiled] is [False], one aborting value anywhere in the
    stored configurations makes [register_validation_results] raise the
    exception of [_compile], whatever the validation results are; nothing is
    stored and [_compiled] stays [False], so the next call fails the same
    way. *)
Theorem aborting_value_disables_registration run_id vr self :
  _compiled self = false ->
  existsb aborting_value (directory_values (configs self)) = true ->
  let run := register_validation_results run_id vr self in
  outcome_of run = outcome_of (_compile self) /\
  outcome_of run <> Ret tt /\
  validation_params (state_of run) = validation_params self /\
  _compiled (state_of run) = false /\
  configs (state_of run) = configs self.
Proof.
  intros Hc Hbad. cbv zeta.
  assert (Hno : outcome_of (compile_configs (configs self) empty_parameters)
                <> Ret tt).
  { intros H. apply compile_configs_outcome in H.
    apply existsb_exists in Hbad as (v & Hv & Hbad).
    rewrite forallb_forall in H. specialize (H v Hv).
    rewrite Hbad in H. discriminate. }
  rewrite register_validation_results_run, ensure_compiled_run, Hc.
  rewrite _compile_run.
  destruct (compile_configs (configs self) empty_parameters)
    as [[cp w] [[]|e]]; [contradiction Hno; reflexivity|].
  simpl. repeat split; assumption.
Qed.

(** ** What the list of known assets is for *)

Lemma bind_ret_left {St A B} (a : A) (f : A -> M St B) s :
  bind (ret a) f s = f a s.
Proof. unfold bind, ret. destruct (f a s) as [[s2 w2] o]. reflexivity. Qed.

Lemma bind_modify_run {St B} (g : St -> St) (f : unit -> M St B) s :
  bind (modify g) f s = f tt (g s).
Proof.
  unfold bind, modify. destruct (f tt (g s)) as [[s2 w2] o]. reflexivity.
Qed.

Lemma try_bind_ret_left {St A} (a : A) (f : A -> M St unit) h s :
  try_IndexError (bind (ret a) f) h s = try_IndexError (f a) h s.
Proof. unfold try_IndexError. rewrite bind_ret_left. reflexivity. Qed.

Lemma try_when_warning {St} (c1 c2 : bool) msg (rest h : M St unit) s :
  let r1 := try_IndexError (when c1 (warning msg) ;; rest) h s in
  let r2 := try_IndexError (when c2 (warning msg) ;; rest) h s in
  state_of r1 = state_of r2 /\ outcome_of r1 = outcome_of r2 /\
  exists w,
    log_of r1 = (if c1 then [msg] else []) ++ w /\
    log_of r2 = (if c2 then [msg] else []) ++ w.
Proof.
  cbv zeta. unfold try_IndexError, bind, when, warning, ret.
  destruct c1, c2; destruct (rest s) as [[s2 w2] [[]|[]]];
    try destruct (h s2) as [[s3 w3] o3];
    unfold state_of, outcome_of, log_of; simpl;
    repeat split; eexists; split; try reflexivity;
    rewrite <- ?app_assoc; reflexivity.
Qed.

(** X10: the list of known assets decides one warning and nothing else.
    Compiling a parameter against two lists gives the same index and the
    same outcome; the logs differ only in the warning of line 181 at their
    head. *)
Theorem known_assets_only_decide_a_warning known_1 known_2 p cp :
  state_of (compile_parameter known_1 p cp) =
    state_of (compile_parameter known_2 p cp) /\
  outcome_of (compile_parameter known_1 p cp) =
    outcome_of (compile_parameter known_2 p cp) /\
  exists w,
    log_of (compile_parameter known_1 p cp) =
      unknown_asset_warning known_1 p ++ w /\
    log_of (compile_parameter known_2 p cp) =
      unknown_asset_warning known_2 p ++ w.
Proof.
  unfold compile_parameter, unknown_asset_warning.
  unfold Index.add_raw. rewrite !bind_modify_run.
  set (s1 := {| raw := set_add p (raw cp); data_assets := data_assets cp |}).
  unfold index, or_raise.
  destruct (nth_error (split_colon p) 3) as [p3|].
  2:{ unfold try_IndexError, bind, raise, warning,
        state_of, outcome_of, log_of. simpl. eauto. }
  rewrite !try_bind_ret_left.
  destruct (set_mem p3 known_1), (set_mem p3 known_2); cbn [negb];
    match goal with
    | |- context [try_IndexError (when ?c1 (warning ?msg) ;; ?rest) ?h s1] =>
        first [ exact (try_when_warning false false msg rest h s1)
              | exact (try_when_warning false true msg rest h s1)
              | exact (try_when_warning true false msg rest h s1)
              | exact (try_when_warning true true msg rest h s1) ]
    end.
Qed.

(** ** The index is compiled lazily *)

Lemma ignores_configs_pure {A} (m : M DataContext A) w o :
  (forall self, m self = (self, w, o)) -> ignores_configs m.
Proof. intros H dir self. rewrite !H. reflexivity. Qed.

Lemma ignores_configs_ret {A} (a : A) : ignores_configs (ret a).
Proof. apply (ignores_configs_pure _ [] (Ret a)). reflexivity. Qed.

Lemma ignores_configs_raise {A} e : ignores_configs (raise e : M DataContext A).
Proof. apply (ignores_configs_pure _ [] (Raise e)). reflexivity. Qed.

Lemma ignores_configs_warning msg : ignores_configs (warning msg).
Proof. apply (ignores_configs_pure _ [msg] (Ret tt)). reflexivity. Qed.

Lemma ignores_configs_lift_outcome {A} (o : outcome A) :
  ignores_configs (lift_outcome o).
Proof. apply (ignores_configs_pure _ [] o). reflexivity. Qed.

Lemma ignores_configs_or_raise {A} e (o : option A) :
  ignores_configs (or_raise e o).
Proof.
  destruct o; [apply ignores_configs_ret | apply ignores_configs_raise].
Qed.

Lemma ignores_configs_gets {B} (f : DataContext -> B) :
  (forall dir self, f (set_configs dir self) = f self) ->
  ignores_configs (gets f).
Proof. intros Hf dir self. unfold gets. rewrite Hf. reflexivity. Qed.

Lemma ignores_configs_store key value :
  ignores_configs (store_validation_param key value).
Proof. intros dir self. reflexivity. Qed.

Lemma ignores_configs_bind {A B} (m : M DataContext A)
    (f : A -> M DataContext B) :
  ignores_configs m -> (forall a, ignores_configs (f a)) ->
  ignores_configs (bind m f).
Proof.
  intros Hm Hf dir self. rewrite !bind_run, Hm.
  destruct (m self) as [[s1 w1] [a|e]]; unfold state_of, log_of, outcome_of;
    simpl; [|reflexivity].
  rewrite Hf. destruct (f a s1) as [[s2 w2] o2]. reflexivity.
Qed.

Lemma ignores_configs_when c (m : M DataContext unit) :
  ignores_configs m -> ignores_configs (when c m).
Proof. destruct c; simpl; [auto | intros _; apply ignores_configs_ret]. Qed.

Lemma ignores_configs_for_each {A} (l : list A) (f : A -> M DataContext unit) :
  (forall x, ignores_configs (f x)) -> ignores_configs (for_each l f).
Proof.
  intros Hf. induction l as [|x l IH]; simpl.
  - apply ignores_configs_ret.
  - apply ignores_configs_bind; auto.
Qed.

Create HintDb ignores_configs.

#[local] Hint Resolve ignores_configs_ret ignores_configs_raise
  ignores_configs_warning ignores_configs_lift_outcome
  ignores_configs_or_raise ignores_configs_store ignores_configs_when
  ignores_configs_for_each ignores_configs_bind : ignores_configs.
#[local] Hint Extern 1 (ignores_configs (gets _)) =>
  apply ignores_configs_gets; reflexivity : ignores_configs.
#[local] Hint Extern 2 (ignores_configs (if ?c then _ else _)) =>
  destruct c : ignores_configs.
#[local] Hint Extern 2 (ignores_configs (match ?x with _ => _ end)) =>
  destruct x : ignores_configs.
#[local] Hint Extern 2 (ignores_configs (let _ := _ in _)) =>
  progress cbv zeta : ignores_configs.

Lemma ignores_configs_compiled_data_assets :
  ignores_configs compiled_data_assets.
Proof. unfold compiled_data_assets. auto 40 with ignores_configs. Qed.

Lemma ignores_configs_register_desired_param r t x :
  ignores_configs (register_desired_param r t x).
Proof. unfold register_desired_param. auto 40 with ignores_configs. Qed.

#[local] Hint Resolve ignores_configs_compiled_data_assets
  ignores_configs_register_desired_param : ignores_configs.

Lemma ignores_configs_register_column_params name r :
  ignores_configs (register_column_params name r).
Proof. unfold register_column_params. auto 40 with ignores_configs. Qed.

Lemma ignores_configs_register_asset_params name r :
  ignores_configs (register_asset_params name r).
Proof. unfold register_asset_params. auto 40 with ignores_configs. Qed.

#[local] Hint Resolve ignores_configs_register_column_params
  ignores_configs_register_asset_params : ignores_configs.

Lemma ignores_configs_register_result name r :
  ignores_configs (register_result name r).
Proof. unfold register_result. auto 40 with ignores_configs. Qed.

#[local] Hint Resolve ignores_configs_register_result : ignores_configs.

(** X11: once [_compiled] is [True], [register_validation_results] does not
    look at the stored configurations: over any other directory it logs the
    same, ends the same and leaves the same context.  An index compiled
    earlier keeps being used until the flag is cleared. *)
Theorem compiled_context_ignores_the_configurations run_id vr self dir :
  _compiled self = true ->
  register_validation_results run_id vr (set_configs dir self) =
  (set_configs dir (state_of (register_validation_results run_id vr self)),
   log_of (register_validation_results run_id vr self),
   outcome_of (register_validation_results run_id vr self)).
Proof.
  intros Hc. unfold register_validation_results.
  rewrite !bind_run, !ensure_compiled_run. cbn [_compiled set_configs].
  rewrite Hc.
  match goal with |- context [?m (set_configs dir self)] =>
    assert (H : ignores_configs m)
  end.
  { auto 40 with ignores_configs. }
  rewrite H.
  match goal with |- context [state_of (?m self)] =>
    destruct (m self) as [[s2 w2] o2]
  end.
  reflexivity.
Qed.

Lemma uncompiled_run_ignores_the_index run_id vr self old :
  _compiled self = false ->
  register_validation_results run_id vr (set_compiled_parameters old self) =
  register_validation_results run_id vr self.
Proof.
  intros Hc. rewrite !register_validation_results_run, !ensure_compiled_run.
  cbn [_compiled set_compiled_parameters]. rewrite Hc.
  rewrite !_compile_run. reflexivity.
Qed.

(** X12: while [_compiled] is [False], [register_validation_results] does
    not look at the index an earlier compilation left: it runs the same
    whatever [_compiled_parameters] holds. *)
Theorem uncompiled_context_ignores_the_old_index run_id vr self old :
  _compiled self = false ->
  register_validation_results run_id vr (set_compiled_parameters old self) =
  register_validation_results run_id vr self.
Proof.
  intros Hc. rewrite !register_validation_results_run, !ensure_compiled_run.
  cbn [_compiled set_compiled_parameters]. rewrite Hc.
  rewrite !_compile_run. reflexivity.
Qed.

(** ** Reviewing a validation result *)

Lemma failed_results_spec items failed :
  failed_results items = Ret failed ->
  failed = List.filter failed_entry items /\
  forall r, In r items -> exists ok, subscript r "success" = Ret ok.
Proof.
  revert failed. induction items as [|r items IH]; intros failed H.
  - injection H as <-. split; [reflexivity | contradiction].
  - cbn [failed_results] in H.
    destruct (subscript r "success") as [ok|e] eqn:Hr; [|discriminate].
    destruct (failed_results items) as [rest|e]; [|discriminate].
    destruct (IH rest eq_refl) as [Hrest Hall]. injection H as <-. split.
    + assert (Hfe : failed_entry r = negb (truthy ok))
        by (unfold failed_entry; rewrite Hr; reflexivity).
      cbn [List.filter]. rewrite Hfe, <- Hrest.
      destruct (truthy ok); reflexivity.
    + intros x [<-|Hx]; [eauto | auto].
Qed.

Lemma failed_results_again items failed :
  failed_results items = Ret failed -> failed_results failed = Ret failed.
Proof.
  revert failed. induction items as [|r items IH]; simpl; intros failed H.
  - injection H as <-. reflexivity.
  - destruct (subscript r "success") as [ok|e] eqn:Hr; [|discriminate].
    destruct (failed_results items) as [rest|e]; [|discriminate].
    specialize (IH rest eq_refl). injection H as <-.
    destruct (truthy ok) eqn:Hok; [exact IH|].
    simpl. rewrite Hr, IH, Hok. reflexivity.
Qed.

Lemma dict_set_again {V} k (v : V) d : dict_set k v (dict_set k v d) = dict_set k v d.
Proof.
  induction d as [|[k' v'] d IH]; simpl.
  - rewrite String.eqb_refl. reflexivity.
  - destruct (String.eqb k k') eqn:Hk; simpl; rewrite Hk; [reflexivity|].
    rewrite IH. reflexivity.
Qed.

(** X13: with [failed_only], the reviewed document is the fetched one with
    ["results"] replaced by the list of its entries whose ["success"] is
    falsy, in their order; every entry had a ["success"], and every other key
    of the document is as fetched. *)
Theorem review_failed_only_keeps_the_failed {fetch_error : Type}
    (strip : string -> string) (fetch : string -> fetch_error + json)
    url filtered :
  review_validation_result strip fetch url true = Reviewed filtered ->
  exists fetched results items,
    fetch (strip url) = inr fetched /\
    subscript fetched "results" = Ret results /\
    iterate results = Ret items /\
    subscript filtered "results" = Ret (JList (List.filter failed_entry items)) /\
    (forall r, In r items -> exists ok, subscript r "success" = Ret ok) /\
    (forall key, key <> "results" ->
                 subscript filtered key = subscript fetched key).
Proof.
  unfold review_validation_result. cbv zeta.
  destruct (String.prefix "s3://" (strip url)); [|discriminate].
  destruct (fetch (strip url)) as [err|fetched]; [discriminate|].
  unfold only_failed.
  destruct (subscript fetched "results") as [results|e] eqn:Hres;
    [|discriminate].
  destruct (iterate results) as [items|e] eqn:Hit; [|discriminate].
  destruct (failed_results items) as [failed|e] eqn:Hf; [|discriminate].
  destruct fetched as [| | | | |d]; try discriminate.
  intros [= <-]. destruct (failed_results_spec _ _ Hf) as [-> Hall].
  exists (JDict d), results, items. repeat split; try assumption.
  - simpl. rewrite dict_get_set_eq. reflexivity.
  - intros key Hkey. simpl. rewrite dict_get_set.
    destruct (String.eqb_spec key "results"); [contradiction | reflexivity].
Qed.

(** X14: filtering is idempotent: a document that [failed_only] produced is
    returned unchanged when it is filtered again. *)
Theorem only_failed_is_idempotent results_dict filtered :
  only_failed results_dict = Ret filtered ->
  only_failed filtered = Ret filtered.
Proof.
  unfold only_failed at 1.
  destruct (subscript results_dict "results") as [results|e]; [|discriminate].
  destruct (iterate results) as [items|e]; [|discriminate].
  destruct (failed_results items) as [failed|e] eqn:Hf; [|discriminate].
  destruct results_dict as [| | | | |d]; try discriminate.
  intros [= <-]. unfold only_failed. simpl.
  rewrite dict_get_set_eq. simpl.
  rewrite (failed_results_again _ _ Hf), dict_set_again. reflexivity.
Qed.

(** ** Witnesses *)

(** X2, witness: the asset loop on the compiled context of [orders]. *)
Lemma asset_loop_never_stores_witness :
  state_of (register_asset_params "orders" (Scenario.entry [])
              Sample.compiled_orders) = Sample.compiled_orders /\
  outcome_of (register_asset_params "orders" (Scenario.entry [])
                Sample.compiled_orders) =
    if forallb two_chars (dict_keys Sample.orders_entry)
    then Ret tt else Raise ValueError.
Proof.
  apply (asset_loop_never_stores "orders" (Scenario.entry [])
           Sample.compiled_orders Sample.orders_index Sample.orders_entry);
    reflexivity.
Defined.

(** X3, witness: an entry of [expect_column_values_to_be_between] without a
    column. *)
Lemma matching_entry_without_column_raises_witness :
  state_of (register_result "orders" (Scenario.entry [])
              Sample.compiled_orders) = Sample.compiled_orders /\
  outcome_of (register_result "orders" (Scenario.entry [])
                Sample.compiled_orders) = Raise ValueError.
Proof.
  apply (matching_entry_without_column_raises "orders" (Scenario.entry [])
           Sample.compiled_orders Sample.orders_index Sample.orders_entry);
    reflexivity.
Defined.

(** X4, witness: the value stored under [columns_urn] for column [price]. *)
Lemma column_loop_stores_only_listed_witness :
  exists cp entry cols c col,
    _compiled_parameters Sample.compiled_columns = Some cp /\
    dict_get "orders" (data_assets cp) = Some entry /\
    dict_get "columns" entry = Some (KDict cols) /\
    dict_get "column" (kwargs (expectation_config Sample.price_entry)) =
      Some (JStr c) /\
    dict_get c cols = Some col /\
    column_value Sample.price_entry col Sample.columns_urn (JNum 5).
Proof.
  apply (column_loop_stores_only_listed "orders" Sample.price_entry
           Sample.compiled_columns Sample.columns_urn (JNum 5)).
  - vm_compute. reflexivity.
  - vm_compute. discriminate.
Defined.

(** X5, witness: the same registration, read forwards. *)
Lemma column_loop_stores_result_values_witness :
  validation_params
    (state_of (register_column_params "orders" Sample.price_entry
                 Sample.compiled_columns)) !! Sample.columns_urn =
  Some (JNum 5).
Proof.
  apply (column_loop_stores_result_values "orders" Sample.price_entry
           Sample.compiled_columns Sample.columns_index Sample.columns_entry
           [("price", Sample.columns_col)] "price" Sample.columns_col
           [Sample.columns_urn] Sample.columns_urn (JNum 5));
    try reflexivity.
  - left. reflexivity.
  - left. reflexivity.
  - intros set' [H|[]]. discriminate H.
Defined.

(** X7, witness: a reference of the form [...:details:mean]. *)
Lemma aborting_value_disables_registration_witness :
  let self := connect (Scenario.directory [Scenario.details_urn]) in
  let run := register_validation_results "run_1" Scenario.no_name_results self in
  outcome_of run = outcome_of (_compile self) /\
  outcome_of run <> Ret tt /\
  validation_params (state_of run) = validation_params self /\
  _compiled (state_of run) = false /\
  configs (state_of run) = configs self.
Proof.
  cbv zeta.
  apply (aborting_value_disables_registration "run_1"
           Scenario.no_name_results
           (connect (Scenario.directory [Scenario.details_urn])));
    vm_compute; reflexivity.
Defined.

(** X8, witness: the short identifier alongside a column-scoped one. *)
Lemma index_keys_are_the_requested_segments_witness :
  let self := connect (Scenario.directory
                         [Scenario.short_urn; Scenario.column_urn]) in
  exists cp,
    _compiled_parameters (state_of (_compile self)) = Some cp /\
    (forall a,
        has_asset cp a <->
        exists p, In p (requested (configs self)) /\
                  nth_error (split_colon p) 3 = Some a) /\
    (forall a k,
        has_kind cp a k <->
        exists p, In p (requested (configs self)) /\
                  nth_error (split_colon p) 3 = Some a /\
                  nth_error (split_colon p) 5 = Some k).
Proof.
  cbv zeta.
  apply (index_keys_are_the_requested_segments
           (connect (Scenario.directory
                       [Scenario.short_urn; Scenario.column_urn]))).
  vm_compute. reflexivity.
Defined.

(** X9, witness: two registrations over references to
    [expect_column_values_to_be_between]. *)
Lemma nothing_is_ever_stored_without_a_columns_expectation_witness :
  validation_params
    (register_all
       [("run_1", Scenario.orders_results [("column", JStr "price")]);
        ("run_2", Scenario.orders_results [])]
       (connect (Scenario.directory
                   [Scenario.column_urn; Scenario.min_value_urn]))) = ∅.
Proof.
  apply nothing_is_ever_stored_without_a_columns_expectation.
  intros p Hp.
  change (requested (Scenario.directory
                       [Scenario.column_urn; Scenario.min_value_urn]))
    with [Scenario.column_urn; Scenario.min_value_urn] in Hp.
  destruct Hp as [<-|[<-|[]]]; vm_compute; discriminate.
Defined.

(** X11, witness: the compiled context of [orders] over an empty
    directory. *)
Lemma compiled_context_ignores_the_configurations_witness :
  register_validation_results "run_1" Sample.unindexed_results
    (set_configs [] Sample.compiled_orders) =
  (set_configs []
     (state_of (register_validation_results "run_1" Sample.unindexed_results
                  Sample.compiled_orders)),
   log_of (register_validation_results "run_1" Sample.unindexed_results
             Sample.compiled_orders),
   outcome_of (register_validation_results "run_1" Sample.unindexed_results
                 Sample.compiled_orders)).
Proof.
  apply compiled_context_ignores_the_configurations. reflexivity.
Defined.

(** X12, witness: a fresh context holding a stale index. *)
Lemma uncompiled_context_ignores_the_old_index_witness :
  register_validation_results "run_1" Sample.unindexed_results
    (set_compiled_parameters (Some Sample.columns_index)
       (connect (Scenario.directory [Scenario.column_urn]))) =
  register_validation_results "run_1" Sample.unindexed_results
    (connect (Scenario.directory [Scenario.column_urn])).
Proof.
  apply uncompiled_context_ignores_the_old_index. reflexivity.
Defined.

(** X13, witness: a fetched document with one failed and one passed
    entry. *)
Lemma review_failed_only_keeps_the_failed_witness :
  exists fetched results items,
    Sample.fetch_sample "s3://bucket/validation.json" = inr fetched /\
    subscript fetched "results" = Ret results /\
    iterate results = Ret items /\
    subscript
      (JDict [("results", JList [Sample.failed_item]);
              ("meta", JDict [("run_id", JStr "run_1")])]) "results" =
      Ret (JList (List.filter failed_entry items)) /\
    (forall r, In r items -> exists ok, subscript r "success" = Ret ok) /\
    (forall key, key <> "results" ->
       subscript
         (JDict [("results", JList [Sample.failed_item]);
                 ("meta", JDict [("run_id", JStr "run_1")])]) key =
       subscript fetched key).
Proof.
  apply (review_failed_only_keeps_the_failed (fun url => url)
           Sample.fetch_sample "s3://bucket/validation.json").
  vm_compute. reflexivity.
Defined.

(** X14, witness: the same document, filtered twice. *)
Lemma only_failed_is_idempotent_witness :
  only_failed
    (JDict [("results", JList [Sample.failed_item]);
            ("meta", JDict [("run_id", JStr "run_1")])]) =
  Ret (JDict [("results", JList [Sample.failed_item]);
              ("meta", JDict [("run_id", JStr "run_1")])]).
Proof.
  apply (only_failed_is_idempotent Sample.fetched_document).
  vm_compute. reflexivity.
Defined.

(** ** Saving a configuration invalidates the index *)

Lemma register_uncompiled_run run_id vr self :
  _compiled self = false ->
  register_validation_results run_id vr self =
  register_validation_results run_id vr
    {| configs := configs self;
       validation_params := validation_params self;
       _compiled := false;
       _compiled_parameters := None |}.
Proof.
  intros Hc. destruct self as [dir vp c old]. simpl in Hc. subst c. simpl.
  symmetry.
  apply (uncompiled_run_ignores_the_index run_id vr
           {| configs := dir; validation_params := vp; _compiled := false;
              _compiled_parameters := old |} None).
  reflexivity.
Qed.

(** X15: a save that returns has cleared [_compiled], so the next call of
    [register_validation_results] recompiles: it runs as on a context that
    was never compiled, over the stored configurations as the save left
    them and with the stored parameters as they were; the index compiled
    before the save is not used again. *)
Theorem save_invalidates_the_index {write_error : Type}
    (write : string -> json -> list (string * config) ->
             write_error + list (string * config))
    doc self saved_self run_id vr :
  save_data_asset_config write doc self = Saved saved_self ->
  _compiled saved_self = false /\
  validation_params saved_self = validation_params self /\
  register_validation_results run_id vr saved_self =
  register_validation_results run_id vr
    {| configs := configs saved_self;
       validation_params := validation_params self;
       _compiled := false;
       _compiled_parameters := None |}.
Proof.
  unfold save_data_asset_config.
  destruct (subscript doc "data_asset_name") as [[| | |name| |]|e];
    try discriminate.
  destruct (write name doc (configs self)) as [err|dir]; [discriminate|].
  intros [= <-]. split; [reflexivity|]. split; [reflexivity|].
  apply (register_uncompiled_run run_id vr
           (set_compiled false (set_configs dir self))).
  reflexivity.
Qed.

(** X15, witness: saving over the compiled context of [orders]. *)
Lemma save_invalidates_the_index_witness :
  let saved_self :=
    set_compiled false
      (set_configs (Scenario.directory [Sample.columns_urn])
                   Sample.compiled_orders) in
  _compiled saved_self = false /\
  validation_params saved_self = validation_params Sample.compiled_orders /\
  register_validation_results "run_1" Sample.unindexed_results saved_self =
  register_validation_results "run_1" Sample.unindexed_results
    {| configs := configs saved_self;
       validation_params := validation_params Sample.compiled_orders;
       _compiled := false;
       _compiled_parameters := None |}.
Proof.
  cbv zeta.
  apply (save_invalidates_the_index Sample.write_sample Sample.saved_document
           Sample.compiled_orders).
  reflexivity.
Defined.

(** ** Entries the index does not ask for *)

(** X16: on a compiled context, a validation result of an indexed asset
    none of whose entries has an expectation type listed under the asset is
    passed over: the call returns, logs nothing and leaves the context as it
    was. *)
Theorem unmatched_entries_are_skipped run_id vr self cp name entry :
  _compiled self = true ->
  _compiled_parameters self = Some cp ->
  dict_get "data_asset_name" (meta vr) = Some (JStr name) ->
  dict_get name (data_assets cp) = Some entry ->
  (forall r, In r (results vr) ->
             dict_mem (expectation_type (expectation_config r)) entry = false) ->
  register_validation_results run_id vr self = (self, [], Ret tt).
Proof.
  intros Hc Hcp Hname Hentry Hun.
  rewrite register_validation_results_run, ensure_compiled_run, Hc, Hname, Hcp.
  cbn [json_in_keys]. rewrite set_mem_dict_keys. unfold dict_mem at 1.
  rewrite Hentry.
  assert (H : for_each (results vr) (register_result name) self =
              (self, [], Ret tt)).
  { induction (results vr) as [|r l IH]; [reflexivity|].
    rewrite for_each_cons_run, register_result_run, Hcp, Hentry.
    rewrite (Hun r) by (left; reflexivity).
    rewrite IH; [reflexivity|]. intros x Hx. apply Hun. right. exact Hx. }
  rewrite H. reflexivity.
Qed.

(** X16, witness: an entry of [expect_column_to_exist] for [orders]. *)
Lemma unmatched_entries_are_skipped_witness :
  register_validation_results "run_1" Sample.unindexed_results
    Sample.compiled_orders = (Sample.compiled_orders, [], Ret tt).
Proof.
  apply (unmatched_entries_are_skipped "run_1" Sample.unindexed_results
           Sample.compiled_orders Sample.orders_index "orders"
           Sample.orders_entry); try reflexivity.
  intros r [<-|[]]. reflexivity.
Defined.

(** * The store across runs *)

(** A compilation that completes leaves the context compiled, so the next
    call skips lines 72-73. *)
Lemma ensure_compiled_compiled self self1 w1 :
  ensure_compiled self = (self1, w1, Ret tt) -> _compiled self1 = true.
Proof.
  rewrite ensure_compiled_run.
  destruct (_compiled self) eqn:Hc.
  - intros [= <- _]. exact Hc.
  - rewrite _compile_run.
    destruct (compile_configs (configs self) empty_parameters)
      as [[cp w] [[]|e]]; [|discriminate].
    intros [= <- _]. reflexivity.
Qed.

(** Only the branch of line 97 subscripts where a key may be missing: a set
    that is not under ["details"] is walked to its end. *)
Lemma desired_params_loop_completes r t set self :
  t <> "details" ->
  outcome_of (for_each set (register_desired_param r t) self) = Ret tt.
Proof.
  intros Ht. revert self. induction set as [|x set IH]; intros self;
    [reflexivity|].
  rewrite for_each_cons_run.
  assert (H1 : outcome_of (register_desired_param r t x self) = Ret tt).
  { rewrite register_desired_param_run. cbv zeta.
    destruct (String.eqb t "result"
              && dict_mem (last_part (split_colon x)) (result r)) eqn:Hb.
    - apply andb_prop in Hb as [_ Hmem].
      destruct (dict_mem_true _ _ Hmem) as [v ->]. reflexivity.
    - destruct (String.eqb_spec t "details"); [contradiction | reflexivity]. }
  destruct (register_desired_param r t x self) as [[s1 w1] [[]|e]];
    [|discriminate].
  specialize (IH s1).
  destruct (for_each set (register_desired_param r t) s1) as [[s2 w2] o2].
  exact IH.
Qed.

Lemma column_loop_completes r col self :
  (forall t set, In (t, set) col -> t <> "details") ->
  outcome_of (for_each col (column_loop_body r) self) = Ret tt.
Proof.
  revert self. induction col as [|[t set] col IH]; intros self Hno;
    [reflexivity|].
  rewrite for_each_cons_run. cbn [fst snd].
  pose proof (desired_params_loop_completes r t set self
                (Hno t set (or_introl eq_refl))) as H1.
  destruct (for_each set (register_desired_param r t) self)
    as [[s1 w1] [[]|e]]; [|discriminate].
  specialize (IH s1 (fun t' set' H => Hno t' set' (or_intror H))).
  destruct (for_each col (column_loop_body r) s1) as [[s2 w2] o2].
  exact IH.
Qed.

(** One registration whose first entry reaches line 96: the value is stored
    under the identifier, the loop of line 102 then stops the call, and the
    context stays compiled with the same index. *)
Lemma registration_stores run_id vr self self1 w1 cp name entry cols c col
    set x v :
  ensure_compiled self = (self1, w1, Ret tt) ->
  _compiled_parameters self1 = Some cp ->
  dict_get name (data_assets cp) = Some entry ->
  dict_get "columns" entry = Some (KDict cols) ->
  dict_get c cols = Some col ->
  In ("result", set) col -> In x set ->
  (forall t set', In (t, set') col -> t <> "details") ->
  first_entry_reports name entry c (last_part (split_colon x)) v vr ->
  let run := register_validation_results run_id vr self in
  validation_params (state_of run) !! x = Some v /\
  outcome_of run = Raise ValueError /\
  ensure_compiled (state_of run) = (state_of run, [], Ret tt) /\
  _compiled_parameters (state_of run) = Some cp.
Proof.
  intros Hens Hcp Hentry Hcols Hcol Hin Hx Hno
         (Hname & r & rest & Hres & Hmem & Hkw & Hv).
  pose proof (ensure_compiled_compiled _ _ _ Hens) as Hc.
  cbv zeta. rewrite register_validation_results_run, Hens, Hname, Hcp.
  assert (Hasset : dict_mem name (data_assets cp) = true)
    by (unfold dict_mem; rewrite Hentry; reflexivity).
  cbn [json_in_keys]. rewrite set_mem_dict_keys, Hasset.
  rewrite Hres, for_each_cons_run, register_result_run, Hcp, Hentry, Hmem,
    bind_run.
  assert (Hrun : register_column_params name r self1 =
                 for_each col (column_loop_body r) self1).
  { rewrite register_column_params_run, Hkw, Hcp, Hentry, Hcols.
    cbn [json_in_node json_in_keys]. rewrite set_mem_dict_keys.
    unfold dict_mem. rewrite Hcol. reflexivity. }
  pose proof (preserves_register_column_params
                (fun s => _compiled s = true /\ _compiled_parameters s = Some cp)
                name r (fun vp s H => H) self1 (conj Hc Hcp)) as Hkeep.
  rewrite Hrun in Hkeep |- *.
  pose proof (column_loop_completes r col self1 Hno) as Hret.
  pose proof (column_loop_stores r col self1 set x v Hret Hin Hx Hv
                (fun set' H _ => Hno _ _ H eq_refl)) as Hstore.
  destruct (for_each col (column_loop_body r) self1) as [[s1 u1] o1].
  unfold state_of, outcome_of in Hkeep, Hret, Hstore.
  simpl in Hkeep, Hret, Hstore. subst o1. destruct Hkeep as [Hc1 Hcp1].
  pose proof (register_asset_params_state name r s1) as Hs.
  pose proof (register_asset_params_outcome name r s1 cp entry Hcp1 Hentry)
    as Ho.
  rewrite (columns_key_stops_the_asset_loop entry _ Hcols) in Ho.
  destruct (register_asset_params name r s1) as [[s2 u2] o2].
  unfold state_of, outcome_of in Hs, Ho. simpl in Hs, Ho. subst s2 o2.
  assert (He : ensure_compiled s1 = (s1, [], Ret tt))
    by (rewrite ensure_compiled_run, Hc1; reflexivity).
  unfold state_of, outcome_of. cbv beta iota zeta delta [fst snd].
  repeat split; assumption.
Qed.

(** C4: the run id never reaches the store.  Two registrations that differ
    only in the run id are the same computation; [store_validation_param]
    upserts under the identifier alone; whatever [validation_params] held
    before, a registration changes it by a fixed sequence of upserts, and an
    identifier among them ends with the value of its last upsert.  A
    registration whose first entry reaches line 96 for the identifier [x]
    leaves the entry's value under [x], whatever the run id and whatever was
    stored there; so after a registration under [run_1] reporting [v_1] and
    one under [run_2] reporting [v_2], the store holds [v_2] under [x] and
    the value of the earlier run is gone.  Both calls store before the loop
    of line 102 stops them with [ValueError]. *)
Theorem C4_run_id_never_reaches_the_store :
  (forall run_1 run_2 vr self,
      register_validation_results run_1 vr self =
      register_validation_results run_2 vr self) /\
  (forall key value self,
      store_validation_param key value self =
      (set_validation_params (<[key := value]> (validation_params self)) self,
       [], Ret tt)) /\
  (forall vr self, exists ws,
      forall run_id vp,
        validation_params
          (state_of (register_validation_results run_id vr
                       (set_validation_params vp self))) =
        apply_writes ws vp) /\
  (forall ws key,
      In key (map fst ws) ->
      exists value, forall vp, apply_writes ws vp !! key = Some value) /\
  (forall run_1 run_2 vr_1 vr_2 self self1 w1 cp name entry cols c col set x
          v_1 v_2,
      ensure_compiled self = (self1, w1, Ret tt) ->
      _compiled_parameters self1 = Some cp ->
      dict_get name (data_assets cp) = Some entry ->
      dict_get "columns" entry = Some (KDict cols) ->
      dict_get c cols = Some col ->
      In ("result", set) col -> In x set ->
      (forall t set', In (t, set') col -> t <> "details") ->
      first_entry_reports name entry c (last_part (split_colon x)) v_1 vr_1 ->
      first_entry_reports name entry c (last_part (split_colon x)) v_2 vr_2 ->
      let first := register_validation_results run_1 vr_1 self in
      let second :=
        register_validation_results run_2 vr_2 (state_of first) in
      validation_params (state_of first) !! x = Some v_1 /\
      validation_params (state_of second) !! x = Some v_2 /\
      outcome_of first = Raise ValueError /\
      outcome_of second = Raise ValueError).
Proof.
  split; [reflexivity|]. split; [reflexivity|]. split; [|split].
  - intros vr self.
    destruct (frames_register_validation_results "" vr self)
      as (ws & self1 & w & o & H).
    exists ws. intros run_id vp.
    change (register_validation_results run_id vr)
      with (register_validation_results "" vr).
    rewrite H. reflexivity.
  - apply apply_writes_overrides.
  - intros run_1 run_2 vr_1 vr_2 self self1 w1 cp name entry cols c col set x
           v_1 v_2 Hens Hcp Hentry Hcols Hcol Hin Hx Hno Hr1 Hr2.
    destruct (registration_stores run_1 vr_1 self self1 w1 cp name entry cols
                c col set x v_1 Hens Hcp Hentry Hcols Hcol Hin Hx Hno Hr1)
      as (H1 & Ho1 & Hens1 & Hcp1).
    destruct (registration_stores run_2 vr_2 _ _ [] cp name entry cols c col
                set x v_2 Hens1 Hcp1 Hentry Hcols Hcol Hin Hx Hno Hr2)
      as (H2 & Ho2 & _).
    cbv zeta. repeat split; assumption.
Qed.

(** C4, witness: a fresh context whose stored configuration refers to
    [...:orders:expectations:columns:columns:price:result:min_value].  The
    registration under [run_1] compiles, then stores 5 under the identifier;
    the registration under [run_2] replaces it by 9. *)
Lemma C4_run_id_never_reaches_the_store_witness :
  let self := connect (directory [Sample.columns_urn]) in
  let run_1 :=
    register_validation_results "run_1"
      (Sample.price_results Sample.price_entry) self in
  let run_2 :=
    register_validation_results "run_2"
      (Sample.price_results Sample.repriced_entry) (state_of run_1) in
  validation_params self !! Sample.columns_urn = None /\
  validation_params (state_of run_1) !! Sample.columns_urn = Some (JNum 5) /\
  validation_params (state_of run_2) !! Sample.columns_urn = Some (JNum 9) /\
  outcome_of run_1 = Raise ValueError /\
  outcome_of run_2 = Raise ValueError.
Proof.
  cbv zeta. split; [reflexivity|].
  destruct C4_run_id_never_reaches_the_store as (_ & _ & _ & _ & H).
  apply (H "run_1" "run_2"
           (Sample.price_results Sample.price_entry)
           (Sample.price_results Sample.repriced_entry)
           (connect (directory [Sample.columns_urn]))
           Sample.compiled_columns [] Sample.columns_index "orders"
           Sample.columns_entry [("price", Sample.columns_col)] "price"
           Sample.columns_col [Sample.columns_urn] Sample.columns_urn
           (JNum 5) (JNum 9)).
  - vm_compute. reflexivity.
  - reflexivity.
  - reflexivity.
  - reflexivity.
  - reflexivity.
  - left. reflexivity.
  - left. reflexivity.
  - intros t set' [H'|[]]. injection H' as <- _. discriminate.
  - split; [reflexivity|]. eexists _, _. repeat split; reflexivity.
  - split; [reflexivity|]. eexists _, _. repeat split; reflexivity.
Defined.
